(** * The agent runtime: decision, dispatch, bounded memory and adaptation

    A shallow embedding of [src/lib/agent/agent-engine.ts] (class [AgentEngine])
    and of the learning engine (class [LearningEngine]), with the properties
    the specification states about them.

    Conventions of the embedding.
    - A JavaScript [number] that holds a measure (a confidence, a response
      time, an average) is a binary64 float, [PrimFloat.float]; a number that
      only ever counts or indexes (a length, a capacity, a counter, a priority,
      a time stamp in milliseconds) is an integer, [Z] or [nat].
    - A string is a sequence of code units below 256.
    - A method that mutates [this] and may throw is a function
      [S -> S * (error + A)]: the state reached is kept when an exception is
      thrown, as in JavaScript.
    - [await] is sequencing: one call runs at a time.
    - What the runtime takes from outside (the identifiers of [uuidv4], the
      clock, the language model behind the classifier and the generator,
      [JSON.stringify], the string conversion of a number, an array or an
      object) is an environment passed to the methods.
    - A thrown value is an [Error] object with its message or any other
      value; a [catch] block that reads [error.message] can itself throw. *)

From Stdlib Require Import List String Ascii ZArith Bool Lia PeanoNat.
From Stdlib Require Import Sorting.Sorted Sorting.Permutation.
From Stdlib Require Import Floats.
From Stdlib Require Uint63.
From Stdlib Require DecimalString.
Import ListNotations.

Set Warnings "-inexact-float,-register-all".
Local Open Scope list_scope.
Local Open Scope string_scope.

(** ** JavaScript values, errors and built-ins *)

Module Js.

Definition number := float.

(** What [JSON.parse] returns, and [undefined]. *)
Inductive jsval : Type :=
| VUndefined
| VNull
| VBool (b : bool)
| VNum (n : number)
| VStr (s : string)
| VArr (items : list jsval)
| VObj (props : list (string * jsval)).

(** What a [throw] or a rejected promise carries: an [Error] object of one
    of three classes with its message, or any other value ([throw undefined],
    a promise rejected with [null], a string or a plain object). *)
Inductive error : Type :=
| TypeError (msg : string)
| SyntaxError (msg : string)
| Error (msg : string)
| Thrown (v : jsval).

(** A computation that returns or throws. *)
Definition exn (A : Type) : Type := (error + A)%type.

Definition ok {A} (a : A) : exn A := inr a.
Definition throw {A} (e : error) : exn A := inl e.

Definition bindE {A B} (c : exn A) (k : A -> exn B) : exn B :=
  match c with
  | inl e => inl e
  | inr a => k a
  end.

(** A method on a mutable receiver of type [S]. *)
Definition M (S A : Type) : Type := S -> S * exn A.

Definition ret {S A} (a : A) : M S A := fun s => (s, inr a).
Definition raise {S A} (e : error) : M S A := fun s => (s, inl e).

Definition bind {S A B} (c : M S A) (k : A -> M S B) : M S B :=
  fun s =>
    match c s with
    | (s', inl e) => (s', inl e)
    | (s', inr a) => k a s'
    end.

Definition get {S} : M S S := fun s => (s, inr s).
Definition modify {S} (f : S -> S) : M S unit := fun s => (f s, inr tt).
Definition lift {S A} (c : exn A) : M S A := fun s => (s, c).

(** [try { c } catch (error) { h error }]: the handler starts from the
    state the body had reached. *)
Definition try_catch {S A} (c : M S A) (h : error -> M S A) : M S A :=
  fun s =>
    match c s with
    | (s', inl e) => h e s'
    | (s', inr a) => (s', inr a)
    end.

Fixpoint filterE {A} (p : A -> exn bool) (l : list A) : exn (list A) :=
  match l with
  | [] => ok []
  | x :: l' =>
      bindE (p x) (fun b =>
      bindE (filterE p l') (fun r =>
      ok (if b then x :: r else r)))
  end.

(** *** Numbers *)

(** An integer as a number (exact below 2^53 in magnitude). *)
Definition of_Z (z : Z) : number :=
  if (z <? 0)%Z then (- PrimFloat.of_uint63 (Uint63.of_Z (- z)))%float
  else PrimFloat.of_uint63 (Uint63.of_Z z).

Definition of_nat (n : nat) : number := of_Z (Z.of_nat n).

(** [Math.min(a, b)] and [Math.max(a, b)]: NaN if either is NaN, and
    [-0] below [+0]. *)
Definition Math_min (a b : number) : number :=
  if is_nan a || is_nan b then nan
  else if (b <? a)%float then b
  else if (a <? b)%float then a
  else if get_sign a then a else b.

Definition Math_max (a b : number) : number :=
  if is_nan a || is_nan b then nan
  else if (a <? b)%float then b
  else if (b <? a)%float then a
  else if get_sign a then b else a.

(** [x || 0] on a number that may be absent: 0 for [undefined], NaN and
    either zero. *)
Definition or_zero (x : option number) : number :=
  match x with
  | None => 0%float
  | Some n => if PrimFloat.is_nan n || PrimFloat.is_zero n then 0%float else n
  end.

(** *** Arrays *)

(** [a.slice(start)] for an integer [start]: a negative [start] counts
    from the end, and [-0] is [0]. *)
Definition slice {A} (start : Z) (a : list A) : list A :=
  let len := Z.of_nat (List.length a) in
  let k := if (start <? 0)%Z then Z.max (len + start) 0 else Z.min start len in
  skipn (Z.to_nat k) a.

(** [a[a.length - 1]], [undefined] on the empty array. *)
Definition last_item {A} (a : list A) : option A := List.last (map Some a) None.

(** *** Strings *)

Definition code (c : ascii) : nat := nat_of_ascii c.

(** The white space of [\s] among the code units below 256. *)
Definition is_space (c : ascii) : bool :=
  let n := code c in
  ((9 <=? n)%nat && (n <=? 13)%nat) || (n =? 32)%nat || (n =? 160)%nat.

Definition lower_char (c : ascii) : ascii :=
  let n := code c in
  if ((65 <=? n)%nat && (n <=? 90)%nat)
     || ((192 <=? n)%nat && (n <=? 222)%nat && negb (n =? 215)%nat)
  then ascii_of_nat (n + 32) else c.

Fixpoint toLowerCase (s : string) : string :=
  match s with
  | EmptyString => EmptyString
  | String c s' => String (lower_char c) (toLowerCase s')
  end.

(** [s.split(/\s+/)]: the pieces between maximal runs of white space; a
    run at either end leaves an empty piece there, and the empty string
    gives one empty piece. [split_from in_run cur s] carries the piece being
    read, reversed, and whether the last unit read was white space. *)
Fixpoint rev_string (acc s : string) : string :=
  match s with
  | EmptyString => acc
  | String c s' => rev_string (String c acc) s'
  end.

Fixpoint split_from (in_run : bool) (cur : string) (s : string) : list string :=
  match s with
  | EmptyString => [rev_string EmptyString cur]
  | String c s' =>
      if is_space c then
        if in_run then split_from true cur s'
        else rev_string EmptyString cur :: split_from true EmptyString s'
      else split_from false (String c cur) s'
  end.

Definition split_ws (s : string) : list string := split_from false EmptyString s.

(** [s.includes(sub)]. *)
Fixpoint includes (sub s : string) : bool :=
  String.prefix sub s ||
  match s with
  | EmptyString => false
  | String _ s' => includes sub s'
  end.

Fixpoint drop (n : nat) (s : string) : string :=
  match n, s with
  | O, _ => s
  | S n', String _ s' => drop n' s'
  | S _, EmptyString => EmptyString
  end.

(** [s.replace(pat, rep)] with a string pattern: the first occurrence only. *)
Fixpoint replace (pat rep s : string) : string :=
  if String.prefix pat s then rep ++ drop (String.length pat) s
  else match s with
       | EmptyString => EmptyString
       | String c s' => String c (replace pat rep s')
       end.

(** The decimal digits of a length, as a template literal prints it. *)
Definition show_nat (n : nat) : string :=
  DecimalString.NilEmpty.string_of_uint (Nat.to_uint n).

Definition newline : string := String (ascii_of_nat 10) EmptyString.
Definition quote : string := String (ascii_of_nat 34) EmptyString.

(** *** JSON-shaped values *)

Fixpoint assoc {V} (k : string) (l : list (string * V)) : option V :=
  match l with
  | [] => None
  | (k', v) :: l' => if String.eqb k k' then Some v else assoc k l'
  end.

(** [v.name] (also [const { name } = v]): a [TypeError] on [undefined] and
    [null], [undefined] for a property the value does not have. *)
Definition prop (v : jsval) (name : string) : exn jsval :=
  match v with
  | VUndefined =>
      throw (TypeError ("Cannot read properties of undefined (reading '" ++ name ++ "')"))
  | VNull =>
      throw (TypeError ("Cannot read properties of null (reading '" ++ name ++ "')"))
  | VObj props =>
      ok (match assoc name props with Some x => x | None => VUndefined end)
  | VArr items =>
      ok (if String.eqb name "length" then VNum (of_nat (List.length items)) else VUndefined)
  | VStr s =>
      ok (if String.eqb name "length" then VNum (of_nat (String.length s)) else VUndefined)
  | VBool _ | VNum _ => ok VUndefined
  end.

(** [error.message], which a [catch] block reads: the message of an
    [Error] object, the [message] property of any other value, and a
    [TypeError] on [undefined] and [null]. *)
Definition message (e : error) : exn jsval :=
  match e with
  | TypeError m | SyntaxError m | Error m => ok (VStr m)
  | Thrown v => prop v "message"
  end.

(** The text that a template literal prints for [v]. [show] is [String(v)]
    for a number, an array and an object, which may throw. *)
Definition template (show : jsval -> exn string) (v : jsval) : exn string :=
  match v with
  | VUndefined => ok "undefined"
  | VNull => ok "null"
  | VBool b => ok (if b then "true" else "false")
  | VStr s => ok s
  | VNum _ | VArr _ | VObj _ => show v
  end.

(** Truthiness, as [||] and [if] read a value. *)
Definition truthy (v : jsval) : bool :=
  match v with
  | VUndefined | VNull => false
  | VBool b => b
  | VNum n => negb (PrimFloat.is_nan n || PrimFloat.is_zero n)
  | VStr s => negb (String.eqb s "")
  | VArr _ | VObj _ => true
  end.

(** [v === "s"]. *)
Definition is_string (v : jsval) (s : string) : bool :=
  match v with
  | VStr s' => String.eqb s' s
  | _ => false
  end.

(** The key comparison of a [Map] (SameValueZero). Every object that
    [JSON.parse] builds is a fresh one, so two of them are never the same
    key. *)
Definition same_key (a b : jsval) : bool :=
  match a, b with
  | VUndefined, VUndefined => true
  | VNull, VNull => true
  | VBool x, VBool y => Bool.eqb x y
  | VNum x, VNum y => (x =? y)%float || (is_nan x && is_nan y)
  | VStr x, VStr y => String.eqb x y
  | _, _ => false
  end.

End Js.

Declare Scope js_scope.
Delimit Scope js_scope with js.
Notation "x <- c ;; k" := (Js.bind c (fun x => k))
  (at level 61, c at next level, right associativity) : js_scope.
Notation "c ;; k" := (Js.bind c (fun _ => k))
  (at level 61, right associativity) : js_scope.
Notation "'let?' x := c 'in' k" := (Js.bindE c (fun x => k))
  (at level 61, x name, c at next level, right associativity) : js_scope.

(** ** [Map<K, V>]: an association list in insertion order *)

Module JsMap.
Section WithKey.
Context {K V : Type}.
Variable eqb : K -> K -> bool.

Definition t : Type := list (K * V).
Definition empty : t := [].

Fixpoint get (k : K) (m : t) : option V :=
  match m with
  | [] => None
  | (k', v) :: m' => if eqb k k' then Some v else get k m'
  end.

Definition has (k : K) (m : t) : bool :=
  match get k m with Some _ => true | None => false end.

(** [m.set(k, v)]: a key already present keeps its place. *)
Fixpoint set (k : K) (v : V) (m : t) : t :=
  match m with
  | [] => [(k, v)]
  | (k', v') :: m' => if eqb k k' then (k', v) :: m' else (k', v') :: set k v m'
  end.

Definition delete (k : K) (m : t) : t :=
  filter (fun kv => negb (eqb k (fst kv))) m.

Definition keys (m : t) : list K := map fst m.
Definition values (m : t) : list V := map snd m.
End WithKey.
Arguments t : clear implicits.
End JsMap.

(** ** The data model ([types.ts]) *)

Module Types.
Import Js.

Inductive Role : Type := user | assistant | system.

Inductive DecisionType : Type :=
| tool_execution | response_generation | planning | learning.

Inductive MemoryType : Type :=
| m_conversation | m_tool_result | m_learning | m_pattern.

Inductive Category : Type :=
| file | web | code | system_cat | deployment | communication.

Inductive SafetyLevel : Type := low | medium | high.

Definition role_name (r : Role) : string :=
  match r with user => "user" | assistant => "assistant" | system => "system" end.

Definition type_name (t : DecisionType) : string :=
  match t with
  | tool_execution => "tool_execution"
  | response_generation => "response_generation"
  | planning => "planning"
  | learning => "learning"
  end.

Definition category_name (c : Category) : string :=
  match c with
  | file => "file" | web => "web" | code => "code" | system_cat => "system"
  | deployment => "deployment" | communication => "communication"
  end.

(** [metadata: { decisionId, responseTime }] of an assistant message. *)
Record Metadata : Type := {
  decisionId : string;
  responseTime : Z
}.

Record AgentMessage : Type := {
  msg_id : string;
  role : Role;
  content : string;
  msg_timestamp : Z;
  metadata : option Metadata
}.

(** The [action] of a decision: one of the three object literals that
    [determineBestAction] builds. *)
Inductive Action : Type :=
| ToolAction (toolId : string) (parameters : jsval)
| PlanAction (intent entities : jsval)
| ReplyAction (message : jsval).

Record AgentDecision : Type := {
  dec_id : string;
  dec_type : DecisionType;
  confidence : number;
  reasoning : string;
  action : Action;
  dec_timestamp : Z
}.

(** The [content] of a memory record: one of the three object literals
    handed to [storeMemory]. *)
Inductive MemoryContent : Type :=
| Conversation (userMessage assistantMessage : AgentMessage) (decision : AgentDecision)
| ToolResult (toolId : string) (parameters result : jsval)
| LearningNote (message : string) (timestamp : Z).

Record AgentMemory : Type := {
  mem_id : string;
  mem_type : MemoryType;
  mem_content : MemoryContent;
  mem_timestamp : Z;
  relevance : option number
}.

(** [execute] is asynchronous and may reject; [safetyCheck] is optional and,
    like any function, may throw. *)
Record AgentTool : Type := {
  tool_id : string;
  tool_name : string;
  tool_description : string;
  category : Category;
  tool_parameters : jsval;
  execute : jsval -> exn jsval;
  safetyCheck : option (jsval -> exn bool)
}.

Record AgentConfig : Type := {
  name : string;
  description : string;
  capabilities : list string;
  safetyLevel : SafetyLevel;
  learningEnabled : bool;
  maxMemorySize : Z;
  config_tools : list AgentTool
}.

Record Performance : Type := {
  totalInteractions : Z;
  successfulActions : Z;
  averageResponseTime : number;
  learningProgress : number
}.

Record AgentState : Type := {
  config : AgentConfig;
  messages : list AgentMessage;
  memory : list AgentMemory;
  decisions : list AgentDecision;
  performance : Performance
}.

(** The values as objects, for the places where the code reads one through
    a property name. A [Date] is written as its time value. *)
Definition date_to_js (t : Z) : jsval := VNum (of_Z t).

Definition message_to_js (m : AgentMessage) : jsval :=
  VObj ([("id", VStr (msg_id m)); ("role", VStr (role_name (role m)));
         ("content", VStr (content m)); ("timestamp", date_to_js (msg_timestamp m))]
        ++ match metadata m with
           | None => []
           | Some md => [("metadata", VObj [("decisionId", VStr (decisionId md));
                                           ("responseTime", VNum (of_Z (responseTime md)))])]
           end)%list.

Definition action_to_js (a : Action) : jsval :=
  match a with
  | ToolAction toolId parameters => VObj [("toolId", VStr toolId); ("parameters", parameters)]
  | PlanAction intent entities => VObj [("intent", intent); ("entities", entities)]
  | ReplyAction message => VObj [("message", message)]
  end.

Definition decision_to_js (d : AgentDecision) : jsval :=
  VObj [("id", VStr (dec_id d)); ("type", VStr (type_name (dec_type d)));
        ("confidence", VNum (confidence d)); ("reasoning", VStr (reasoning d));
        ("action", action_to_js (action d)); ("timestamp", date_to_js (dec_timestamp d))].

Definition content_to_js (c : MemoryContent) : jsval :=
  match c with
  | Conversation um am d =>
      VObj [("userMessage", message_to_js um); ("assistantMessage", message_to_js am);
            ("decision", decision_to_js d)]
  | ToolResult toolId parameters result =>
      VObj [("toolId", VStr toolId); ("parameters", parameters); ("result", result)]
  | LearningNote message timestamp =>
      VObj [("message", VStr message); ("timestamp", date_to_js timestamp)]
  end.

End Types.

(** ** The agent engine ([agent-engine.ts]) *)

Module Agent.
Import Js Types.
Local Open Scope js_scope.

(** [getContext()] returns an object literal with these four properties. *)
Record Context : Type := {
  recentMessages : list AgentMessage;
  ctx_memory : list AgentMemory;
  ctx_performance : Performance;
  availableTools : list string
}.

Inductive ContextField : Type :=
| FMessages (l : list AgentMessage)
| FMemory (l : list AgentMemory)
| FPerformance (p : Performance)
| FTools (l : list string).

Definition Context_fields (c : Context) : list (string * ContextField) :=
  [("recentMessages", FMessages (recentMessages c));
   ("memory", FMemory (ctx_memory c));
   ("performance", FPerformance (ctx_performance c));
   ("availableTools", FTools (availableTools c))].

(** [context.name]: [None] is [undefined]. *)
Definition Context_get (c : Context) (name : string) : option ContextField :=
  assoc name (Context_fields c).

(** What the engine takes from outside.
    - [uuidv4 n], [clock n]: the identifier and the time in milliseconds
      that the [n]-th call to [uuidv4()], [Date.now()] or [new Date()] gives.
    - [classify message context]: the body of the [try] in [analyzeIntent]
      (load the client, request a completion for the prompt built from the
      message and the context, [JSON.parse] its content); any failure on
      the way is an error.
    - [generate message context]: the same for the [try] in
      [generateResponse].
    - [stringify v]: [JSON.stringify(v, null, 2)].
    - [display v]: [String(v)] for a number, an array or an object, as a
      template literal prints it; the conversion of an object may throw. *)
Record Env : Type := {
  uuidv4 : nat -> string;
  clock : nat -> Z;
  classify : string -> Context -> exn jsval;
  generate : string -> Context -> exn string;
  stringify : jsval -> string;
  display : jsval -> exn string
}.

(** The receiver: the two private fields, the number of identifiers and
    clock readings drawn so far, and the trace of the calls made to
    [tool.execute] (tool id and parameters). *)
Record AgentEngine : Type := {
  state : AgentState;
  tools : JsMap.t string AgentTool;
  ticks : nat;
  executed : list (string * jsval)
}.

Definition set_state (f : AgentState -> AgentState) (e : AgentEngine) : AgentEngine :=
  {| state := f (state e); tools := tools e; ticks := ticks e; executed := executed e |}.

Definition set_tools (f : JsMap.t string AgentTool -> JsMap.t string AgentTool)
  (e : AgentEngine) : AgentEngine :=
  {| state := state e; tools := f (tools e); ticks := ticks e; executed := executed e |}.

Definition set_messages (f : list AgentMessage -> list AgentMessage) (s : AgentState) : AgentState :=
  {| config := config s; messages := f (messages s); memory := memory s;
     decisions := decisions s; performance := performance s |}.

Definition set_memory (f : list AgentMemory -> list AgentMemory) (s : AgentState) : AgentState :=
  {| config := config s; messages := messages s; memory := f (memory s);
     decisions := decisions s; performance := performance s |}.

Definition set_decisions (f : list AgentDecision -> list AgentDecision) (s : AgentState) : AgentState :=
  {| config := config s; messages := messages s; memory := memory s;
     decisions := f (decisions s); performance := performance s |}.

Definition set_performance (f : Performance -> Performance) (s : AgentState) : AgentState :=
  {| config := config s; messages := messages s; memory := memory s;
     decisions := decisions s; performance := f (performance s) |}.

Definition set_config (f : AgentConfig -> AgentConfig) (s : AgentState) : AgentState :=
  {| config := f (config s); messages := messages s; memory := memory s;
     decisions := decisions s; performance := performance s |}.

Definition set_config_tools (f : list AgentTool -> list AgentTool) (c : AgentConfig) : AgentConfig :=
  {| name := name c; description := description c; capabilities := capabilities c;
     safetyLevel := safetyLevel c; learningEnabled := learningEnabled c;
     maxMemorySize := maxMemorySize c; config_tools := f (config_tools c) |}.

Definition tools_set (tool : AgentTool) (m : JsMap.t string AgentTool) : JsMap.t string AgentTool :=
  JsMap.set String.eqb (tool_id tool) tool m.

(** [constructor(config)] *)
Definition new (cfg : AgentConfig) : AgentEngine :=
  {| state := {| config := cfg; messages := []; memory := []; decisions := [];
                 performance := {| totalInteractions := 0%Z; successfulActions := 0%Z;
                                   averageResponseTime := 0%float;
                                   learningProgress := 0%float |} |};
     tools := fold_left (fun m tool => tools_set tool m) (config_tools cfg) JsMap.empty;
     ticks := 0;
     executed := [] |}.

Section WithEnv.
Variable env : Env.

Definition tick : M AgentEngine nat :=
  fun e => ({| state := state e; tools := tools e; ticks := S (ticks e);
               executed := executed e |}, inr (ticks e)).

(** [uuidv4()] *)
Definition uuid : M AgentEngine string := n <- tick ;; ret (uuidv4 env n).

(** [Date.now()], and the time value of [new Date()] *)
Definition now : M AgentEngine Z := n <- tick ;; ret (clock env n).

(** [storeMemory(memory)] *)
Definition storeMemory (m : AgentMemory) (e : AgentEngine) : AgentEngine :=
  let pushed := (memory (state e) ++ [m])%list in
  let cap := maxMemorySize (config (state e)) in
  set_state (set_memory (fun _ =>
    if (Z.of_nat (List.length pushed) >? cap)%Z then slice (- cap) pushed else pushed)) e.

(** [updatePerformance(responseTime, successful)] *)
Definition updatePerformance (rt : Z) (successful : bool) (e : AgentEngine) : AgentEngine :=
  set_state (set_performance (fun p =>
    let total := (totalInteractions p + 1)%Z in
    {| totalInteractions := total;
       successfulActions :=
         if successful then (successfulActions p + 1)%Z else successfulActions p;
       averageResponseTime :=
         ((averageResponseTime p * of_Z (total - 1) + of_Z rt) / of_Z total)%float;
       learningProgress := learningProgress p |})) e.

(** [getContext()] *)
Definition getContext (e : AgentEngine) : Context :=
  {| recentMessages := slice (-10) (messages (state e));
     ctx_memory := slice (-20) (memory (state e));
     ctx_performance := performance (state e);
     availableTools := JsMap.keys (tools e) |}.

(** [analyzeIntent(message, context)]: the classifier's answer, or the
    fallback of the [catch]. *)
Definition fallback_intent : jsval :=
  VObj [("intent", VStr "response_generation"); ("entities", VObj []);
        ("urgency", VStr "medium"); ("complexity", VStr "simple")].

Definition analyzeIntent (message : string) (context : Context) : jsval :=
  match classify env message context with
  | inr intent => intent
  | inl _ => fallback_intent
  end.

(** [primaryIntent.replace('_operation', '').replace('_search', '')
    .replace('_generation', '')]: only a string has [replace]. *)
Definition intent_category (primaryIntent : jsval) : exn string :=
  match primaryIntent with
  | VStr s => ok (replace "_generation" "" (replace "_search" "" (replace "_operation" "" s)))
  | VUndefined =>
      throw (TypeError "Cannot read properties of undefined (reading 'replace')")
  | VNull => throw (TypeError "Cannot read properties of null (reading 'replace')")
  | _ => throw (TypeError "primaryIntent.replace is not a function")
  end.

(** [`${v}`] where the code has just used [v] as a string. *)
Definition text (v : jsval) : string :=
  match v with VStr s => s | _ => "" end.

(** [field[field.length - 1]?.content || ''] *)
Definition latest_content (field : ContextField) : jsval :=
  match field with
  | FMessages l =>
      match last_item l with Some m => VStr (content m) | None => VStr "" end
  | FMemory l =>
      match last_item l with Some m => content_to_js (mem_content m) | None => VStr "" end
  | FPerformance _ => VStr ""
  | FTools _ => VStr ""
  end.

(** The object literal that [determineBestAction] returns. *)
Record Choice : Type := {
  choice_type : DecisionType;
  choice_confidence : number;
  choice_reasoning : string;
  choice_action : Action
}.

(** [determineBestAction(intent, context)] *)
Definition determineBestAction (e : AgentEngine) (intent : jsval) (context : Context)
  : exn Choice :=
  let? primaryIntent := prop intent "intent" in
  let? entities := prop intent "entities" in
  let? urgency := prop intent "urgency" in
  let? complexity := prop intent "complexity" in
  let? relevantTools :=
    filterE (fun tool =>
               let? c := intent_category primaryIntent in
               ok (String.eqb (category_name (category tool)) c))
            (JsMap.values (tools e)) in
  match relevantTools, safetyLevel (config (state e)) with
  | first :: _, (low | medium) =>
      ok {| choice_type := tool_execution;
            choice_confidence := 0.8%float;
            choice_reasoning :=
              "Found " ++ show_nat (List.length relevantTools)
              ++ " relevant tools for intent: " ++ text primaryIntent;
            choice_action := ToolAction (tool_id first) entities |}
  | _, _ =>
      if is_string complexity "complex" && learningEnabled (config (state e)) then
        ok {| choice_type := planning;
              choice_confidence := 0.7%float;
              choice_reasoning := "Complex request requires planning";
              choice_action := PlanAction intent entities |}
      else
        match Context_get context "messages" with
        | None =>
            throw (TypeError "Cannot read properties of undefined (reading 'length')")
        | Some field =>
            ok {| choice_type := response_generation;
                  choice_confidence := 0.6%float;
                  choice_reasoning := "Default response generation";
                  choice_action := ReplyAction (latest_content field) |}
        end
  end.

(** [makeDecision(message)] *)
Definition makeDecision (message : string) : M AgentEngine AgentDecision :=
  e <- get ;;
  let context := getContext e in
  let intent := analyzeIntent message context in
  choice <- lift (determineBestAction e intent context) ;;
  id <- uuid ;;
  ts <- now ;;
  ret {| dec_id := id; dec_type := choice_type choice;
         confidence := choice_confidence choice; reasoning := choice_reasoning choice;
         action := choice_action choice; dec_timestamp := ts |}.

Definition record_call (toolId : string) (parameters : jsval) (e : AgentEngine) : AgentEngine :=
  {| state := state e; tools := tools e; ticks := ticks e;
     executed := (executed e ++ [(toolId, parameters)])%list |}.

(** [`${error.message}`], as the two [catch] blocks print it. *)
Definition message_text (error : error) : exn string :=
  let? m := message error in
  template (display env) m.

(** [executeTool(action)] *)
Definition executeTool (a : Action) : M AgentEngine string :=
  match a with
  | ToolAction toolId parameters =>
      e <- get ;;
      match JsMap.get String.eqb toolId (tools e) with
      | None => ret ("Tool not found: " ++ toolId)
      | Some tool =>
          passed <- match safetyCheck tool with
                    | None => ret true
                    | Some check => lift (check parameters)
                    end ;;
          if negb passed then ret ("Safety check failed for tool: " ++ tool_name tool)
          else
            try_catch
              (modify (record_call toolId parameters) ;;
               result <- lift (execute tool parameters) ;;
               id <- uuid ;;
               ts <- now ;;
               modify (storeMemory {| mem_id := id; mem_type := m_tool_result;
                                      mem_content := ToolResult toolId parameters result;
                                      mem_timestamp := ts; relevance := None |}) ;;
               ret ("Successfully executed " ++ tool_name tool ++ ". Result: "
                    ++ stringify env result))
              (fun error =>
                 text <- lift (message_text error) ;;
                 ret ("Error executing " ++ tool_name tool ++ ": " ++ text))
      end
  | PlanAction _ _ | ReplyAction _ => ret "Tool not found: undefined"
  end.

(** [generateResponse(message)] *)
Definition generateResponse (msg : string) : M AgentEngine string :=
  e <- get ;;
  match generate env msg (getContext e) with
  | inr response => ret response
  | inl _ =>
      ret ("I understand your message: " ++ quote ++ msg ++ quote
           ++ ". However, I'm having trouble generating a response right now. Please try again.")
  end.

(** [createPlan(message)] *)
Definition createPlan (msg : string) : M AgentEngine string :=
  ret ("I'll create a plan to handle your complex request: " ++ quote ++ msg ++ quote
       ++ newline ++ newline ++ "This requires multiple steps. Let me break it down:"
       ++ newline ++ "1. Analyze requirements"
       ++ newline ++ "2. Identify necessary tools"
       ++ newline ++ "3. Execute step-by-step"
       ++ newline ++ "4. Validate results"
       ++ newline ++ newline ++ "Would you like me to proceed with this plan?").

(** [learnFromInteraction(message)] *)
Definition learnFromInteraction (msg : string) : M AgentEngine string :=
  modify (set_state (set_performance (fun p =>
    {| totalInteractions := totalInteractions p; successfulActions := successfulActions p;
       averageResponseTime := averageResponseTime p;
       learningProgress := (learningProgress p + 0.1)%float |}))) ;;
  id <- uuid ;;
  noted <- now ;;
  ts <- now ;;
  modify (storeMemory {| mem_id := id; mem_type := m_learning;
                         mem_content := LearningNote msg noted;
                         mem_timestamp := ts; relevance := None |}) ;;
  ret "I'm learning from this interaction to better serve you in the future.".

(** The [switch (decision.type)] of [processMessage]. *)
Definition dispatch (decision : AgentDecision) (msg : string) : M AgentEngine string :=
  match dec_type decision with
  | tool_execution => executeTool (action decision)
  | response_generation => generateResponse msg
  | planning => createPlan msg
  | learning => learnFromInteraction msg
  end.

(** [processMessage(message)] *)
Definition processMessage (msg : string) : M AgentEngine string :=
  startTime <- now ;;
  uid <- uuid ;;
  uts <- now ;;
  let userMessage :=
    {| msg_id := uid; role := user; content := msg; msg_timestamp := uts;
       metadata := None |} in
  modify (set_state (set_messages (fun l => l ++ [userMessage])%list)) ;;
  decision <- makeDecision msg ;;
  modify (set_state (set_decisions (fun l => l ++ [decision])%list)) ;;
  try_catch
    (response <- dispatch decision msg ;;
     finished <- now ;;
     let rt := (finished - startTime)%Z in
     modify (updatePerformance rt true) ;;
     aid <- uuid ;;
     ats <- now ;;
     let assistantMessage :=
       {| msg_id := aid; role := assistant; content := response; msg_timestamp := ats;
          metadata := Some {| decisionId := dec_id decision; responseTime := rt |} |} in
     modify (set_state (set_messages (fun l => l ++ [assistantMessage])%list)) ;;
     mid <- uuid ;;
     mts <- now ;;
     modify (storeMemory {| mem_id := mid; mem_type := m_conversation;
                            mem_content := Conversation userMessage assistantMessage decision;
                            mem_timestamp := mts; relevance := None |}) ;;
     ret response)
    (fun error =>
       failed <- now ;;
       modify (updatePerformance (failed - startTime)%Z false) ;;
       text <- lift (message_text error) ;;
       ret ("I encountered an error: " ++ text)).

(** [addTool], [removeTool], [getTools], [clearMemory] *)
Definition addTool (tool : AgentTool) (e : AgentEngine) : AgentEngine :=
  set_state (set_config (set_config_tools (fun l => l ++ [tool])%list))
            (set_tools (tools_set tool) e).

Definition removeTool (toolId : string) (e : AgentEngine) : AgentEngine :=
  set_state (set_config (set_config_tools
               (filter (fun t => negb (String.eqb (tool_id t) toolId)))))
            (set_tools (JsMap.delete String.eqb toolId) e).

Definition getTools (e : AgentEngine) : list AgentTool := JsMap.values (tools e).

Definition clearMemory (e : AgentEngine) : AgentEngine :=
  set_state (set_memory (fun _ => [])) e.

End WithEnv.
End Agent.

(** ** Importing a saved state ([AgentEngine.importState]) *)

Module StateImport.
Import Js Types.
Local Open Scope js_scope.

(** [importState] assigns what [JSON.parse] returned to [this.state] and
    fills [this.tools] from it, so here the two private fields hold either
    what the constructor built or a parsed document. *)
Inductive StateSlot : Type :=
| Built (s : AgentState)
| Parsed (doc : jsval).

Inductive ToolSlot : Type :=
| BuiltTool (t : AgentTool)
| ParsedTool (doc : jsval).

Record Engine : Type := {
  state : StateSlot;
  tools : JsMap.t jsval ToolSlot
}.

(** An engine as the constructor and [processMessage] leave it. *)
Definition of_engine (e : Agent.AgentEngine) : Engine :=
  {| state := Built (Agent.state e);
     tools := map (fun kv => (VStr (fst kv), BuiltTool (snd kv))) (Agent.tools e) |}.

Definition set_state (s : StateSlot) (e : Engine) : Engine :=
  {| state := s; tools := tools e |}.

Definition set_tools (f : JsMap.t jsval ToolSlot -> JsMap.t jsval ToolSlot) (e : Engine) : Engine :=
  {| state := state e; tools := f (tools e) |}.

(** [tools.forEach(tool => this.tools.set(tool.id, tool))] *)
Fixpoint rebuild (items : list jsval) : M Engine unit :=
  match items with
  | [] => ret tt
  | tool :: rest =>
      id <- lift (prop tool "id") ;;
      modify (set_tools (JsMap.set same_key id (ParsedTool tool))) ;;
      rebuild rest
  end.

(** [importState(stateJson)], given what [JSON.parse(stateJson)] evaluates
    to: a value, or a [SyntaxError]. *)
Definition importState (parsed : exn jsval) : M Engine unit :=
  try_catch
    (importedState <- lift parsed ;;
     modify (set_state (Parsed importedState)) ;;
     modify (set_tools (fun _ => JsMap.empty)) ;;
     cfg <- lift (prop importedState "config") ;;
     toolList <- lift (prop cfg "tools") ;;
     match toolList with
     | VArr items => rebuild items
     | _ =>
         lift (prop toolList "forEach") ;;
         raise (TypeError "importedState.config.tools.forEach is not a function")
     end)
    (fun _ => raise (Error "Invalid state format")).

End StateImport.

(** ** The learning engine ([LearningEngine]) *)

Module Learning.
Import Js Types.
Local Open Scope js_scope.

Record PatternData : Type := {
  patterns : list string;
  response : string;
  pat_confidence : number;
  occurrences : option nat
}.

Record PerformanceEntry : Type := {
  perf_timestamp : Z;
  decisionType : DecisionType;
  perf_confidence : number;
  perf_responseTime : number;
  success : bool
}.

(** The [context] of [learnFromInteraction]: an object of which any
    property may be absent. Of [context.memory] only the length is read. *)
Record Context : Type := {
  ctx_performance : option Performance;
  ctx_memory : option (list AgentMemory);
  ctx_responseTime : option number
}.

(** An adaptation rule. A rule that came through JSON has no [condition]. *)
Record Rule : Type := {
  condition : option (Context -> exn bool);
  rule_action : string;
  priority : Z
}.

Record Insight : Type := {
  ins_timestamp : Z;
  ins_message : string;
  ins_response : string;
  ins_decision : AgentDecision;
  ins_patterns : list string;
  ins_success : bool
}.

(** A line written by [console.log] or [console.error]. *)
Inductive LogLine : Type :=
| Log (text : string)
| LogInsight (text : string) (insight : Insight)
| LogError (text : string) (e : error).

(** The receiver: the three private fields, the console, and the number
    of clock readings taken so far. *)
Record LearningEngine : Type := {
  pattern_table : JsMap.t string PatternData;
  performanceHistory : list PerformanceEntry;
  adaptationRules : JsMap.t string Rule;
  console : list LogLine;
  ticks : nat
}.

Definition set_patterns (f : JsMap.t string PatternData -> JsMap.t string PatternData)
  (e : LearningEngine) : LearningEngine :=
  {| pattern_table := f (pattern_table e); performanceHistory := performanceHistory e;
     adaptationRules := adaptationRules e; console := console e; ticks := ticks e |}.

Definition set_history (f : list PerformanceEntry -> list PerformanceEntry)
  (e : LearningEngine) : LearningEngine :=
  {| pattern_table := pattern_table e; performanceHistory := f (performanceHistory e);
     adaptationRules := adaptationRules e; console := console e; ticks := ticks e |}.

Definition set_rules (f : JsMap.t string Rule -> JsMap.t string Rule)
  (e : LearningEngine) : LearningEngine :=
  {| pattern_table := pattern_table e; performanceHistory := performanceHistory e;
     adaptationRules := f (adaptationRules e); console := console e; ticks := ticks e |}.

Definition console_write (l : LogLine) (e : LearningEngine) : LearningEngine :=
  {| pattern_table := pattern_table e; performanceHistory := performanceHistory e;
     adaptationRules := adaptationRules e; console := (console e ++ [l])%list;
     ticks := ticks e |}.

Definition seed (key : string) (phrases : list string) (resp : string) (conf : number)
  : JsMap.t string PatternData -> JsMap.t string PatternData :=
  JsMap.set String.eqb key
    {| patterns := phrases; response := resp; pat_confidence := conf; occurrences := None |}.

(** [initializePatterns()] *)
Definition initializePatterns : LearningEngine -> LearningEngine :=
  set_patterns (fun t =>
    seed "system_command" ["run command"; "execute"; "system"; "terminal"; "bash"]
         "system" 0.7%float
    (seed "code_request" ["generate code"; "write code"; "create function"; "implement"; "code"]
          "code" 0.8%float
    (seed "file_operation" ["read file"; "write file"; "delete file"; "create file"; "list files"]
          "file" 0.7%float
    (seed "help_request" ["help"; "assist"; "support"; "how do i"; "can you help"]
          "help" 0.8%float
    (seed "greeting" ["hello"; "hi"; "hey"; "good morning"; "good afternoon"; "good evening"]
          "greeting" 0.9%float t))))).

Definition response_time_slow (context : Context) : exn bool :=
  match ctx_performance context with
  | None => throw (TypeError "Cannot read properties of undefined (reading 'averageResponseTime')")
  | Some p => ok (5000 <? averageResponseTime p)%float
  end.

Definition success_rate_low (context : Context) : exn bool :=
  match ctx_performance context with
  | None => throw (TypeError "Cannot read properties of undefined (reading 'successfulActions')")
  | Some p =>
      let successRate := (of_Z (successfulActions p) / of_Z (totalInteractions p))%float in
      ok (successRate <? 0.8)%float
  end.

Definition memory_large (context : Context) : exn bool :=
  match ctx_memory context with
  | None => throw (TypeError "Cannot read properties of undefined (reading 'length')")
  | Some l => ok (1000 <? List.length l)%nat
  end.

(** [initializeAdaptationRules()] *)
Definition initializeAdaptationRules : LearningEngine -> LearningEngine :=
  set_rules (fun r =>
    JsMap.set String.eqb "memory_optimization"
      {| condition := Some memory_large; rule_action := "cleanup_memory"; priority := 3 |}
    (JsMap.set String.eqb "success_rate_improvement"
      {| condition := Some success_rate_low; rule_action := "increase_safety_checks";
         priority := 2 |}
    (JsMap.set String.eqb "response_time_optimization"
      {| condition := Some response_time_slow; rule_action := "reduce_complexity";
         priority := 1 |} r))).

(** [constructor()] *)
Definition new : LearningEngine :=
  initializeAdaptationRules
    (initializePatterns
       {| pattern_table := JsMap.empty; performanceHistory := [];
          adaptationRules := JsMap.empty; console := []; ticks := 0 |}).

(** The two loops of [extractPatterns]. *)
Fixpoint bigrams (words : list string) : list string :=
  match words with
  | a :: (b :: _) as rest => (a ++ " " ++ b) :: bigrams rest
  | _ => []
  end.

Fixpoint trigrams (words : list string) : list string :=
  match words with
  | a :: (b :: c :: _) as rest => (a ++ " " ++ b ++ " " ++ c) :: trigrams rest
  | _ => []
  end.

Definition keyPhrases : list string :=
  ["help me"; "how to"; "what is"; "can you"; "please";
   "thank you"; "i want"; "i need"; "show me"; "tell me"].

(** [extractPatterns(content)] *)
Definition extractPatterns (content : string) : list string :=
  let words := split_ws (toLowerCase content) in
  (bigrams words ++ trigrams words
   ++ filter (fun phrase => includes phrase (toLowerCase content)) keyPhrases)%list.

(** One turn of the [forEach] in [updatePatternRecognition]. *)
Definition update_pattern (decision : AgentDecision)
  (table : JsMap.t string PatternData) (pattern : string) : JsMap.t string PatternData :=
  match JsMap.get String.eqb pattern table with
  | None =>
      JsMap.set String.eqb pattern
        {| patterns := [pattern]; response := type_name (dec_type decision);
           pat_confidence := 0.5%float; occurrences := Some 1 |} table
  | Some patternData =>
      JsMap.set String.eqb pattern
        {| patterns := patterns patternData;
           response := response patternData;
           pat_confidence :=
             if (0.7 <? confidence decision)%float
             then Math_min 1%float (pat_confidence patternData + 0.1)%float
             else Math_max 0.1%float (pat_confidence patternData - 0.05)%float;
           occurrences :=
             Some (match occurrences patternData with Some n => n | None => 0 end + 1) |}
        table
  end.

(** [updatePatternRecognition(patterns, decision)] *)
Definition updatePatternRecognition (found : list string) (decision : AgentDecision)
  : LearningEngine -> LearningEngine :=
  set_patterns (fun table => fold_left (update_pattern decision) found table).

Section WithClock.
(** [clock n]: the time of the [n]-th [new Date()]. *)
Variable clock : nat -> Z.

Definition now : M LearningEngine Z :=
  fun e => ({| pattern_table := pattern_table e; performanceHistory := performanceHistory e;
               adaptationRules := adaptationRules e; console := console e;
               ticks := S (ticks e) |}, inr (clock (ticks e))).

(** [analyzePerformance(decision, context)] *)
Definition analyzePerformance (decision : AgentDecision) (context : Context)
  : M LearningEngine unit :=
  ts <- now ;;
  let entry :=
    {| perf_timestamp := ts; decisionType := dec_type decision;
       perf_confidence := confidence decision;
       perf_responseTime := or_zero (ctx_responseTime context);
       success := (0.5 <? confidence decision)%float |} in
  modify (set_history (fun h =>
    let pushed := (h ++ [entry])%list in
    if (1000 <? List.length pushed)%nat then slice (-1000) pushed else pushed)).

(** [rule.condition(context)] *)
Definition holds (context : Context) (rule : Rule) : exn bool :=
  match condition rule with
  | Some f => f context
  | None => throw (TypeError "rule.condition is not a function")
  end.

(** [.sort((a, b) => a.priority - b.priority)]: a stable sort. *)
Fixpoint insert_rule (r : Rule) (l : list Rule) : list Rule :=
  match l with
  | [] => [r]
  | x :: l' => if (priority r <=? priority x)%Z then r :: l else x :: insert_rule r l'
  end.

Definition sort_rules (l : list Rule) : list Rule := fold_right insert_rule [] l.

Definition adaptation_line (action : string) : string :=
  if String.eqb action "reduce_complexity" then "Adapting: Reducing response complexity"
  else if String.eqb action "increase_safety_checks" then "Adapting: Increasing safety checks"
  else if String.eqb action "cleanup_memory" then "Adapting: Cleaning up memory"
  else "Unknown adaptation action: " ++ action.

(** [executeAdaptationRule(rule, context)] *)
Definition executeAdaptationRule (rule : Rule) (context : Context) : M LearningEngine unit :=
  modify (console_write (Log (adaptation_line (rule_action rule)))).

Fixpoint execute_all (rules : list Rule) (context : Context) : M LearningEngine unit :=
  match rules with
  | [] => ret tt
  | rule :: rest => executeAdaptationRule rule context ;; execute_all rest context
  end.

(** [adaptBehavior(context)] *)
Definition adaptBehavior (context : Context) : M LearningEngine unit :=
  e <- get ;;
  applicable <- lift (filterE (holds context) (JsMap.values (adaptationRules e))) ;;
  execute_all (sort_rules applicable) context.

(** [storeLearningInsights(message, response, decision, patterns)] *)
Definition storeLearningInsights (message response : AgentMessage)
  (decision : AgentDecision) (found : list string) : M LearningEngine unit :=
  ts <- now ;;
  modify (console_write
    (LogInsight "Storing learning insight:"
       {| ins_timestamp := ts; ins_message := content message;
          ins_response := content response; ins_decision := decision;
          ins_patterns := found; ins_success := (0.5 <? confidence decision)%float |})).

(** [learnFromInteraction(message, response, decision, context)] *)
Definition learnFromInteraction (message response : AgentMessage)
  (decision : AgentDecision) (context : Context) : M LearningEngine unit :=
  let found := extractPatterns (content message) in
  modify (updatePatternRecognition found decision) ;;
  analyzePerformance decision context ;;
  adaptBehavior context ;;
  storeLearningInsights message response decision found.

End WithClock.

Record Metrics : Type := {
  m_totalInteractions : nat;
  m_averageConfidence : number;
  m_successRate : number;
  m_averageResponseTime : number
}.

(** [getPerformanceMetrics()] *)
Definition getPerformanceMetrics (e : LearningEngine) : Metrics :=
  match performanceHistory e with
  | [] =>
      {| m_totalInteractions := 0; m_averageConfidence := 0%float;
         m_successRate := 0%float; m_averageResponseTime := 0%float |}
  | _ :: _ =>
      let history := performanceHistory e in
      let totalInteractions := List.length history in
      {| m_totalInteractions := totalInteractions;
         m_averageConfidence :=
           (fold_left (fun sum p => sum + perf_confidence p) history 0
            / of_nat totalInteractions)%float;
         m_successRate :=
           (of_nat (List.length (filter success history)) / of_nat totalInteractions)%float;
         m_averageResponseTime :=
           (fold_left (fun sum p => sum + perf_responseTime p) history 0
            / of_nat totalInteractions)%float |}
  end.

(** A document of the shape [exportLearningData] writes: each of the three
    properties may be absent, and a rule has lost its [condition]. *)
Record Exported : Type := {
  x_patterns : option (list (string * PatternData));
  x_performanceHistory : option (list PerformanceEntry);
  x_adaptationRules : option (list (string * (string * Z)))
}.

(** [new Map(entries)] *)
Definition map_of {V} (entries : list (string * V)) : JsMap.t string V :=
  fold_left (fun m kv => JsMap.set String.eqb (fst kv) (snd kv) m) entries JsMap.empty.

(** [importLearningData(data)], given what [JSON.parse(data)] evaluates to. *)
Definition importLearningData (parsed : exn Exported) (e : LearningEngine) : LearningEngine :=
  match parsed with
  | inl error => console_write (LogError "Failed to import learning data:" error) e
  | inr imported =>
      let e1 := match x_patterns imported with
                | Some entries => set_patterns (fun _ => map_of entries) e
                | None => e
                end in
      let e2 := match x_performanceHistory imported with
                | Some h => set_history (fun _ => h) e1
                | None => e1
                end in
      match x_adaptationRules imported with
      | Some entries =>
          set_rules (fun _ =>
            map_of (map (fun kv =>
                           (fst kv, {| condition := None; rule_action := fst (snd kv);
                                       priority := snd (snd kv) |})) entries)) e2
      | None => e2
      end
  end.

(** The object that [predictIntent] returns. *)
Record Prediction : Type := {
  pred_intent : string;
  pred_confidence : number;
  pred_pattern : string
}.

(** [predictions.sort((a, b) => b.confidence - a.confidence)]: a stable
    sort; [b] goes before [a] only when the comparator is above zero. (With
    a NaN confidence the comparator is inconsistent and the order depends on
    the JavaScript engine; this is the order of an insertion sort.) *)
Fixpoint insert_prediction (a : Prediction) (l : list Prediction) : list Prediction :=
  match l with
  | [] => [a]
  | b :: l' =>
      if (0 <? pred_confidence b - pred_confidence a)%float
      then b :: insert_prediction a l'
      else a :: l
  end.

Definition sort_predictions (l : list Prediction) : list Prediction :=
  fold_right insert_prediction [] l.

(** The loop of [predictIntent]: one prediction for each extracted key that
    the table knows. *)
Fixpoint predictions_of (table : JsMap.t string PatternData) (found : list string)
  : list Prediction :=
  match found with
  | [] => []
  | pattern :: rest =>
      match JsMap.get String.eqb pattern table with
      | Some patternData =>
          {| pred_intent := response patternData;
             pred_confidence := pat_confidence patternData;
             pred_pattern := pattern |} :: predictions_of table rest
      | None => predictions_of table rest
      end
  end.

(** [predictIntent(content)] *)
Definition predictIntent (content : string) (e : LearningEngine) : Prediction :=
  match sort_predictions (predictions_of (pattern_table e) (extractPatterns content)) with
  | best :: _ => best
  | [] => {| pred_intent := "unknown"; pred_confidence := 0.1%float; pred_pattern := "none" |}
  end.

(** [reset()] *)
Definition reset (e : LearningEngine) : LearningEngine :=
  initializeAdaptationRules
    (initializePatterns
       (set_rules (fun _ => JsMap.empty)
          (set_history (fun _ => [])
             (set_patterns (fun _ => JsMap.empty) e)))).

End Learning.

(** ** Notions used in the statements *)

Module Notions.
Import Js Types.

(** The last [n] elements of a list, in their order. *)
Definition lastn {A} (n : nat) (l : list A) : list A := skipn (List.length l - n) l.

(** [storeMemory] called on each record of a list in turn. *)
Definition store_all (records : list AgentMemory) (e : Agent.AgentEngine) : Agent.AgentEngine :=
  fold_left (fun acc r => Agent.storeMemory r acc) records e.

(** The capabilities whose category is the one derived from an intent
    label, in the order of the registry. *)
Definition matching (label : string) (e : Agent.AgentEngine) : list AgentTool :=
  filter (fun tool =>
            String.eqb (category_name (category tool))
              (replace "_generation" "" (replace "_search" "" (replace "_operation" "" label))))
         (JsMap.values (Agent.tools e)).

(** The value of a property of an object, [undefined] when it has none. *)
Definition field (props : list (string * jsval)) (name : string) : jsval :=
  match assoc name props with Some x => x | None => VUndefined end.

(** The user message that [processMessage] builds, and the engine once it
    has logged it (three readings of the identifier source and the clock
    later). *)
Definition userMessage_of (env : Agent.Env) (msg : string) (e : Agent.AgentEngine)
  : AgentMessage :=
  {| msg_id := Agent.uuidv4 env (S (Agent.ticks e)); role := user; content := msg;
     msg_timestamp := Agent.clock env (S (S (Agent.ticks e))); metadata := None |}.

Definition received (env : Agent.Env) (msg : string) (e : Agent.AgentEngine)
  : Agent.AgentEngine :=
  {| Agent.state :=
       Agent.set_messages (fun l => l ++ [userMessage_of env msg e])%list (Agent.state e);
     Agent.tools := Agent.tools e;
     Agent.ticks := S (S (S (Agent.ticks e)));
     Agent.executed := Agent.executed e |}.

(** The engine once it has logged a decision. *)
Definition logged (d : AgentDecision) (e : Agent.AgentEngine) : Agent.AgentEngine :=
  Agent.set_state (Agent.set_decisions (fun l => l ++ [d])%list) e.

(** The [id] a parsed tool is registered under, and the registry that
    [forEach] builds from a list of parsed tools. *)
Definition parsed_id (tool : jsval) : jsval :=
  match prop tool "id" with inr id => id | inl _ => VUndefined end.

Definition registry_of (items : list jsval) : JsMap.t jsval StateImport.ToolSlot :=
  fold_left (fun m tool => JsMap.set same_key (parsed_id tool) (StateImport.ParsedTool tool) m)
            items JsMap.empty.

Definition is_object (v : jsval) : Prop :=
  match v with VUndefined | VNull => False | _ => True end.

(** The operations that change the capability registry, and the registry
    that the constructor would build from a list of tools. *)
Inductive ToolOp : Type :=
| AddTool (tool : AgentTool)
| RemoveTool (toolId : string).

Definition apply_tool_op (e : Agent.AgentEngine) (o : ToolOp) : Agent.AgentEngine :=
  match o with
  | AddTool tool => Agent.addTool tool e
  | RemoveTool toolId => Agent.removeTool toolId e
  end.

Definition registry_from (l : list AgentTool) : JsMap.t string AgentTool :=
  fold_left (fun m tool => Agent.tools_set tool m) l JsMap.empty.

(** The performance entry that [analyzePerformance] builds. *)
Definition entry_of (clock : nat -> Z) (decision : AgentDecision)
  (context : Learning.Context) (e : Learning.LearningEngine) : Learning.PerformanceEntry :=
  {| Learning.perf_timestamp := clock (Learning.ticks e);
     Learning.decisionType := dec_type decision;
     Learning.perf_confidence := confidence decision;
     Learning.perf_responseTime := or_zero (Learning.ctx_responseTime context);
     Learning.success := (0.5 <? confidence decision)%float |}.

(** The number of times a key stands in a list of extracted keys. *)
Definition times (key : string) (found : list string) : nat :=
  List.length (filter (String.eqb key) found).

(** The count that an entry of the pattern table carries: an absent entry
    and a seeded one, which has no count, stand for zero. *)
Definition seen (d : option Learning.PatternData) : nat :=
  match d with
  | Some d0 => match Learning.occurrences d0 with Some n => n | None => 0 end
  | None => 0
  end.

(** What [predictIntent] answers when it knows none of the keys. *)
Definition unknown : Learning.Prediction :=
  {| Learning.pred_intent := "unknown"; Learning.pred_confidence := 0.1%float;
     Learning.pred_pattern := "none" |}.

(** An environment with another response generator. *)
Definition with_generate (g : string -> Agent.Context -> exn string) (env : Agent.Env)
  : Agent.Env :=
  {| Agent.uuidv4 := Agent.uuidv4 env;
     Agent.clock := Agent.clock env;
     Agent.classify := Agent.classify env;
     Agent.generate := g;
     Agent.stringify := Agent.stringify env;
     Agent.display := Agent.display env |}.

(** The records of one kind in a memory. *)
Definition is_tool_result (r : AgentMemory) : bool :=
  match mem_type r with m_tool_result => true | _ => false end.

(** A confidence within [0.1, 1.0]. *)
Definition in_range (c : number) : Prop :=
  (0.1 <=? c)%float = true /\ (c <=? 1)%float = true.

Definition table_in_range (t : JsMap.t string Learning.PatternData) : Prop :=
  Forall (fun kv => in_range (Learning.pat_confidence (snd kv))) t.

(** A parsed document whose pattern entries all carry a confidence within
    [0.1, 1.0] (or that has no pattern entries, or did not parse). *)
Definition document_in_range (parsed : exn Learning.Exported) : Prop :=
  match parsed with
  | inr doc =>
      match Learning.x_patterns doc with
      | Some entries => table_in_range entries
      | None => True
      end
  | inl _ => True
  end.

(** The operations of the learning engine that write to its fields. *)
Inductive Op : Type :=
| Learn (message response : AgentMessage) (decision : AgentDecision)
        (context : Learning.Context)
| Import (parsed : exn Learning.Exported)
| Reset.

Definition run (clock : nat -> Z) (o : Op) (e : Learning.LearningEngine)
  : Learning.LearningEngine :=
  match o with
  | Learn message response decision context =>
      fst (Learning.learnFromInteraction clock message response decision context e)
  | Import parsed => Learning.importLearningData parsed e
  | Reset => Learning.reset e
  end.

(** The states a learning engine can be in: the constructor's, then any
    sequence of operations. *)
Inductive reachable (clock : nat -> Z) : Learning.LearningEngine -> Prop :=
| reach_new : reachable clock Learning.new
| reach_step e o : reachable clock e -> reachable clock (run clock o e).

(** The same, with every imported document in range. *)
Definition op_in_range (o : Op) : Prop :=
  match o with
  | Import parsed => document_in_range parsed
  | _ => True
  end.

Inductive reachable_in_range (clock : nat -> Z) : Learning.LearningEngine -> Prop :=
| range_new : reachable_in_range clock Learning.new
| range_step e o :
    reachable_in_range clock e -> op_in_range o -> reachable_in_range clock (run clock o e).

(** Rules in ascending order of priority. *)
Definition by_priority (a b : Learning.Rule) : Prop :=
  (Learning.priority a <= Learning.priority b)%Z.

Definition write_lines (lines : list string) (e : Learning.LearningEngine)
  : Learning.LearningEngine :=
  fold_left (fun acc l => Learning.console_write (Learning.Log l) acc) lines e.

(** The float that rounding a positive integer gives: a finite number, or
    infinity past the largest exponent. *)
Definition rounded (m : positive) (e : Z) : spec_float :=
  if (e <=? 971)%Z then S754_finite false m e else S754_infinity false.

End Notions.

(** ** Inputs used in witnesses and counterexamples *)

Module Examples.
Import Js Types.

Definition unavailable : error := Error "service unavailable".

(** [String(v)] of a plain object; the examples print no number and no
    array. *)
Definition plain_text (v : jsval) : exn string := ok "[object Object]".

(** An environment whose classifier and generator always fail. *)
Definition offline : Agent.Env :=
  {| Agent.uuidv4 := fun n => "id-" ++ show_nat n;
     Agent.clock := fun n => Z.of_nat (1000 + n);
     Agent.classify := fun _ _ => throw unavailable;
     Agent.generate := fun _ _ => throw unavailable;
     Agent.stringify := fun _ => "{}";
     Agent.display := plain_text |}.

(** An environment whose classifier answers with a given intent. *)
Definition answering (intent : jsval) : Agent.Env :=
  {| Agent.uuidv4 := fun n => "id-" ++ show_nat n;
     Agent.clock := fun n => Z.of_nat (1000 + n);
     Agent.classify := fun _ _ => ok intent;
     Agent.generate := fun _ _ => throw unavailable;
     Agent.stringify := fun _ => "{}";
     Agent.display := plain_text |}.

Definition intent_props (label complexity : string) : list (string * jsval) :=
  [("intent", VStr label); ("entities", VObj [("path", VStr "notes.txt")]);
   ("urgency", VStr "low"); ("complexity", VStr complexity)].

Definition intent_of (label complexity : string) : jsval :=
  VObj (intent_props label complexity).

Definition tool (id : string) (cat : Category) (check : option (jsval -> exn bool)) : AgentTool :=
  {| tool_id := id; tool_name := id; tool_description := "";
     category := cat; tool_parameters := VObj [];
     execute := fun _ => ok (VObj [("success", VBool true)]);
     safetyCheck := check |}.

Definition refusing : AgentTool := tool "file_delete" file (Some (fun _ => ok false)).
Definition crashing : AgentTool :=
  tool "file_read" file
       (Some (fun _ => throw (TypeError "Cannot read properties of undefined (reading 'includes')"))).
Definition coder : AgentTool := tool "code_generate" code None.

(** A capability without a safety predicate whose [execute] rejects with
    a given value. *)
Definition failing (rejected : error) : AgentTool :=
  {| tool_id := "broken"; tool_name := "Broken"; tool_description := "";
     category := web; tool_parameters := VObj [];
     execute := fun _ => throw rejected;
     safetyCheck := None |}.

Definition config_of (capacity : Z) (level : SafetyLevel) (learn : bool)
  (tools : list AgentTool) : AgentConfig :=
  {| name := "agent"; description := ""; capabilities := [];
     safetyLevel := level; learningEnabled := learn;
     maxMemorySize := capacity; config_tools := tools |}.

Definition note (id : string) : AgentMemory :=
  {| mem_id := id; mem_type := m_learning; mem_content := LearningNote id 0;
     mem_timestamp := 0; relevance := None |}.

Definition said (text : string) : AgentMessage :=
  {| msg_id := "m"; role := user; content := text; msg_timestamp := 0; metadata := None |}.

Definition decided (c : number) : AgentDecision :=
  {| dec_id := "d"; dec_type := response_generation; confidence := c;
     reasoning := "Default response generation"; action := ReplyAction (VStr "");
     dec_timestamp := 0 |}.

Definition no_context : Learning.Context :=
  {| Learning.ctx_performance := None; Learning.ctx_memory := None;
     Learning.ctx_responseTime := None |}.

(** A context that reports slow responses and says nothing of the memory. *)
Definition slow_context : Learning.Context :=
  {| Learning.ctx_performance :=
       Some {| totalInteractions := 10; successfulActions := 10;
               averageResponseTime := 6000%float; learningProgress := 0%float |};
     Learning.ctx_memory := None;
     Learning.ctx_responseTime := None |}.

Definition full_context : Learning.Context :=
  {| Learning.ctx_performance :=
       Some {| totalInteractions := 10; successfulActions := 5;
               averageResponseTime := 6000%float; learningProgress := 0%float |};
     Learning.ctx_memory := Some [];
     Learning.ctx_responseTime := Some 12%float |}.

Definition ticking (n : nat) : Z := Z.of_nat n.

(** A saved document with one pattern whose confidence is 5. *)
Definition overconfident : Learning.Exported :=
  {| Learning.x_patterns :=
       Some [("deploy now",
              {| Learning.patterns := ["deploy now"]; Learning.response := "planning";
                 Learning.pat_confidence := 5%float; Learning.occurrences := Some 1 |})];
     Learning.x_performanceHistory := None;
     Learning.x_adaptationRules := None |}.

End Examples.

(** * Properties *)

(** ** Binary64 arithmetic

    Facts about [PrimFloat] derived from its specification ([SpecFloat],
    [FloatAxioms]): how a positive integer is rounded, and from it that adding
    0.1 to, or taking 0.05 from, a number of [0.1, 1.0] stays on the right
    side of the bound that [Math.min] and [Math.max] do not enforce. *)

Section Binary64.
Import Js Notions.
Local Open Scope Z_scope.

Lemma digits2_size p : digits2_pos p = Pos.size p.
Proof. induction p; simpl; congruence. Qed.

Lemma size_bounds p : 2 ^ (Zpos (Pos.size p) - 1) <= Zpos p < 2 ^ Zpos (Pos.size p).
Proof.
  induction p as [p IH|p IH|]; cbn [Pos.size].
  - rewrite Pos2Z.inj_succ.
    replace (Z.succ (Z.pos (Pos.size p)) - 1) with (Z.succ (Z.pos (Pos.size p) - 1)) by lia.
    rewrite !Z.pow_succ_r by lia. lia.
  - rewrite Pos2Z.inj_succ.
    replace (Z.succ (Z.pos (Pos.size p)) - 1) with (Z.succ (Z.pos (Pos.size p) - 1)) by lia.
    rewrite !Z.pow_succ_r by lia. lia.
  - cbn. lia.
Qed.

Lemma size_unique p d : 2 ^ (d - 1) <= Zpos p < 2 ^ d -> Zpos (Pos.size p) = d.
Proof.
  intros [Hlo Hhi]. pose proof (size_bounds p) as [Blo Bhi].
  destruct (Z.lt_trichotomy (Zpos (Pos.size p)) d) as [H|[H|H]]; [exfalso| exact H | exfalso].
  - assert (2 ^ Zpos (Pos.size p) <= 2 ^ (d - 1)) by (apply Z.pow_le_mono_r; lia). lia.
  - assert (0 <= d \/ d < 0) as [Hd|Hd] by lia.
    + assert (2 ^ d <= 2 ^ (Zpos (Pos.size p) - 1)) by (apply Z.pow_le_mono_r; lia). lia.
    + rewrite (Z.pow_neg_r 2 d) in Hhi by lia. lia.
Qed.

Lemma shr_1_m mrs : 0 <= shr_m mrs -> shr_m (shr_1 mrs) = shr_m mrs / 2 /\ 0 <= shr_m (shr_1 mrs).
Proof.
  destruct mrs as [m r s]; cbn [shr_m]. intros H.
  destruct m as [|p|p]; [| |lia].
  - cbn. split; [reflexivity|lia].
  - destruct p as [p|p|]; cbn [shr_1 shr_m].
    + split; [|lia]. rewrite Pos2Z.inj_xI. apply Z.div_unique with (r:=1); lia.
    + split; [|lia]. rewrite Pos2Z.inj_xO. apply Z.div_unique with (r:=0); lia.
    + split; [|lia]. reflexivity.
Qed.

Lemma iter_shr_m n : forall mrs, 0 <= shr_m mrs ->
  shr_m (iter_pos shr_1 n mrs) = shr_m mrs / 2 ^ Zpos n /\ 0 <= shr_m (iter_pos shr_1 n mrs).
Proof.
  induction n as [n IH|n IH|]; intros mrs H; cbn [iter_pos].
  - destruct (shr_1_m mrs H) as [E1 P1].
    destruct (IH _ P1) as [E2 P2]. destruct (IH _ P2) as [E3 P3].
    split; [|exact P3]. rewrite E3, E2, E1.
    replace (Z.pos n~1) with (1 + Z.pos n + Z.pos n) by lia.
    rewrite !Z.pow_add_r by lia. rewrite !Z.div_div by lia. change (2^1) with 2. f_equal. lia.
  - destruct (IH _ H) as [E2 P2]. destruct (IH _ P2) as [E3 P3].
    split; [|exact P3]. rewrite E3, E2.
    replace (Z.pos n~0) with (Z.pos n + Z.pos n) by lia.
    rewrite Z.pow_add_r by lia. rewrite !Z.div_div by lia. reflexivity.
  - destruct (shr_1_m mrs H) as [E1 P1]. split; [|exact P1]. rewrite E1. reflexivity.
Qed.

Lemma fexp_hi x : -1021 <= x -> fexp prec emax x = x - 53.
Proof. intros H. unfold fexp, SpecFloat.emin, prec, emax. lia. Qed.

Lemma size53 m : 2 ^ 52 <= Zpos m < 2 ^ 53 -> Zpos (digits2_pos m) = 53.
Proof. intros H. rewrite digits2_size. apply size_unique. exact H. Qed.

Lemma shr_fexp_53 m e : Zpos (digits2_pos m) = 53 -> -1074 <= e ->
  shr_fexp prec emax (Zpos m) e loc_Exact
  = ({| shr_m := Zpos m; shr_r := false; shr_s := false |}, e).
Proof.
  intros Hd He. unfold shr_fexp. cbn [Zdigits2]. rewrite Hd.
  rewrite fexp_hi by lia. replace (53 + e - 53 - e) with 0 by lia. reflexivity.
Qed.

Lemma round_aux_53 m e : Zpos (digits2_pos m) = 53 -> -1074 <= e ->
  binary_round_aux prec emax false (Zpos m) e loc_Exact = rounded m e.
Proof.
  intros Hd He. unfold binary_round_aux. rewrite shr_fexp_53 by assumption.
  cbn [shr_m loc_of_shr_record round_nearest_even]. rewrite shr_fexp_53 by assumption.
  cbn [shr_m]. reflexivity.
Qed.

Lemma rne_cases q l : round_nearest_even q l = q \/ round_nearest_even q l = q + 1.
Proof.
  destruct l as [|[| |]]; cbn [round_nearest_even]; auto.
  destruct (Z.even q); auto.
Qed.

Lemma round_aux_big p ex :
  53 < Zpos (digits2_pos p) -> -1074 <= ex ->
  exists m e,
    binary_round_aux prec emax false (Zpos p) ex loc_Exact = rounded m e
    /\ Zpos (digits2_pos m) = 53
    /\ (e = ex + Zpos (digits2_pos p) - 53
        \/ (e = ex + Zpos (digits2_pos p) - 53 + 1 /\ Zpos m = 2 ^ 52)).
Proof.
  intros Hd He. set (d := Zpos (digits2_pos p)) in *.
  unfold binary_round_aux. unfold shr_fexp at 1. cbn [Zdigits2]. fold d.
  rewrite fexp_hi by lia.
  assert (Hk : d + ex - 53 - ex = Zpos (Z.to_pos (d - 53))) by (rewrite Z2Pos.id; lia).
  rewrite Hk. cbn [shr shr_record_of_loc]. set (k := Z.to_pos (d - 53)) in *.
  pose proof (iter_shr_m k {| shr_m := Zpos p; shr_r := false; shr_s := false |}) as Hq.
  cbn [shr_m] in Hq. destruct Hq as [Hq _]; [lia|].
  destruct (iter_pos shr_1 k {| shr_m := Z.pos p; shr_r := false; shr_s := false |})
    as [q r s] eqn:Hiter. cbn [shr_m] in Hq |- *.
  assert (Hk' : Zpos k = d - 53) by lia. rewrite Hk' in Hq.
  pose proof (size_bounds p) as [Blo Bhi]. rewrite <- digits2_size in Blo, Bhi. fold d in Blo, Bhi.
  assert (Hpow : 2 ^ d = 2 ^ (d - 53) * 2 ^ 53).
  { rewrite <- Z.pow_add_r by lia. f_equal. lia. }
  assert (Hpow' : 2 ^ (d - 1) = 2 ^ (d - 53) * 2 ^ 52).
  { rewrite <- Z.pow_add_r by lia. f_equal. lia. }
  assert (Hpos : 0 < 2 ^ (d - 53)) by (apply Z.pow_pos_nonneg; lia).
  assert (Qlo : 2 ^ 52 <= q).
  { rewrite Hq. apply Z.div_le_lower_bound; lia. }
  assert (Qhi : q < 2 ^ 53).
  { rewrite Hq. apply Z.div_lt_upper_bound; lia. }
  set (m1 := round_nearest_even q (loc_of_shr_record {| shr_m := q; shr_r := r; shr_s := s |})).
  assert (Hm1 : m1 = q \/ m1 = q + 1) by apply rne_cases.
  assert (Hcase : m1 < 2 ^ 53 \/ m1 = 2 ^ 53) by lia.
  destruct Hcase as [Hlt | Heq].
  - destruct m1 as [|m'|m'] eqn:Em1; try lia.
    assert (Hs : Zpos (digits2_pos m') = 53) by (apply size53; lia).
    rewrite shr_fexp_53 by (try assumption; lia). cbn [shr_m].
    exists m', (ex + Z.pos k). split; [reflexivity|]. split; [assumption|]. left. lia.
  - rewrite Heq. change (2 ^ 53) with 9007199254740992.
    unfold shr_fexp. cbn [Zdigits2 digits2_pos Pos.succ]. rewrite fexp_hi by lia.
    replace (54 + (ex + Z.pos k) - 53 - (ex + Z.pos k)) with 1 by lia.
    cbn [shr iter_pos shr_record_of_loc shr_1 shr_m].
    exists 4503599627370496%positive, (ex + Z.pos k + 1). split; [reflexivity|].
    split; [reflexivity|]. right. split; [lia|reflexivity].
Qed.

Lemma digits2_iter_xO p k : digits2_pos (Pos.iter xO p k) = (digits2_pos p + k)%positive.
Proof.
  induction k using Pos.peano_ind.
  - cbn. lia.
  - rewrite Pos.iter_succ. cbn [digits2_pos]. rewrite IHk. lia.
Qed.

Lemma binary_round_pos p ex : -1022 <= ex ->
  exists m e,
    binary_round prec emax false p ex = rounded m e
    /\ Zpos (digits2_pos m) = 53
    /\ (e = ex + Zpos (digits2_pos p) - 53
        \/ (e = ex + Zpos (digits2_pos p) - 53 + 1 /\ Zpos m = 2 ^ 52)).
Proof.
  intros He. unfold binary_round. rewrite fexp_hi by lia. unfold shl_align.
  set (d := Zpos (digits2_pos p)) in *.
  destruct (d + ex - 53 - ex) as [|k|k] eqn:Hk.
  - exists p, ex. split; [apply round_aux_53; fold d; lia|]. split; [fold d; lia|]. left. lia.
  - destruct (round_aux_big p ex) as (m & e & H1 & H2 & H3); [fold d; lia|lia|].
    exists m, e. fold d in H3. auto.
  - exists (Pos.iter xO p k), (d + ex - 53).
    assert (Hs : Zpos (digits2_pos (Pos.iter xO p k)) = 53).
    { rewrite digits2_iter_xO. rewrite Pos2Z.inj_add. fold d. lia. }
    split; [apply round_aux_53; [exact Hs|lia]|]. split; [exact Hs|]. left. lia.
Qed.


Local Open Scope float_scope.

Lemma SF_01 : Prim2SF 0.1 = S754_finite false 7205759403792794 (-56).
Proof. vm_compute. reflexivity. Qed.
Lemma SF_005 : Prim2SF 0.05 = S754_finite false 7205759403792794 (-57).
Proof. vm_compute. reflexivity. Qed.
Lemma SF_1 : Prim2SF 1 = S754_finite false 4503599627370496 (-52).
Proof. vm_compute. reflexivity. Qed.

Lemma in_range_shape c : in_range c ->
  exists m e, Prim2SF c = S754_finite false m e
    /\ Zpos (digits2_pos m) = 53%Z
    /\ (-56 <= e <= -52)%Z
    /\ (e = (-52)%Z -> (Zpos m <= 2 ^ 52)%Z).
Proof.
  intros [Hlo Hhi]. rewrite leb_spec, SF_01 in Hlo. rewrite leb_spec, SF_1 in Hhi.
  pose proof (Prim2SF_valid c) as Hv.
  destruct (Prim2SF c) as [s|s| |s m e].
  1-3: try destruct s; cbn in Hlo, Hhi; discriminate.
  destruct s; [cbn in Hlo; discriminate|].
  exists m, e. split; [reflexivity|].
  cbn [SFleb SFcompare] in Hlo, Hhi.
  assert (He : (-56 <= e <= -52)%Z).
  { split.
    - destruct (Z.compare_spec (-56) e) as [H|H|H]; [lia|lia|discriminate].
    - destruct (Z.compare_spec e (-52)) as [H|H|H]; [lia|lia|discriminate]. }
  split; [|split; [exact He|]].
  - cbn [valid_binary] in Hv. unfold bounded, canonical_mantissa in Hv.
    apply andb_prop in Hv. destruct Hv as [Hv _]. apply Z.eqb_eq in Hv.
    unfold fexp, SpecFloat.emin, prec, emax in Hv. clear Hlo Hhi. lia.
  - intros ->. rewrite Z.compare_refl in Hhi.
    change (2 ^ 52)%Z with 4503599627370496%Z.
    destruct (Pos.compare_cont Eq m 4503599627370496) eqn:Hcmp; try discriminate.
    + apply Pos.compare_eq in Hcmp. subst m. apply Z.le_refl.
    + apply Pos.compare_lt_iff in Hcmp. apply Pos2Z.pos_lt_pos in Hcmp. apply Z.lt_le_incl. exact Hcmp.
Qed.

Lemma iter_xO_value p k : Zpos (Pos.iter xO p k) = (Zpos p * 2 ^ Zpos k)%Z.
Proof.
  induction k using Pos.peano_ind.
  - cbn [Pos.iter]. change (2 ^ 1)%Z with 2%Z. lia.
  - rewrite Pos.iter_succ, Pos2Z.inj_xO, IHk, Pos2Z.inj_succ, Z.pow_succ_r by lia. lia.
Qed.

Lemma shl_align_value m e e' : (e' <= e)%Z ->
  Zpos (fst (shl_align m e e')) = (Zpos m * 2 ^ (e - e'))%Z.
Proof.
  intros H. unfold shl_align. destruct (e' - e)%Z as [|k|k] eqn:Hk; cbn [fst].
  - replace (e - e')%Z with 0%Z by lia. cbn. lia.
  - lia.
  - rewrite iter_xO_value. f_equal. f_equal. lia.
Qed.

Lemma size_ge p (d : Z) : (2 ^ d <= Zpos p)%Z -> (0 <= d)%Z -> (d < Zpos (digits2_pos p))%Z.
Proof.
  intros H Hd. rewrite digits2_size. pose proof (size_bounds p) as [_ Hhi].
  destruct (Z.lt_ge_cases d (Zpos (Pos.size p))) as [|Hc]; [assumption|].
  assert (2 ^ Zpos (Pos.size p) <= 2 ^ d)%Z by (apply Z.pow_le_mono_r; lia). lia.
Qed.

Lemma size_le p (d : Z) : (Zpos p < 2 ^ d)%Z -> (0 <= d)%Z -> (Zpos (digits2_pos p) <= d)%Z.
Proof.
  intros H Hd. rewrite digits2_size. pose proof (size_bounds p) as [Hlo _].
  destruct (Z.le_gt_cases (Zpos (Pos.size p)) d) as [|Hc]; [assumption|].
  assert (2 ^ d <= 2 ^ (Zpos (Pos.size p) - 1))%Z by (apply Z.pow_le_mono_r; lia). lia.
Qed.

Lemma add_lower c : in_range c -> (0.1 <=? c + 0.1) = true.
Proof.
  intros Hc. destruct (in_range_shape c Hc) as (m & e & Hs & Hd & He & _).
  rewrite leb_spec, add_spec, Hs, SF_01. unfold SF64add, SFadd.
  rewrite Z.min_r by lia. cbn [cond_Zopp].
  pose proof (shl_align_value m e (-56) ltac:(lia)) as Ha.
  pose proof (shl_align_value 7205759403792794 (-56) (-56) ltac:(lia)) as Hb.
  set (a := fst (shl_align m e (-56))) in *.
  set (b := fst (shl_align 7205759403792794 (-56) (-56))) in *.
  change (Zpos a + Zpos b)%Z with (Zpos (a + b)). cbn [binary_normalize].
  destruct (binary_round_pos (a + b) (-56) ltac:(lia)) as (m' & e' & Hr & _ & He').
  rewrite Hr.
  assert (Hm : (2 ^ 52 <= Zpos m)%Z).
  { pose proof (size_bounds m) as [Hlo _]. rewrite <- digits2_size, Hd in Hlo. exact Hlo. }
  assert (Hpow : (1 <= 2 ^ (e - -56))%Z) by (apply Z.pow_le_mono_r with (b := 0%Z); lia).
  assert (Hsum : (2 ^ 53 <= Zpos (a + b))%Z).
  { rewrite Pos2Z.inj_add, Ha, Hb. change (2 ^ (-56 - -56))%Z with 1%Z.
    change (2 ^ 53)%Z with 9007199254740992%Z. change (2 ^ 52)%Z with 4503599627370496%Z in Hm. nia. }
  pose proof (size_ge _ 53 Hsum ltac:(lia)) as Hsz.
  unfold rounded. destruct (e' <=? 971)%Z; [|reflexivity].
  unfold SFleb, SFcompare.
  destruct (Z.compare_spec (-56) e') as [Heq|Hlt|Hgt]; [lia|reflexivity|lia].
Qed.

Lemma sub_upper c : in_range c -> (c - 0.05 <=? 1) = true.
Proof.
  intros Hc. destruct (in_range_shape c Hc) as (m & e & Hs & Hd & He & Htop).
  rewrite leb_spec, sub_spec, Hs, SF_005, SF_1. unfold SF64sub, SFsub.
  rewrite Z.min_r by lia. cbn [cond_Zopp].
  pose proof (shl_align_value m e (-57) ltac:(lia)) as Ha.
  pose proof (shl_align_value 7205759403792794 (-57) (-57) ltac:(lia)) as Hb.
  set (a := fst (shl_align m e (-57))) in *.
  set (b := fst (shl_align 7205759403792794 (-57) (-57))) in *.
  change (2 ^ (-57 - -57))%Z with 1%Z in Hb.
  pose proof (size_bounds m) as [Hlo Hhi]. rewrite <- digits2_size, Hd in Hlo, Hhi.
  change (2 ^ (53 - 1))%Z with 4503599627370496%Z in Hlo.
  change (2 ^ 53)%Z with 9007199254740992%Z in Hhi.
  change (2 ^ 52)%Z with 4503599627370496%Z in Htop.
  assert (Hcases : (e = -56 \/ e = -55 \/ e = -54 \/ e = -53 \/ e = -52)%Z) by lia.
  assert (Hbound : (0 < Zpos a - Zpos b < 2 ^ 57)%Z).
  { change (2 ^ 57)%Z with 144115188075855872%Z. rewrite Ha, Hb.
    destruct Hcases as [ -> | [ -> | [ -> | [ -> | -> ] ] ] ];
      [change (2 ^ (-56 - -57))%Z with 2%Z | change (2 ^ (-55 - -57))%Z with 4%Z
      | change (2 ^ (-54 - -57))%Z with 8%Z | change (2 ^ (-53 - -57))%Z with 16%Z
      | change (2 ^ (-52 - -57))%Z with 32%Z; specialize (Htop eq_refl) ]; lia. }
  destruct (Zpos a - Zpos b)%Z as [|p|p] eqn:Hp; try lia. cbn [binary_normalize].
  destruct (binary_round_pos p (-57) ltac:(lia)) as (m' & e' & Hr & _ & He').
  rewrite Hr.
  pose proof (size_le p 57 ltac:(lia) ltac:(lia)) as Hsz.
  unfold rounded. assert (Hle : (e' <=? 971)%Z = true) by (apply Z.leb_le; lia).
  rewrite Hle. unfold SFleb, SFcompare.
  destruct (Z.compare_spec e' (-52)) as [Heq|Hlt|Hgt]; [|reflexivity|lia].
  assert (Hm' : m' = 4503599627370496%positive).
  { destruct He' as [He'|[_ He']]; [lia|]. change (2 ^ 52)%Z with 4503599627370496%Z in He'.
    apply Pos2Z.inj. exact He'. }
  rewrite Hm'. reflexivity.
Qed.

Lemma SFcompare_antisym a b : SFcompare a b = option_map CompOpp (SFcompare b a).
Proof.
  destruct a as [s|s| |s m e], b as [s'|s'| |s' m' e']; try destruct s; try destruct s';
    cbn [SFcompare option_map CompOpp]; try reflexivity.
  - rewrite (Z.compare_antisym e' e). pose proof (Pos.compare_cont_antisym m' m Eq) as A.
    cbn [CompOpp] in A. destruct (e' ?= e)%Z; cbn [CompOpp]; try reflexivity.
    rewrite <- A. rewrite CompOpp_involutive. reflexivity.
  - rewrite (Z.compare_antisym e' e). pose proof (Pos.compare_cont_antisym m' m Eq) as A.
    cbn [CompOpp] in A. destruct (e' ?= e)%Z; cbn [CompOpp]; try reflexivity.
    rewrite <- A. reflexivity.
Qed.

Lemma SFcompare_refl a : a <> S754_nan -> SFcompare a a = Some Eq.
Proof.
  destruct a as [s|s| |s m e]; try destruct s; intros H; cbn [SFcompare];
    try reflexivity; try congruence.
  - rewrite Z.compare_refl, Pos.compare_cont_refl. reflexivity.
  - rewrite Z.compare_refl, Pos.compare_cont_refl. reflexivity.
Qed.

Lemma SFcompare_none a b : SFcompare a b = None -> a = S754_nan \/ b = S754_nan.
Proof.
  destruct a as [s|s| |s m e], b as [s'|s'| |s' m' e']; try destruct s; try destruct s';
    cbn [SFcompare]; intros H; try discriminate; auto.
Qed.

Lemma is_nan_false x : is_nan x = false <-> Prim2SF x <> S754_nan.
Proof.
  unfold is_nan. rewrite eqb_spec. unfold SFeqb. split.
  - intros H E. rewrite E in H. cbn in H. discriminate.
  - intros H. rewrite SFcompare_refl by exact H. reflexivity.
Qed.

Lemma leb_not_nan x y : (x <=? y) = true -> is_nan x = false /\ is_nan y = false.
Proof.
  rewrite leb_spec. unfold SFleb. intros H. rewrite !is_nan_false.
  destruct (SFcompare (Prim2SF x) (Prim2SF y)) eqn:E; [|discriminate].
  split; intros N; rewrite N in E.
  - cbn in E. discriminate.
  - destruct (Prim2SF x); cbn in E; discriminate.
Qed.

Lemma ltb_leb x y : (x <? y) = true -> (x <=? y) = true.
Proof.
  rewrite ltb_spec, leb_spec. unfold SFltb, SFleb.
  destruct (SFcompare (Prim2SF x) (Prim2SF y)) as [[| |]|]; intros H; try discriminate; reflexivity.
Qed.

Lemma not_ltb_leb x y :
  (y <? x) = false -> is_nan x = false -> is_nan y = false -> (x <=? y) = true.
Proof.
  rewrite ltb_spec, leb_spec, !is_nan_false. unfold SFltb, SFleb.
  intros H Nx Ny. rewrite (SFcompare_antisym (Prim2SF x) (Prim2SF y)).
  destruct (SFcompare (Prim2SF y) (Prim2SF x)) as [[| |]|] eqn:E;
    cbn [option_map CompOpp]; try reflexivity; try discriminate.
  destruct (SFcompare_none _ _ E); contradiction.
Qed.

Lemma min_one_in_range x : (0.1 <=? x) = true -> in_range (Math_min 1 x).
Proof.
  intros H. destruct (leb_not_nan _ _ H) as [_ Nx]. unfold Math_min.
  change (is_nan 1) with false. rewrite Nx. cbn [orb].
  destruct (x <? 1) eqn:L1.
  - split; [exact H|apply ltb_leb; exact L1].
  - destruct (1 <? x) eqn:L2.
    + split; reflexivity.
    + change (get_sign 1) with false. cbn iota. split; [exact H|].
      apply not_ltb_leb; [exact L2|exact Nx|reflexivity].
Qed.

Lemma max_tenth_in_range y : (y <=? 1) = true -> in_range (Math_max 0.1 y).
Proof.
  intros H. destruct (leb_not_nan _ _ H) as [Ny _]. unfold Math_max.
  change (is_nan 0.1) with false. rewrite Ny. cbn [orb].
  destruct (0.1 <? y) eqn:L1.
  - split; [apply ltb_leb; exact L1|exact H].
  - destruct (y <? 0.1) eqn:L2.
    + split; reflexivity.
    + change (get_sign 0.1) with false. cbn iota. split; reflexivity.
Qed.

Lemma raise_in_range c : in_range c -> in_range (Math_min 1 (c + 0.1)).
Proof. intros H. apply min_one_in_range, add_lower, H. Qed.

Lemma lower_in_range c : in_range c -> in_range (Math_max 0.1 (c - 0.05)).
Proof. intros H. apply max_tenth_in_range, sub_upper, H. Qed.

End Binary64.

(** ** The bounded memory ([storeMemory]) *)

Section BoundedMemory.
Import Js Types Agent Notions.

Lemma slice_negative {A} (n : nat) (l : list A) :
  (0 < n)%nat -> slice (- Z.of_nat n) l = lastn n l.
Proof.
  intros Hn. unfold slice, lastn.
  assert (H : (- Z.of_nat n <? 0)%Z = true) by (apply Z.ltb_lt; lia).
  rewrite H. f_equal. lia.
Qed.

Lemma slice_zero {A} (l : list A) : slice (- 0) l = l.
Proof.
  unfold slice. change (- 0 <? 0)%Z with false. cbn iota.
  rewrite Z.min_l by lia. reflexivity.
Qed.

Lemma lastn_short {A} (n : nat) (l : list A) : (List.length l <= n)%nat -> lastn n l = l.
Proof. intros H. unfold lastn. replace (List.length l - n)%nat with 0%nat by lia. reflexivity. Qed.

Lemma lastn_length {A} (n : nat) (l : list A) : (List.length (lastn n l) <= n)%nat.
Proof. unfold lastn. rewrite length_skipn. lia. Qed.

Lemma lastn_app_lastn {A} (n : nat) (l r : list A) :
  lastn n (lastn n l ++ r) = lastn n (l ++ r).
Proof.
  destruct (Nat.le_gt_cases (List.length l) n) as [Hle|Hgt].
  - rewrite (lastn_short n l Hle). reflexivity.
  - unfold lastn. rewrite !length_app, length_skipn.
    replace (List.length l - (List.length l - n) + List.length r - n)%nat
      with (List.length r) by lia.
    replace (List.length l + List.length r - n)%nat
      with (List.length r + (List.length l - n))%nat by lia.
    rewrite <- skipn_skipn. f_equal.
    rewrite skipn_app.
    replace (List.length l - n - List.length l)%nat with 0%nat by lia. reflexivity.
Qed.

Lemma storeMemory_config (m : AgentMemory) (e : AgentEngine) :
  config (state (storeMemory m e)) = config (state e).
Proof. reflexivity. Qed.

Lemma storeMemory_positive (c : nat) (m : AgentMemory) (e : AgentEngine) :
  (0 < c)%nat -> maxMemorySize (config (state e)) = Z.of_nat c ->
  memory (state (storeMemory m e)) = lastn c (memory (state e) ++ [m]).
Proof.
  intros Hc Hcap. unfold storeMemory. cbn [state set_state set_memory memory].
  rewrite Hcap. destruct (Z.of_nat (List.length (memory (state e) ++ [m])) >? Z.of_nat c)%Z eqn:Hgt.
  - apply slice_negative. exact Hc.
  - symmetry. apply lastn_short. rewrite Z.gtb_ltb in Hgt. apply Z.ltb_ge in Hgt. lia.
Qed.

Lemma store_all_config (records : list AgentMemory) (e : AgentEngine) :
  config (state (store_all records e)) = config (state e).
Proof.
  revert e. induction records as [|r rs IH]; intros e; [reflexivity|].
  cbn [store_all fold_left]. change (config (state (store_all rs (storeMemory r e))) = config (state e)).
  rewrite IH. reflexivity.
Qed.

Lemma store_all_snoc (rs : list AgentMemory) (r : AgentMemory) (e : AgentEngine) :
  store_all (rs ++ [r]) e = storeMemory r (store_all rs e).
Proof. unfold store_all. rewrite fold_left_app. reflexivity. Qed.

Lemma store_all_last (c : nat) (rs : list AgentMemory) (r : AgentMemory) (e : AgentEngine) :
  (0 < c)%nat -> maxMemorySize (config (state e)) = Z.of_nat c ->
  memory (state (store_all (rs ++ [r]) e)) = lastn c (memory (state e) ++ rs ++ [r]).
Proof.
  intros Hc Hcap. revert r. induction rs as [|r' rs IH] using rev_ind; intros r.
  - cbn [app store_all fold_left]. apply storeMemory_positive; assumption.
  - rewrite store_all_snoc. rewrite (storeMemory_positive c); [|exact Hc|].
    + rewrite IH. rewrite lastn_app_lastn. rewrite <- !app_assoc. reflexivity.
    + rewrite store_all_config. exact Hcap.
Qed.

(** With a capacity of at least one, the store holds, after every run of
  insertions, the most recent [capacity] records of those it held and was
  given, oldest first; so it never holds more than [capacity]. *)
Theorem store_all_keeps_most_recent (c : nat) (records : list AgentMemory) (e : AgentEngine) :
  (0 < c)%nat -> maxMemorySize (config (state e)) = Z.of_nat c -> records <> [] ->
  memory (state (store_all records e)) = lastn c (memory (state e) ++ records)
  /\ (List.length (memory (state (store_all records e))) <= c)%nat.
Proof.
  intros Hc Hcap Hne.
  destruct (exists_last Hne) as (rs & r & ->).
  rewrite (store_all_last c rs r e Hc Hcap). split; [reflexivity|apply lastn_length].
Qed.

Lemma store_all_keeps_most_recent_witness :
  memory (state (store_all [Examples.note "A"; Examples.note "B"; Examples.note "C"; Examples.note "D"]
                   (new (Examples.config_of 3 low false []))))
  = [Examples.note "B"; Examples.note "C"; Examples.note "D"].
Proof.
  destruct (store_all_keeps_most_recent 3
              [Examples.note "A"; Examples.note "B"; Examples.note "C"; Examples.note "D"]
              (new (Examples.config_of 3 low false []))) as [H _].
  - lia.
  - reflexivity.
  - discriminate.
  - exact H.
Defined.

(** C1. The claim asks for at most [C] records after each insertion for
  every capacity. With a capacity of 0 the engine never evicts:
  [slice(-0)] is [slice(0)], the whole array, so every record stays. *)
Theorem storeMemory_capacity_zero_keeps_everything
  (records : list AgentMemory) (e : AgentEngine) :
  maxMemorySize (config (state e)) = 0%Z ->
  memory (state (store_all records e)) = (memory (state e) ++ records)%list.
Proof.
  revert e. induction records as [|r rs IH]; intros e Hcap.
  - cbn. rewrite app_nil_r. reflexivity.
  - cbn [store_all fold_left]. fold (store_all rs (storeMemory r e)).
    rewrite IH by (rewrite storeMemory_config; exact Hcap).
    unfold storeMemory. cbn [state set_state set_memory memory]. rewrite Hcap.
    rewrite slice_zero.
    destruct (Z.of_nat (List.length (memory (state e) ++ [r])) >? 0)%Z;
      rewrite <- app_assoc; reflexivity.
Qed.

Lemma storeMemory_capacity_zero_witness :
  maxMemorySize (config (state (new (Examples.config_of 0 low false [])))) = 0%Z
  /\ memory (state (store_all [Examples.note "A"; Examples.note "B"; Examples.note "C"; Examples.note "D"]
                      (new (Examples.config_of 0 low false []))))
     = [Examples.note "A"; Examples.note "B"; Examples.note "C"; Examples.note "D"].
Proof.
  split; [reflexivity|].
  apply (storeMemory_capacity_zero_keeps_everything
           [Examples.note "A"; Examples.note "B"; Examples.note "C"; Examples.note "D"]
           (new (Examples.config_of 0 low false []))).
  reflexivity.
Defined.

End BoundedMemory.

(** ** The decision engine ([analyzeIntent], [determineBestAction], [makeDecision]) *)

Section Running.
Import Js.
Context {S A B : Type}.

Lemma bind_run (c : M S A) (k : A -> M S B) (s : S) :
  bind c k s = match c s with
               | (s', inl e) => (s', inl e)
               | (s', inr a) => k a s'
               end.
Proof. reflexivity. Qed.

Lemma ret_run (a : A) (s : S) : ret a s = (s, inr a).
Proof. reflexivity. Qed.

Lemma modify_run (f : S -> S) (s : S) : modify f s = (f s, inr tt).
Proof. reflexivity. Qed.

Lemma get_run (s : S) : get s = (s, inr s).
Proof. reflexivity. Qed.

Lemma lift_run (c : exn A) (s : S) : lift c s = (s, c).
Proof. reflexivity. Qed.

Lemma try_catch_run (c : M S A) (h : error -> M S A) (s : S) :
  try_catch c h s = match c s with
                    | (s', inl e) => h e s'
                    | (s', inr a) => (s', inr a)
                    end.
Proof. reflexivity. Qed.

End Running.

Lemma now_run (env : Agent.Env) (e : Agent.AgentEngine) :
  Agent.now env e
  = ({| Agent.state := Agent.state e; Agent.tools := Agent.tools e;
        Agent.ticks := S (Agent.ticks e); Agent.executed := Agent.executed e |},
     inr (Agent.clock env (Agent.ticks e))).
Proof. reflexivity. Qed.

Lemma uuid_run (env : Agent.Env) (e : Agent.AgentEngine) :
  Agent.uuid env e
  = ({| Agent.state := Agent.state e; Agent.tools := Agent.tools e;
        Agent.ticks := S (Agent.ticks e); Agent.executed := Agent.executed e |},
     inr (Agent.uuidv4 env (Agent.ticks e))).
Proof. reflexivity. Qed.

(** Runs a method one step at a time. *)
Ltac run :=
  repeat (first [ rewrite bind_run | rewrite now_run | rewrite uuid_run
                | rewrite modify_run | rewrite ret_run | rewrite get_run
                | rewrite lift_run | rewrite try_catch_run ];
          cbv beta iota).

Section DecisionEngine.
Import Js Types Agent Notions.
Variable env : Env.

Lemma filterE_pure {A} (p : A -> exn bool) (q : A -> bool) (l : list A) :
  (forall x, p x = ok (q x)) -> filterE p l = ok (filter q l).
Proof.
  intros H. induction l as [|x l IH]; [reflexivity|].
  cbn [filterE filter]. rewrite H, IH. cbn [bindE ok]. reflexivity.
Qed.

Lemma no_response_category (c : Category) : String.eqb (category_name c) "response" = false.
Proof. destruct c; reflexivity. Qed.

Lemma filter_none {A} (q : A -> bool) (l : list A) : (forall x, q x = false) -> filter q l = [].
Proof. intros H. induction l as [|x l IH]; cbn [filter]; [reflexivity|]. rewrite H. exact IH. Qed.

Lemma context_has_no_messages (context : Context) : Context_get context "messages" = None.
Proof. reflexivity. Qed.

(** The tools whose category is the one derived from the intent label, in
  the order of the registry. *)
Lemma relevant_tools (e : AgentEngine) (label : string) :
  filterE (fun tool =>
             bindE (intent_category (VStr label))
                   (fun c => ok (String.eqb (category_name (category tool)) c)))
          (JsMap.values (tools e))
  = ok (filter (fun tool =>
                  String.eqb (category_name (category tool))
                    (replace "_generation" "" (replace "_search" "" (replace "_operation" "" label))))
               (JsMap.values (tools e))).
Proof. apply filterE_pure. intros tool. reflexivity. Qed.

Lemma fallback_reaches_default (e : AgentEngine) (context : Context) :
  determineBestAction e fallback_intent context
  = throw (TypeError "Cannot read properties of undefined (reading 'length')").
Proof.
  unfold determineBestAction, fallback_intent. cbn [prop assoc String.eqb Ascii.eqb Bool.eqb bindE ok].
  rewrite relevant_tools.
  rewrite filter_none by (intros tool; apply no_response_category).
  cbn [bindE ok]. reflexivity.
Qed.

(** C2. The claim asks that, with a classifier that fails, the decision
  function returns a reply Decision of confidence 0.6 and never raises.
  The fallback intent matches no capability and is not complex, so
  [determineBestAction] reaches its last branch, which reads
  [context.messages.length] on a context that has no [messages] property:
  [makeDecision] throws a [TypeError], and [processMessage], which calls it
  outside its [try], throws it to the caller. *)
Theorem makeDecision_throws_when_classifier_fails (msg : string) (e : AgentEngine) :
  (forall context, exists err, classify env msg context = inl err) ->
  makeDecision env msg e
  = (e, inl (TypeError "Cannot read properties of undefined (reading 'length')"))
  /\ snd (processMessage env msg e)
     = inl (TypeError "Cannot read properties of undefined (reading 'length')").
Proof.
  intros Hfail.
  assert (Hmk : forall e', makeDecision env msg e'
            = (e', inl (TypeError "Cannot read properties of undefined (reading 'length')"))).
  { intros e'. unfold makeDecision, bind, get, lift, analyzeIntent.
    destruct (Hfail (getContext e')) as [err Herr]. rewrite Herr.
    rewrite fallback_reaches_default. reflexivity. }
  split; [apply Hmk|].
  unfold processMessage. run. rewrite Hmk. reflexivity.
Qed.

End DecisionEngine.

Section DecisionEngineExamples.
Import Js Types Agent Notions.

Lemma makeDecision_throws_witness :
  makeDecision Examples.offline "hello" (new (Examples.config_of 10 low true [Examples.coder]))
  = (new (Examples.config_of 10 low true [Examples.coder]),
     inl (Js.TypeError "Cannot read properties of undefined (reading 'length')"))
  /\ snd (processMessage Examples.offline "hello"
            (new (Examples.config_of 10 low true [Examples.coder])))
     = inl (Js.TypeError "Cannot read properties of undefined (reading 'length')").
Proof.
  apply (makeDecision_throws_when_classifier_fails Examples.offline "hello"
           (new (Examples.config_of 10 low true [Examples.coder]))).
  intros context. exists Examples.unavailable. reflexivity.
Defined.

End DecisionEngineExamples.

Section DecisionTable.
Import Js Types Agent Notions.

Lemma determineBestAction_table (e : AgentEngine) (props : list (string * jsval))
  (label : string) (context : Context) :
  assoc "intent" props = Some (VStr label) ->
  determineBestAction e (VObj props) context
  = match matching label e, safetyLevel (config (state e)) with
    | first :: _, (low | medium) =>
        ok {| choice_type := tool_execution;
              choice_confidence := 0.8%float;
              choice_reasoning :=
                "Found " ++ show_nat (List.length (matching label e))
                ++ " relevant tools for intent: " ++ label;
              choice_action := ToolAction (tool_id first) (field props "entities") |}
    | _, _ =>
        if is_string (field props "complexity") "complex"
           && learningEnabled (config (state e))
        then ok {| choice_type := planning;
                   choice_confidence := 0.7%float;
                   choice_reasoning := "Complex request requires planning";
                   choice_action := PlanAction (VObj props) (field props "entities") |}
        else throw (TypeError "Cannot read properties of undefined (reading 'length')")
    end.
Proof.
  intros Hlabel. unfold determineBestAction. cbn [prop bindE ok]. rewrite Hlabel.
  rewrite relevant_tools. cbn [bindE ok]. fold (matching label e).
  unfold field. destruct (matching label e) as [|first rest]; destruct (safetyLevel (config (state e)));
    reflexivity.
Qed.

(** The first branch: a capability matches and the safety level is not
  [high], so the first match in registry order is invoked, with
  confidence 0.8 and the classifier's entities as parameters. *)
Theorem determineBestAction_invokes_first_match (e : AgentEngine)
  (props : list (string * jsval)) (label : string) (context : Context)
  (first : AgentTool) (rest : list AgentTool) :
  assoc "intent" props = Some (VStr label) ->
  matching label e = first :: rest ->
  safetyLevel (config (state e)) <> high ->
  exists reasoning,
    determineBestAction e (VObj props) context
    = ok {| choice_type := tool_execution; choice_confidence := 0.8%float;
            choice_reasoning := reasoning;
            choice_action := ToolAction (tool_id first) (field props "entities") |}.
Proof.
  intros Hlabel Hmatch Hlevel. rewrite (determineBestAction_table e props label context Hlabel).
  rewrite Hmatch. destruct (safetyLevel (config (state e))); [eexists; reflexivity ..|congruence].
Qed.

(** The second branch: no capability can be invoked, the request is
  declared complex and learning is enabled, so the decision is a plan with
  confidence 0.7. *)
Theorem determineBestAction_plans_complex_requests (e : AgentEngine)
  (props : list (string * jsval)) (label : string) (context : Context) :
  assoc "intent" props = Some (VStr label) ->
  matching label e = [] \/ safetyLevel (config (state e)) = high ->
  assoc "complexity" props = Some (VStr "complex") ->
  learningEnabled (config (state e)) = true ->
  determineBestAction e (VObj props) context
  = ok {| choice_type := planning; choice_confidence := 0.7%float;
          choice_reasoning := "Complex request requires planning";
          choice_action := PlanAction (VObj props) (field props "entities") |}.
Proof.
  intros Hlabel Hnone Hcomplex Hlearn.
  rewrite (determineBestAction_table e props label context Hlabel).
  assert (Hc : is_string (field props "complexity") "complex" = true)
    by (unfold field; rewrite Hcomplex; reflexivity).
  rewrite Hc, Hlearn. cbn [andb].
  destruct Hnone as [-> | ->]; [reflexivity|].
  destruct (matching label e); reflexivity.
Qed.

(** C5. The claim's third branch is a reply of confidence 0.6 built from
  the latest message. In the code that branch reads
  [context.messages.length], and the context built by [getContext] has
  [recentMessages] but no [messages]: whenever neither of the first two
  branches applies, [determineBestAction] throws a [TypeError]. *)
Theorem determineBestAction_default_branch_throws (e : AgentEngine)
  (props : list (string * jsval)) (label : string) (context : Context) :
  assoc "intent" props = Some (VStr label) ->
  matching label e = [] \/ safetyLevel (config (state e)) = high ->
  is_string (field props "complexity") "complex" && learningEnabled (config (state e)) = false ->
  determineBestAction e (VObj props) context
  = throw (TypeError "Cannot read properties of undefined (reading 'length')").
Proof.
  intros Hlabel Hnone Hsimple.
  rewrite (determineBestAction_table e props label context Hlabel). rewrite Hsimple.
  destruct Hnone as [-> | ->]; [reflexivity|].
  destruct (matching label e); reflexivity.
Qed.

Lemma determineBestAction_invokes_first_match_witness :
  exists reasoning,
    determineBestAction (new (Examples.config_of 10 low true [Examples.refusing; Examples.coder]))
      (Examples.intent_of "code_generation" "simple")
      (getContext (new (Examples.config_of 10 low true [Examples.refusing; Examples.coder])))
    = ok {| choice_type := tool_execution; choice_confidence := 0.8%float;
            choice_reasoning := reasoning;
            choice_action := ToolAction "code_generate" (VObj [("path", VStr "notes.txt")]) |}.
Proof.
  apply (determineBestAction_invokes_first_match
           (new (Examples.config_of 10 low true [Examples.refusing; Examples.coder]))
           (Examples.intent_props "code_generation" "simple") "code_generation" _
           Examples.coder []).
  - reflexivity.
  - reflexivity.
  - discriminate.
Defined.

Lemma determineBestAction_plans_witness :
  determineBestAction (new (Examples.config_of 10 high true [Examples.coder]))
    (Examples.intent_of "code_generation" "complex")
    (getContext (new (Examples.config_of 10 high true [Examples.coder])))
  = ok {| choice_type := planning; choice_confidence := 0.7%float;
          choice_reasoning := "Complex request requires planning";
          choice_action := PlanAction (Examples.intent_of "code_generation" "complex")
                                      (VObj [("path", VStr "notes.txt")]) |}.
Proof.
  apply (determineBestAction_plans_complex_requests
           (new (Examples.config_of 10 high true [Examples.coder]))
           (Examples.intent_props "code_generation" "complex") "code_generation").
  - reflexivity.
  - right. reflexivity.
  - reflexivity.
  - reflexivity.
Defined.

Lemma determineBestAction_default_branch_witness :
  determineBestAction (new (Examples.config_of 10 low true []))
    (Examples.intent_of "chat" "simple")
    (getContext (new (Examples.config_of 10 low true [])))
  = throw (TypeError "Cannot read properties of undefined (reading 'length')").
Proof.
  apply (determineBestAction_default_branch_throws
           (new (Examples.config_of 10 low true []))
           (Examples.intent_props "chat" "simple") "chat").
  - reflexivity.
  - left. reflexivity.
  - reflexivity.
Defined.

End DecisionTable.

(** ** The dispatcher ([executeTool], [generateResponse], [createPlan],
       [learnFromInteraction] and the [switch] of [processMessage]) *)

Section Dispatcher.
Import Js Types Agent Notions.
Variable env : Env.

(** [executeTool] on an invoke action, case by case. *)
Lemma executeTool_cases (toolId : string) (parameters : jsval) (e : AgentEngine) :
  executeTool env (ToolAction toolId parameters) e
  = match JsMap.get String.eqb toolId (tools e) with
    | None => (e, inr ("Tool not found: " ++ toolId))
    | Some tool =>
        match match safetyCheck tool with
              | None => inr true
              | Some check => check parameters
              end with
        | inl err => (e, inl err)
        | inr false => (e, inr ("Safety check failed for tool: " ++ tool_name tool))
        | inr true =>
            match execute tool parameters with
            | inl err =>
                (record_call toolId parameters e,
                 match message_text env err with
                 | inr text => inr ("Error executing " ++ tool_name tool ++ ": " ++ text)
                 | inl raised => inl raised
                 end)
            | inr result =>
                (storeMemory
                   {| mem_id := uuidv4 env (ticks e); mem_type := m_tool_result;
                      mem_content := ToolResult toolId parameters result;
                      mem_timestamp := clock env (S (ticks e)); relevance := None |}
                   {| state := state e; tools := tools e; ticks := S (S (ticks e));
                      executed := (executed e ++ [(toolId, parameters)])%list |},
                 inr ("Successfully executed " ++ tool_name tool ++ ". Result: "
                      ++ stringify env result))
            end
        end
    end.
Proof.
  unfold executeTool. run.
  destruct (JsMap.get String.eqb toolId (tools e)) as [tool|]; [|reflexivity].
  run. destruct (safetyCheck tool) as [check|].
  - run. destruct (check parameters) as [err|[|]]; [reflexivity| |reflexivity].
    cbn [negb]. run. unfold record_call at 1. cbn [state tools ticks executed].
    destruct (execute tool parameters) as [err|result]; [|reflexivity].
    run. destruct (message_text env err); reflexivity.
  - run. cbn [negb]. run. unfold record_call at 1. cbn [state tools ticks executed].
    destruct (execute tool parameters) as [err|result]; [|reflexivity].
    run. destruct (message_text env err); reflexivity.
Qed.

(** What a [catch] block prints for an [Error] object, and what reading
    [error.message] does on [undefined] and [null]. *)
Lemma message_text_cases (m : string) :
  message_text env (Error m) = ok m
  /\ message_text env (TypeError m) = ok m
  /\ message_text env (SyntaxError m) = ok m
  /\ message_text env (Thrown VUndefined)
     = throw (TypeError "Cannot read properties of undefined (reading 'message')")
  /\ message_text env (Thrown VNull)
     = throw (TypeError "Cannot read properties of null (reading 'message')").
Proof. repeat split. Qed.

(** C6. An invoke decision against a registered capability whose
  [safetyCheck] returns false on the parameters is answered with the text
  "Safety check failed for tool: ..." and leaves the engine as it was: the
  trace of calls to [execute] is unchanged, so the capability did not run,
  and the memory is unchanged, so no tool result was recorded. *)
Theorem dispatch_refused_by_safety_check (decision : AgentDecision) (msg toolId : string)
  (parameters : jsval) (tool : AgentTool) (check : jsval -> exn bool) (e : AgentEngine) :
  dec_type decision = tool_execution ->
  action decision = ToolAction toolId parameters ->
  JsMap.get String.eqb toolId (tools e) = Some tool ->
  safetyCheck tool = Some check ->
  check parameters = inr false ->
  dispatch env decision msg e
  = (e, inr ("Safety check failed for tool: " ++ tool_name tool))
  /\ executed (fst (dispatch env decision msg e)) = executed e
  /\ filter is_tool_result (memory (state (fst (dispatch env decision msg e))))
     = filter is_tool_result (memory (state e)).
Proof.
  intros Htype Haction Hget Hcheck Hfalse.
  assert (H : dispatch env decision msg e
              = (e, inr ("Safety check failed for tool: " ++ tool_name tool))).
  { unfold dispatch. rewrite Htype, Haction, executeTool_cases, Hget, Hcheck, Hfalse.
    reflexivity. }
  rewrite H. auto.
Qed.

(** An invoke decision against an id that is not registered is answered
  with "Tool not found: ..." and changes nothing. *)
Theorem executeTool_unknown_tool (toolId : string) (parameters : jsval) (e : AgentEngine) :
  JsMap.get String.eqb toolId (tools e) = None ->
  executeTool env (ToolAction toolId parameters) e = (e, inr ("Tool not found: " ++ toolId)).
Proof. intros H. rewrite executeTool_cases, H. reflexivity. Qed.

(** When the capability's [execute] fails after the safety check passed,
  the capability has been called once and the state, memory included, is as
  it was. What the caller gets depends on the value [execute] failed with:
  when its [message] can be read and printed, [executeTool] returns "Error
  executing ...: " with it, as for every [Error] object; when [execute]
  rejected with [undefined] or [null], reading the message in the [catch]
  block raises a TypeError and [executeTool] throws it. *)
Theorem executeTool_reports_execution_error (toolId : string) (parameters : jsval)
  (tool : AgentTool) (err : error) (e : AgentEngine) :
  JsMap.get String.eqb toolId (tools e) = Some tool ->
  match safetyCheck tool with None => inr true | Some check => check parameters end = inr true ->
  execute tool parameters = inl err ->
  snd (executeTool env (ToolAction toolId parameters) e)
  = match message_text env err with
    | inr text => inr ("Error executing " ++ tool_name tool ++ ": " ++ text)
    | inl raised => inl raised
    end
  /\ (forall m, err = Error m \/ err = TypeError m \/ err = SyntaxError m ->
       snd (executeTool env (ToolAction toolId parameters) e)
       = inr ("Error executing " ++ tool_name tool ++ ": " ++ m))
  /\ (err = Thrown VUndefined ->
       snd (executeTool env (ToolAction toolId parameters) e)
       = inl (TypeError "Cannot read properties of undefined (reading 'message')"))
  /\ (err = Thrown VNull ->
       snd (executeTool env (ToolAction toolId parameters) e)
       = inl (TypeError "Cannot read properties of null (reading 'message')"))
  /\ state (fst (executeTool env (ToolAction toolId parameters) e)) = state e
  /\ executed (fst (executeTool env (ToolAction toolId parameters) e))
     = (executed e ++ [(toolId, parameters)])%list.
Proof.
  intros Hget Hcheck Hexec. rewrite executeTool_cases, Hget, Hcheck, Hexec.
  cbn [fst snd]. split; [reflexivity|]. split.
  - intros m [ -> | [ -> | -> ] ]; reflexivity.
  - split; [intros ->; reflexivity|]. split; [intros ->; reflexivity|]. split; reflexivity.
Qed.

(** When the capability runs, [executeTool] calls it once, stores one
  tool-result record holding the id, the parameters and the result, and
  returns the "Successfully executed" text. *)
Theorem executeTool_records_result (toolId : string) (parameters result : jsval)
  (tool : AgentTool) (e : AgentEngine) :
  JsMap.get String.eqb toolId (tools e) = Some tool ->
  match safetyCheck tool with None => inr true | Some check => check parameters end = inr true ->
  execute tool parameters = inr result ->
  exists record,
    mem_type record = m_tool_result
    /\ mem_content record = ToolResult toolId parameters result
    /\ snd (executeTool env (ToolAction toolId parameters) e)
       = inr ("Successfully executed " ++ tool_name tool ++ ". Result: " ++ stringify env result)
    /\ memory (state (fst (executeTool env (ToolAction toolId parameters) e)))
       = memory (state (storeMemory record e))
    /\ executed (fst (executeTool env (ToolAction toolId parameters) e))
       = (executed e ++ [(toolId, parameters)])%list.
Proof.
  intros Hget Hcheck Hexec. rewrite executeTool_cases, Hget, Hcheck, Hexec.
  exists {| mem_id := uuidv4 env (ticks e); mem_type := m_tool_result;
            mem_content := ToolResult toolId parameters result;
            mem_timestamp := clock env (S (ticks e)); relevance := None |}.
  repeat split.
Qed.

Lemma dispatch_raise_shape (decision : AgentDecision) (msg : string)
  (e e' : AgentEngine) (err : error) :
  dispatch env decision msg e = (e', inl err) ->
  exists toolId parameters tool,
    dec_type decision = tool_execution
    /\ action decision = ToolAction toolId parameters
    /\ JsMap.get String.eqb toolId (tools e) = Some tool
    /\ ((e' = e
         /\ exists check, safetyCheck tool = Some check /\ check parameters = inl err)
        \/ (e' = record_call toolId parameters e
            /\ match safetyCheck tool with
               | None => inr true
               | Some check => check parameters
               end = inr true
            /\ exists rejected,
                 execute tool parameters = inl rejected
                 /\ message_text env rejected = inl err)).
Proof.
  unfold dispatch. destruct (dec_type decision) eqn:Hkind.
  - destruct (action decision) as [toolId parameters| |]; [|discriminate ..].
    rewrite executeTool_cases.
    destruct (JsMap.get String.eqb toolId (tools e)) as [tool|] eqn:Hget; [|discriminate].
    intros H. exists toolId, parameters, tool.
    split; [reflexivity|]. split; [reflexivity|]. split; [exact Hget|].
    destruct (safetyCheck tool) as [check|] eqn:Hcheck.
    + destruct (check parameters) as [err'|[|]] eqn:Hres.
      * inversion H; subst. left. split; [reflexivity|]. exists check. auto.
      * right. destruct (execute tool parameters) as [rejected|result]; [|discriminate].
        destruct (message_text env rejected) as [raised|text] eqn:Htext; [|discriminate].
        inversion H; subst. split; [reflexivity|]. split; [reflexivity|].
        exists rejected. auto.
      * discriminate.
    + right. destruct (execute tool parameters) as [rejected|result]; [|discriminate].
      destruct (message_text env rejected) as [raised|text] eqn:Htext; [|discriminate].
      inversion H; subst. split; [reflexivity|]. split; [reflexivity|].
      exists rejected. auto.
  - unfold generateResponse. run. destruct (generate env msg (getContext e)); discriminate.
  - discriminate.
  - unfold learnFromInteraction. run. discriminate.
Qed.

Lemma dispatch_raise_state (decision : AgentDecision) (msg : string)
  (e e' : AgentEngine) (err : error) :
  dispatch env decision msg e = (e', inl err) -> state e' = state e /\ tools e' = tools e.
Proof.
  intros H. destruct (dispatch_raise_shape _ _ _ _ _ H) as (? & ? & ? & _ & _ & _ & Hcase).
  destruct Hcase as [ [ -> _ ] | [ -> _ ] ]; split; reflexivity.
Qed.

(** The dispatcher raises only out of an invoke of a registered capability,
    and in one of two ways: the capability's [safetyCheck] threw that error,
    and the engine is as it was; or the check passed, [execute] was called
    and rejected with a value whose message the [catch] block of
    [executeTool] could not read or print ([undefined], [null]), the error
    is the one of that read, and only the trace of calls has changed.
    Replying, planning and learning never raise. *)
Theorem dispatch_raises_only_from_a_tool (decision : AgentDecision) (msg : string)
  (e e' : AgentEngine) (err : error) :
  dispatch env decision msg e = (e', inl err) ->
  exists toolId parameters tool,
    dec_type decision = tool_execution
    /\ action decision = ToolAction toolId parameters
    /\ JsMap.get String.eqb toolId (tools e) = Some tool
    /\ ((e' = e
         /\ exists check, safetyCheck tool = Some check /\ check parameters = inl err)
        \/ (e' = record_call toolId parameters e
            /\ match safetyCheck tool with
               | None => inr true
               | Some check => check parameters
               end = inr true
            /\ exists rejected,
                 execute tool parameters = inl rejected
                 /\ message_text env rejected = inl err)).
Proof. apply dispatch_raise_shape. Qed.

(** Dispatching never touches the message log, the decision log or the
  configuration. *)
Lemma dispatch_frame (decision : AgentDecision) (msg : string) (e : AgentEngine) :
  messages (state (fst (dispatch env decision msg e))) = messages (state e)
  /\ decisions (state (fst (dispatch env decision msg e))) = decisions (state e)
  /\ config (state (fst (dispatch env decision msg e))) = config (state e)
  /\ tools (fst (dispatch env decision msg e)) = tools e.
Proof.
  unfold dispatch. destruct (dec_type decision).
  - destruct (action decision) as [toolId parameters| |]; [|repeat split ..].
    rewrite executeTool_cases.
    destruct (JsMap.get String.eqb toolId (tools e)) as [tool|]; [|repeat split].
    destruct (match safetyCheck tool with None => inr true | Some check => check parameters end)
      as [err|[|]]; [repeat split| |repeat split].
    destruct (execute tool parameters) as [err|result]; [|repeat split].
    destruct (message_text env err); repeat split.
  - unfold generateResponse. run. destruct (generate env msg (getContext e)); repeat split.
  - repeat split.
  - unfold learnFromInteraction. run. repeat split.
Qed.

End Dispatcher.

Section DispatcherExamples.
Import Js Types Agent Notions.

Lemma dispatch_refused_witness :
  dispatch Examples.offline
    {| dec_id := "d"; dec_type := tool_execution; confidence := 0.8%float; reasoning := "";
       action := ToolAction "file_delete" (VObj []); dec_timestamp := 0 |}
    "delete everything" (new (Examples.config_of 10 low true [Examples.refusing]))
  = (new (Examples.config_of 10 low true [Examples.refusing]),
     inr "Safety check failed for tool: file_delete").
Proof.
  apply (dispatch_refused_by_safety_check Examples.offline _ "delete everything" "file_delete"
           (VObj []) Examples.refusing (fun _ => ok false)
           (new (Examples.config_of 10 low true [Examples.refusing]))); reflexivity.
Defined.

Lemma executeTool_unknown_tool_witness :
  executeTool Examples.offline (ToolAction "missing" VNull)
    (new (Examples.config_of 10 low true [Examples.coder]))
  = (new (Examples.config_of 10 low true [Examples.coder]), inr "Tool not found: missing").
Proof.
  apply (executeTool_unknown_tool Examples.offline "missing" VNull
           (new (Examples.config_of 10 low true [Examples.coder]))).
  reflexivity.
Defined.

Lemma executeTool_reports_execution_error_witness :
  snd (executeTool Examples.offline (ToolAction "broken" VNull)
         (new (Examples.config_of 10 low true [Examples.failing (Error "network down")])))
  = inr "Error executing Broken: network down"
  /\ snd (executeTool Examples.offline (ToolAction "broken" VNull)
            (new (Examples.config_of 10 low true [Examples.failing (Thrown VUndefined)])))
     = inl (TypeError "Cannot read properties of undefined (reading 'message')").
Proof.
  split.
  - destruct (executeTool_reports_execution_error Examples.offline "broken" VNull
                (Examples.failing (Error "network down")) (Error "network down")
                (new (Examples.config_of 10 low true [Examples.failing (Error "network down")]))
                eq_refl eq_refl eq_refl) as (_ & Hmessage & _).
    exact (Hmessage "network down" (or_introl eq_refl)).
  - destruct (executeTool_reports_execution_error Examples.offline "broken" VNull
                (Examples.failing (Thrown VUndefined)) (Thrown VUndefined)
                (new (Examples.config_of 10 low true [Examples.failing (Thrown VUndefined)]))
                eq_refl eq_refl eq_refl) as (_ & _ & Hundefined & _).
    exact (Hundefined eq_refl).
Defined.

Lemma executeTool_records_result_witness :
  exists record,
    mem_type record = m_tool_result
    /\ mem_content record = ToolResult "code_generate" VNull (VObj [("success", VBool true)])
    /\ snd (executeTool Examples.offline (ToolAction "code_generate" VNull)
              (new (Examples.config_of 10 low true [Examples.coder])))
       = inr "Successfully executed code_generate. Result: {}"
    /\ memory (state (fst (executeTool Examples.offline (ToolAction "code_generate" VNull)
                             (new (Examples.config_of 10 low true [Examples.coder])))))
       = memory (state (storeMemory record (new (Examples.config_of 10 low true [Examples.coder]))))
    /\ executed (fst (executeTool Examples.offline (ToolAction "code_generate" VNull)
                        (new (Examples.config_of 10 low true [Examples.coder]))))
       = [("code_generate", VNull)].
Proof.
  apply (executeTool_records_result Examples.offline "code_generate" VNull
           (VObj [("success", VBool true)]) Examples.coder
           (new (Examples.config_of 10 low true [Examples.coder]))); reflexivity.
Defined.

Lemma dispatch_raises_witness :
  exists toolId parameters tool,
    tool_execution = tool_execution
    /\ ToolAction "broken" (VObj []) = ToolAction toolId parameters
    /\ JsMap.get String.eqb toolId
         (tools (new (Examples.config_of 10 low true [Examples.failing (Thrown VNull)])))
       = Some tool
    /\ ((record_call "broken" (VObj [])
           (new (Examples.config_of 10 low true [Examples.failing (Thrown VNull)]))
         = new (Examples.config_of 10 low true [Examples.failing (Thrown VNull)])
         /\ exists check,
              safetyCheck tool = Some check
              /\ check parameters
                 = inl (TypeError "Cannot read properties of null (reading 'message')"))
        \/ (record_call "broken" (VObj [])
              (new (Examples.config_of 10 low true [Examples.failing (Thrown VNull)]))
            = record_call toolId parameters
                (new (Examples.config_of 10 low true [Examples.failing (Thrown VNull)]))
            /\ match safetyCheck tool with
               | None => inr true
               | Some check => check parameters
               end = inr true
            /\ exists rejected,
                 execute tool parameters = inl rejected
                 /\ message_text Examples.offline rejected
                    = inl (TypeError "Cannot read properties of null (reading 'message')"))).
Proof.
  exact (dispatch_raises_only_from_a_tool Examples.offline
           {| dec_id := "d"; dec_type := tool_execution; confidence := 0.8%float;
              reasoning := ""; action := ToolAction "broken" (VObj []);
              dec_timestamp := 0 |}
           "fetch it" (new (Examples.config_of 10 low true [Examples.failing (Thrown VNull)]))
           (record_call "broken" (VObj [])
              (new (Examples.config_of 10 low true [Examples.failing (Thrown VNull)])))
           (TypeError "Cannot read properties of null (reading 'message')") eq_refl).
Defined.

End DispatcherExamples.

(** ** One request ([processMessage]) *)

Section Request.
Import Js Types Agent Notions.
Variable env : Env.

(** Making a decision only draws an identifier and a time. *)
Lemma makeDecision_frame (msg : string) (e e1 : AgentEngine) (d : AgentDecision) :
  makeDecision env msg e = (e1, inr d) ->
  state e1 = state e /\ tools e1 = tools e /\ executed e1 = executed e.
Proof.
  unfold makeDecision. run.
  destruct (determineBestAction e (analyzeIntent env msg (getContext e)) (getContext e))
    as [err|choice]; [discriminate|].
  run. intros H. inversion H; subst. repeat split.
Qed.

Lemma storeMemory_depends_on_state (r : AgentMemory) (e e' : AgentEngine) :
  memory (state e) = memory (state e') -> config (state e) = config (state e') ->
  memory (state (storeMemory r e)) = memory (state (storeMemory r e')).
Proof.
  intros Hm Hc. unfold storeMemory. cbn [state set_state set_memory memory].
  rewrite Hm, Hc. reflexivity.
Qed.

Lemma processMessage_run (msg : string) (e : AgentEngine) :
  processMessage env msg e
  = match makeDecision env msg (received env msg e) with
    | (e1, inl err) => (e1, inl err)
    | (e1, inr d) =>
        match dispatch env d msg (logged d e1) with
        | (e2, inl err) =>
            (updatePerformance (clock env (ticks e2) - clock env (ticks e)) false
               {| state := state e2; tools := tools e2; ticks := S (ticks e2);
                  executed := executed e2 |},
             match message_text env err with
             | inr text => inr ("I encountered an error: " ++ text)
             | inl raised => inl raised
             end)
        | (e2, inr response) =>
            let rt := (clock env (ticks e2) - clock env (ticks e))%Z in
            let assistantMessage :=
              {| msg_id := uuidv4 env (S (ticks e2)); role := assistant; content := response;
                 msg_timestamp := clock env (S (S (ticks e2)));
                 metadata := Some {| decisionId := dec_id d; responseTime := rt |} |} in
            let e3 := updatePerformance rt true
                        {| state := state e2; tools := tools e2; ticks := S (ticks e2);
                           executed := executed e2 |} in
            let e4 := set_state (set_messages (fun l => l ++ [assistantMessage])%list)
                        {| state := state e3; tools := tools e3; ticks := S (S (ticks e3));
                           executed := executed e3 |} in
            (storeMemory
               {| mem_id := uuidv4 env (ticks e4); mem_type := m_conversation;
                  mem_content := Conversation (userMessage_of env msg e) assistantMessage d;
                  mem_timestamp := clock env (S (ticks e4)); relevance := None |}
               {| state := state e4; tools := tools e4; ticks := S (S (ticks e4));
                  executed := executed e4 |},
             inr response)
        end
    end.
Proof.
  unfold processMessage. run.
  match goal with
  | |- context [makeDecision env msg ?x] => change x with (received env msg e)
  end.
  destruct (makeDecision env msg (received env msg e)) as [e1 [err|d]]; [reflexivity|].
  run.
  match goal with
  | |- context [dispatch env d msg ?x] => change x with (logged d e1)
  end.
  destruct (dispatch env d msg (logged d e1)) as [e2 [err|response]]; run; [|reflexivity].
  destruct (message_text env err); reflexivity.
Qed.

(** C3 fails on the code where the decided action raises. Once the decision
  is made: if the decided action runs without raising, also when it only
  reports a failure as text, the request leaves the user message, the
  decision, one assistant message carrying the response, and one
  conversation record pairing the three, handed to [storeMemory]; if the
  action raises, the [catch] block records nothing: the user message and
  the decision stay logged, no assistant message and no memory record is
  added, and the caller gets the text "I encountered an error: ..." or,
  when the message of the error cannot be read, the error of that read. *)
Theorem processMessage_outcomes (msg : string) (e e1 : AgentEngine) (d : AgentDecision) :
  makeDecision env msg (received env msg e) = (e1, inr d) ->
  match dispatch env d msg (logged d e1) with
  | (e2, inr response) =>
      exists assistantMessage record e3,
        processMessage env msg e = (e3, inr response)
        /\ role assistantMessage = assistant
        /\ content assistantMessage = response
        /\ messages (state e3)
           = (messages (state e) ++ [userMessage_of env msg e; assistantMessage])%list
        /\ decisions (state e3) = (decisions (state e) ++ [d])%list
        /\ mem_type record = m_conversation
        /\ mem_content record = Conversation (userMessage_of env msg e) assistantMessage d
        /\ memory (state e3) = memory (state (storeMemory record e2))
  | (e2, inl err) =>
      exists e3,
        processMessage env msg e
        = (e3, match message_text env err with
               | inr text => inr ("I encountered an error: " ++ text)
               | inl raised => inl raised
               end)
        /\ messages (state e3) = (messages (state e) ++ [userMessage_of env msg e])%list
        /\ decisions (state e3) = (decisions (state e) ++ [d])%list
        /\ memory (state e3) = memory (state e)
  end.
Proof.
  intros Hdecide. destruct (makeDecision_frame _ _ _ _ Hdecide) as (Hstate & Htools & Hexec).
  pose proof (dispatch_frame env d msg (logged d e1)) as (Fm & Fd & Fc & Ft).
  rewrite processMessage_run, Hdecide.
  destruct (dispatch env d msg (logged d e1)) as [e2 [err|response]] eqn:Hdispatch.
  - destruct (dispatch_raise_state env d msg _ _ _ Hdispatch) as [Hsame _].
    eexists. split; [reflexivity|].
    cbn [state set_state updatePerformance set_performance messages decisions memory].
    rewrite Hsame.
    cbn [state set_state messages decisions memory logged set_decisions].
    rewrite Hstate. repeat split.
  - cbn [fst] in Fm, Fd, Fc, Ft. cbv zeta.
    eexists {| msg_id := _; role := assistant; content := response; msg_timestamp := _;
               metadata := _ |}.
    eexists {| mem_id := _; mem_type := m_conversation; mem_content := _; mem_timestamp := _;
               relevance := None |}.
    eexists. split; [reflexivity|].
    split; [reflexivity|]. split; [reflexivity|].
    split.
    { cbn [state set_state set_messages messages storeMemory set_memory updatePerformance
             set_performance].
      rewrite Fm. cbn [logged state set_state set_decisions messages]. rewrite Hstate.
      cbn [received state set_messages messages]. rewrite <- app_assoc. reflexivity. }
    split.
    { cbn [state set_state set_messages decisions storeMemory set_memory updatePerformance
             set_performance].
      rewrite Fd. cbn [logged state set_state set_decisions decisions]. rewrite Hstate.
      reflexivity. }
    split; [reflexivity|]. split; [reflexivity|].
    apply storeMemory_depends_on_state; reflexivity.
Qed.

End Request.

Section RequestExamples.
Import Js Types Agent Notions.

Lemma processMessage_outcomes_witness :
  (exists e3,
     processMessage (Examples.answering (Examples.intent_of "file_operation" "simple"))
       "read my notes" (new (Examples.config_of 10 low true [Examples.crashing]))
     = (e3, inr "I encountered an error: Cannot read properties of undefined (reading 'includes')")
     /\ map role (messages (state e3)) = [user]
     /\ map dec_type (decisions (state e3)) = [tool_execution]
     /\ memory (state e3) = [])
  /\ (exists assistantMessage record e3,
        processMessage (Examples.answering (Examples.intent_of "code_generation" "simple"))
          "write a parser" (new (Examples.config_of 10 low true [Examples.coder]))
        = (e3, inr "Successfully executed code_generate. Result: {}")
        /\ role assistantMessage = assistant
        /\ content assistantMessage = "Successfully executed code_generate. Result: {}"
        /\ List.length (messages (state e3)) = 2%nat
        /\ List.length (decisions (state e3)) = 1%nat
        /\ mem_type record = m_conversation
        /\ List.last (memory (state e3)) (Examples.note "none") = record).
Proof.
  split.
  - pose proof (processMessage_outcomes
                  (Examples.answering (Examples.intent_of "file_operation" "simple"))
                  "read my notes" (new (Examples.config_of 10 low true [Examples.crashing]))
                  _ _ eq_refl) as H.
    cbv beta iota in H.
    destruct H as (e3 & Hrun & Hm & Hd & Hmem).
    exists e3. split; [exact Hrun|]. split; [rewrite Hm; reflexivity|].
    split; [rewrite Hd; reflexivity|]. exact Hmem.
  - pose proof (processMessage_outcomes
                  (Examples.answering (Examples.intent_of "code_generation" "simple"))
                  "write a parser" (new (Examples.config_of 10 low true [Examples.coder]))
                  _ _ eq_refl) as H.
    cbv beta iota in H.
    destruct H as (am & record & e3 & Hrun & Hrole & Hcontent & Hm & Hd & Hty & Hct & Hmem).
    exists am, record, e3. split; [exact Hrun|]. split; [exact Hrole|]. split; [exact Hcontent|].
    split; [rewrite Hm; reflexivity|]. split; [rewrite Hd; reflexivity|]. split; [exact Hty|].
    rewrite Hmem. reflexivity.
Defined.

End RequestExamples.

(** ** Importing a saved state ([importState]) *)

Section Importing.
Import Js Types StateImport Notions.

(** A document that does not parse is rejected and nothing is touched. *)
Theorem importState_unparsable_keeps_engine (err : error) (e : Engine) :
  importState (inl err) e = (e, inl (Error "Invalid state format")).
Proof. reflexivity. Qed.

(** Whatever goes wrong in [importState] reaches the caller as the one
  error [Error('Invalid state format')]. *)
Theorem importState_raises_only_format_error (parsed : exn jsval) (e e' : Engine) (err : error) :
  importState parsed e = (e', inl err) -> err = Error "Invalid state format".
Proof.
  unfold importState. rewrite try_catch_run.
  match goal with |- context [match ?c with _ => _ end] => destruct c as [s [x|x]] end.
  - intros H. inversion H. reflexivity.
  - discriminate.
Qed.

(** C4. The claim asks that a structurally invalid document leave the prior
  state and capability map unchanged. The code assigns the parsed document
  to [this.state] and clears [this.tools] before it reads
  [importedState.config.tools]: a document that parses but has no [config]
  is reported as 'Invalid state format' after it has replaced the state
  and emptied the capability map. *)
Theorem importState_applies_before_rejecting (props : list (string * jsval)) (e : Engine) :
  assoc "config" props = None ->
  importState (inr (VObj props)) e
  = ({| state := Parsed (VObj props); tools := JsMap.empty |},
     inl (Error "Invalid state format")).
Proof.
  intros Hconfig. unfold importState. run. cbn [prop]. rewrite Hconfig. run. reflexivity.
Qed.

Lemma rebuild_objects (items : list jsval) (e : Engine) :
  Forall is_object items ->
  rebuild items e
  = ({| state := state e;
        tools := fold_left (fun m tool => JsMap.set same_key (parsed_id tool) (ParsedTool tool) m)
                           items (tools e) |}, inr tt).
Proof.
  intros Hall. revert e. induction Hall as [|tool rest Htool _ IH]; intros e.
  - destruct e; reflexivity.
  - cbn [rebuild fold_left]. run.
    assert (Hid : prop tool "id" = inr (parsed_id tool)).
    { unfold parsed_id. destruct tool; try contradiction; reflexivity. }
    rewrite Hid. run. rewrite IH. reflexivity.
Qed.

(** A document whose [config.tools] is an array of objects is accepted: the
  parsed document becomes the state, and the capability map is rebuilt
  from that array alone, nothing of the previous map being kept. *)
Theorem importState_rebuilds_registry (doc cfg : jsval) (items : list jsval) (e : Engine) :
  prop doc "config" = inr cfg ->
  prop cfg "tools" = inr (VArr items) ->
  Forall is_object items ->
  importState (inr doc) e = ({| state := Parsed doc; tools := registry_of items |}, inr tt).
Proof.
  intros Hcfg Htools Hitems. unfold importState. run. rewrite Hcfg. run. rewrite Htools. run.
  rewrite rebuild_objects by exact Hitems. reflexivity.
Qed.

End Importing.

Section ImportingExamples.
Import Js Types StateImport Notions.

Lemma importState_applies_before_rejecting_witness :
  importState (inr (VObj []))
    (of_engine (Agent.new (Examples.config_of 10 low true [Examples.coder])))
  = ({| state := Parsed (VObj []); tools := JsMap.empty |},
     inl (Error "Invalid state format"))
  /\ JsMap.keys (tools (of_engine (Agent.new (Examples.config_of 10 low true [Examples.coder]))))
     = [VStr "code_generate"].
Proof.
  split; [|reflexivity].
  apply (importState_applies_before_rejecting []
           (of_engine (Agent.new (Examples.config_of 10 low true [Examples.coder])))).
  reflexivity.
Defined.

Lemma importState_raises_only_format_error_witness :
  Error "Invalid state format" = Error "Invalid state format".
Proof.
  symmetry.
  apply (importState_raises_only_format_error (inr VNull)
           (of_engine (Agent.new (Examples.config_of 10 low true [])))
           {| state := Parsed VNull; tools := JsMap.empty |}).
  reflexivity.
Defined.

Lemma importState_rebuilds_registry_witness :
  importState
    (inr (VObj [("config", VObj [("tools", VArr [VObj [("id", VStr "web_fetch")]])])]))
    (of_engine (Agent.new (Examples.config_of 10 low true [Examples.coder])))
  = ({| state := Parsed (VObj [("config", VObj [("tools", VArr [VObj [("id", VStr "web_fetch")]])])]);
        tools := [(VStr "web_fetch", ParsedTool (VObj [("id", VStr "web_fetch")]))] |},
     inr tt).
Proof.
  apply (importState_rebuilds_registry
           (VObj [("config", VObj [("tools", VArr [VObj [("id", VStr "web_fetch")]])])])
           (VObj [("tools", VArr [VObj [("id", VStr "web_fetch")]])])
           [VObj [("id", VStr "web_fetch")]]).
  - reflexivity.
  - reflexivity.
  - repeat constructor.
Defined.

End ImportingExamples.

(** ** The learning engine: adaptation rules ([adaptBehavior],
       [executeAdaptationRule]) *)

Section Adaptation.
Import Js Types Learning Notions.

Lemma write_lines_snoc (lines : list string) (l : string) (e : LearningEngine) :
  write_lines (lines ++ [l]) e = console_write (Log l) (write_lines lines e).
Proof. unfold write_lines. rewrite fold_left_app. reflexivity. Qed.

Lemma execute_all_run (rules : list Rule) (context : Context) (e : LearningEngine) :
  execute_all rules context e
  = (write_lines (map (fun r => adaptation_line (rule_action r)) rules) e, inr tt).
Proof.
  revert e. induction rules as [|r rest IH]; intros e; [reflexivity|].
  cbn [execute_all map]. unfold executeAdaptationRule. rewrite bind_run, modify_run.
  cbv beta iota. rewrite IH. reflexivity.
Qed.

Lemma insert_rule_permutation (r : Rule) (l : list Rule) : Permutation (r :: l) (insert_rule r l).
Proof.
  induction l as [|x l IH]; cbn [insert_rule]; [apply Permutation_refl|].
  destruct (priority r <=? priority x)%Z; [apply Permutation_refl|].
  eapply perm_trans; [apply perm_swap|]. apply perm_skip. exact IH.
Qed.

Lemma sort_rules_permutation (l : list Rule) : Permutation l (sort_rules l).
Proof.
  induction l as [|r l IH]; cbn [sort_rules fold_right]; [apply perm_nil|].
  eapply perm_trans; [apply perm_skip; exact IH|]. apply insert_rule_permutation.
Qed.

Lemma insert_rule_head (r x : Rule) (l : list Rule) :
  by_priority x r -> HdRel by_priority x l -> HdRel by_priority x (insert_rule r l).
Proof.
  intros Hxr Hhd. destruct l as [|y l]; cbn [insert_rule]; [constructor; exact Hxr|].
  destruct (priority r <=? priority y)%Z; constructor; [exact Hxr|].
  inversion Hhd; assumption.
Qed.

Lemma insert_rule_sorted (r : Rule) (l : list Rule) :
  Sorted by_priority l -> Sorted by_priority (insert_rule r l).
Proof.
  induction 1 as [|x l Hsorted IH Hhd]; cbn [insert_rule]; [repeat constructor|].
  destruct (priority r <=? priority x)%Z eqn:Hle.
  - constructor; [constructor; assumption|]. constructor. unfold by_priority. lia.
  - constructor; [exact IH|]. apply insert_rule_head; [|exact Hhd].
    unfold by_priority. lia.
Qed.

Lemma sort_rules_sorted (l : list Rule) : Sorted by_priority (sort_rules l).
Proof.
  induction l as [|r l IH]; cbn [sort_rules fold_right]; [constructor|].
  apply insert_rule_sorted. exact IH.
Qed.

(** If the predicate of any rule raises, filtering the rules raises. *)
Lemma filterE_raises {A} (p : A -> exn bool) (l : list A) (x : A) (err : error) :
  In x l -> p x = inl err -> exists err', filterE p l = inl err'.
Proof.
  intros Hin Hraise. induction l as [|y l IH]; [contradiction|].
  cbn [filterE]. destruct Hin as [-> | Hin].
  - rewrite Hraise. eexists. reflexivity.
  - destruct (p y) as [e|b]; [eexists; reflexivity|]. cbn [bindE].
    destruct (IH Hin) as [err' ->]. eexists. reflexivity.
Qed.

Lemma adaptBehavior_run (context : Context) (e : LearningEngine) :
  adaptBehavior context e
  = match filterE (holds context) (JsMap.values (adaptationRules e)) with
    | inl err => (e, inl err)
    | inr applicable =>
        (write_lines (map (fun r => adaptation_line (rule_action r)) (sort_rules applicable)) e,
         inr tt)
    end.
Proof.
  unfold adaptBehavior. rewrite bind_run, get_run. cbv beta iota. rewrite bind_run, lift_run.
  cbv beta iota.
  destruct (filterE (holds context) (JsMap.values (adaptationRules e))) as [err|applicable].
  - reflexivity.
  - apply execute_all_run.
Qed.

(** C9, as the code has it. [adaptBehavior] has no [try]: the predicates of
    all rules are evaluated first, and if one of them raises, the pass ends
    there, the error goes to the caller and no rule has been executed;
    otherwise the rules whose predicate holds are executed, each writing its
    line, in ascending order of priority. *)
Theorem adaptBehavior_all_or_nothing (context : Context) (e : LearningEngine) :
  match filterE (holds context) (JsMap.values (adaptationRules e)) with
  | inl err => adaptBehavior context e = (e, inl err)
  | inr applicable =>
      exists ordered,
        adaptBehavior context e
        = (write_lines (map (fun r => adaptation_line (rule_action r)) ordered) e, inr tt)
        /\ Permutation applicable ordered
        /\ Sorted by_priority ordered
  end.
Proof.
  rewrite adaptBehavior_run.
  destruct (filterE (holds context) (JsMap.values (adaptationRules e))) as [err|applicable].
  - reflexivity.
  - exists (sort_rules applicable).
    split; [reflexivity|]. split; [apply sort_rules_permutation|apply sort_rules_sorted].
Qed.

(** C9, as the claim states it, fails: with the constructor's rules and a
  context that reports slow responses but has no [memory], the first rule
  applies, the third rule's predicate throws, and the pass throws without
  having executed the first rule. *)
Lemma adaptBehavior_aborts_on_failing_rule :
  option_map (holds Examples.slow_context)
             (JsMap.get String.eqb "response_time_optimization" (adaptationRules Learning.new))
  = Some (inr true)
  /\ adaptBehavior Examples.slow_context Learning.new
     = (Learning.new, inl (TypeError "Cannot read properties of undefined (reading 'length')"))
  /\ console (fst (adaptBehavior Examples.slow_context Learning.new)) = [].
Proof. repeat split. Qed.

End Adaptation.

(** ** The learning engine: the pattern table ([extractPatterns],
       [updatePatternRecognition], [learnFromInteraction]) *)

Section StringMaps.
Context {V : Type}.

Lemma get_set_same (k : string) (v : V) (m : JsMap.t string V) :
  JsMap.get String.eqb k (JsMap.set String.eqb k v m) = Some v.
Proof.
  induction m as [|[k' v'] m IH]; cbn [JsMap.set JsMap.get].
  - rewrite String.eqb_refl. reflexivity.
  - destruct (String.eqb k k') eqn:E; cbn [JsMap.get]; rewrite E; [reflexivity|exact IH].
Qed.

Lemma get_set_other (k k' : string) (v : V) (m : JsMap.t string V) :
  k <> k' -> JsMap.get String.eqb k (JsMap.set String.eqb k' v m) = JsMap.get String.eqb k m.
Proof.
  intros Hne. induction m as [|[k0 v0] m IH]; cbn [JsMap.set JsMap.get].
  - apply String.eqb_neq in Hne. rewrite Hne. reflexivity.
  - destruct (String.eqb k' k0) eqn:E; cbn [JsMap.get].
    + apply String.eqb_eq in E. subst k0. apply String.eqb_neq in Hne. rewrite Hne. reflexivity.
    + destruct (String.eqb k k0); [reflexivity|exact IH].
Qed.

Lemma get_in (k : string) (v : V) (m : JsMap.t string V) :
  JsMap.get String.eqb k m = Some v -> exists k', In (k', v) m.
Proof.
  induction m as [|[k0 v0] m IH]; cbn [JsMap.get]; [discriminate|].
  destruct (String.eqb k k0).
  - intros H. inversion H; subst. exists k0. left. reflexivity.
  - intros H. destruct (IH H) as [k' Hin]. exists k'. right. exact Hin.
Qed.

Lemma set_forall (P : string * V -> Prop) (k : string) (v : V) (m : JsMap.t string V) :
  (forall k', P (k', v)) -> Forall P m -> Forall P (JsMap.set String.eqb k v m).
Proof.
  intros Hv Hm. induction Hm as [|[k0 v0] m H0 Hm IH]; cbn [JsMap.set].
  - constructor; [apply Hv|constructor].
  - destruct (String.eqb k k0); constructor; auto.
Qed.

End StringMaps.

Section PatternTable.
Import Js Types Learning Notions.
Variable clock : nat -> Z.

(** Of a learning call, only the pattern update writes to the table, and
  it does so before anything that can fail. *)
Lemma learn_pattern_table (message response : AgentMessage) (decision : AgentDecision)
  (context : Context) (e : LearningEngine) :
  pattern_table (fst (learnFromInteraction clock message response decision context e))
  = fold_left (update_pattern decision) (extractPatterns (content message)) (pattern_table e).
Proof.
  unfold learnFromInteraction. rewrite bind_run, modify_run. cbv beta iota.
  unfold analyzePerformance. rewrite !bind_run. unfold Learning.now at 1. cbv beta iota.
  rewrite modify_run. cbv beta iota. rewrite bind_run.
  rewrite adaptBehavior_run.
  match goal with |- context [filterE (holds context) ?l] =>
    destruct (filterE (holds context) l) as [err|applicable]
  end.
  - reflexivity.
  - cbv beta iota.
    unfold storeLearningInsights. rewrite bind_run. unfold Learning.now at 1. cbv beta iota.
    rewrite modify_run. cbn [fst pattern_table console_write].
    generalize (map (fun r : Rule => adaptation_line (rule_action r)) (sort_rules applicable)).
    intros lines.
    match goal with |- pattern_table (write_lines lines ?s) = _ =>
      assert (Hw : forall s', pattern_table (write_lines lines s') = pattern_table s')
    end.
    { induction lines as [|l lines IH] using rev_ind; intros s'; [reflexivity|].
      rewrite write_lines_snoc. cbn [pattern_table console_write]. apply IH. }
    rewrite Hw. reflexivity.
Qed.

Lemma update_pattern_in_range (decision : AgentDecision) (table : JsMap.t string PatternData)
  (pattern : string) :
  table_in_range table -> table_in_range (update_pattern decision table pattern).
Proof.
  intros Htable. unfold update_pattern.
  destruct (JsMap.get String.eqb pattern table) as [data|] eqn:Hget.
  - apply set_forall; [|exact Htable]. intros k'. cbn [snd pat_confidence].
    destruct (get_in _ _ _ Hget) as [k0 Hin].
    assert (Hdata : in_range (pat_confidence data)).
    { unfold table_in_range in Htable. rewrite Forall_forall in Htable.
      exact (Htable _ Hin). }
    destruct (0.7 <? confidence decision)%float;
      [apply raise_in_range|apply lower_in_range]; exact Hdata.
  - apply set_forall; [|exact Htable]. intros k'. cbn [snd pat_confidence].
    split; reflexivity.
Qed.

Lemma fold_update_in_range (decision : AgentDecision) (found : list string)
  (table : JsMap.t string PatternData) :
  table_in_range table -> table_in_range (fold_left (update_pattern decision) found table).
Proof.
  revert table. induction found as [|p found IH]; intros table H; [exact H|].
  cbn [fold_left]. apply IH. apply update_pattern_in_range. exact H.
Qed.

Lemma seeded_in_range : table_in_range (pattern_table Learning.new).
Proof. repeat constructor. Qed.

Lemma map_of_in_range (entries : list (string * PatternData)) :
  table_in_range entries -> table_in_range (map_of entries).
Proof.
  intros H. unfold map_of.
  assert (G : forall acc, table_in_range acc ->
            table_in_range (fold_left (fun m kv => JsMap.set String.eqb (fst kv) (snd kv) m)
                                      entries acc)).
  { induction H as [|[k v] entries Hkv _ IH]; intros acc Hacc; [exact Hacc|].
    cbn [fold_left]. apply IH. apply set_forall; [|exact Hacc]. intros k'. exact Hkv. }
  apply G. constructor.
Qed.

Lemma run_in_range (o : Op) (e : LearningEngine) :
  op_in_range o -> table_in_range (pattern_table e) ->
  table_in_range (pattern_table (run clock o e)).
Proof.
  intros Hop He. destruct o as [message response decision context|parsed|]; cbn [run].
  - rewrite learn_pattern_table. apply fold_update_in_range. exact He.
  - destruct parsed as [err|doc]; [exact He|]. cbn [op_in_range document_in_range] in Hop.
    unfold importLearningData.
    assert (H1 : table_in_range
                   (pattern_table (match x_patterns doc with
                                   | Some entries => set_patterns (fun _ => map_of entries) e
                                   | None => e
                                   end))).
    { destruct (x_patterns doc) as [entries|]; [apply map_of_in_range; exact Hop|exact He]. }
    destruct (x_performanceHistory doc), (x_adaptationRules doc); exact H1.
  - exact seeded_in_range.
Qed.

(** C8, as the code has it. From the constructor's table, through any
  sequence of learning calls, resets and imports of documents whose
  confidences lie in [0.1, 1.0], every entry's confidence lies in
  [0.1, 1.0], in the engine's own binary64 arithmetic. *)
Theorem confidence_stays_in_range (e : LearningEngine) (key : string) (data : PatternData) :
  reachable_in_range clock e ->
  JsMap.get String.eqb key (pattern_table e) = Some data ->
  in_range (pat_confidence data).
Proof.
  intros Hreach Hget.
  assert (Htable : table_in_range (pattern_table e)).
  { clear Hget. induction Hreach as [|e o _ IH Hop];
      [exact seeded_in_range|apply run_in_range; assumption]. }
  destruct (get_in _ _ _ Hget) as [k' Hin].
  unfold table_in_range in Htable. rewrite Forall_forall in Htable. exact (Htable _ Hin).
Qed.

End PatternTable.

Section PatternTableExamples.
Import Js Types Learning Notions.

Lemma confidence_stays_in_range_witness :
  JsMap.get String.eqb "help me"
    (pattern_table (run Examples.ticking
       (Learn (Examples.said "help me") (Examples.said "ok") (Examples.decided 0.9%float)
              Examples.no_context) Learning.new))
  = Some {| patterns := ["help me"]; response := "response_generation";
            pat_confidence := 0.6%float; occurrences := Some 2 |}
  /\ in_range 0.6%float.
Proof.
  split; [reflexivity|].
  apply (confidence_stays_in_range Examples.ticking
           (run Examples.ticking
              (Learn (Examples.said "help me") (Examples.said "ok") (Examples.decided 0.9%float)
                     Examples.no_context) Learning.new)
           "help me"
           {| patterns := ["help me"]; response := "response_generation";
              pat_confidence := 0.6%float; occurrences := Some 2 |}).
  - apply range_step; [apply range_new|exact I].
  - reflexivity.
Defined.

(** C8, as the claim states it, fails: [importLearningData] is an operation
  of the learning engine, and it installs the table of the document as it
  is. After importing a document with a confidence of 5 the table holds an
  entry whose confidence is above 1. *)
Lemma import_installs_confidence_out_of_range :
  reachable Examples.ticking
    (run Examples.ticking (Import (inr Examples.overconfident)) Learning.new)
  /\ option_map pat_confidence
       (JsMap.get String.eqb "deploy now"
          (pattern_table (run Examples.ticking (Import (inr Examples.overconfident)) Learning.new)))
     = Some 5%float
  /\ (5 <=? 1)%float = false.
Proof.
  split; [apply reach_step; apply reach_new|]. split; reflexivity.
Qed.

End PatternTableExamples.

Section Scenario.
Import Js Types Learning Notions.
Variable clock : nat -> Z.

Lemma help_me_extracted_twice : extractPatterns "help me" = ["help me"; "help me"].
Proof. reflexivity. Qed.

(** C7, as the code has it. The message "help me" yields the key "help me"
  twice, as a bigram and as a key phrase, and the table update does not
  remove duplicates. On a table where the key is unseen, a learning call
  with a decision of confidence 0.9 creates the entry (confidence 0.5,
  count 1) and then updates it once: confidence 0.6, count 2. A second call
  with a decision of confidence 0.3 updates it twice more: confidence
  0.6 - 0.05 - 0.05 in binary64, and count 4. *)
Theorem learn_help_me_twice (first second response1 response2 : AgentMessage)
  (decision1 decision2 : AgentDecision) (context1 context2 : Context) (e : LearningEngine) :
  JsMap.get String.eqb "help me" (pattern_table e) = None ->
  content first = "help me" -> content second = "help me" ->
  confidence decision1 = 0.9%float -> confidence decision2 = 0.3%float ->
  let e1 := fst (learnFromInteraction clock first response1 decision1 context1 e) in
  let e2 := fst (learnFromInteraction clock second response2 decision2 context2 e1) in
  JsMap.get String.eqb "help me" (pattern_table e1)
  = Some {| patterns := ["help me"]; response := type_name (dec_type decision1);
            pat_confidence := 0.6%float; occurrences := Some 2 |}
  /\ JsMap.get String.eqb "help me" (pattern_table e2)
     = Some {| patterns := ["help me"]; response := type_name (dec_type decision1);
               pat_confidence := (0.6 - 0.05 - 0.05)%float; occurrences := Some 4 |}.
Proof.
  intros Hunseen Hfirst Hsecond Hc1 Hc2 e1 e2.
  assert (H1 : JsMap.get String.eqb "help me" (pattern_table e1)
               = Some {| patterns := ["help me"]; response := type_name (dec_type decision1);
                         pat_confidence := 0.6%float; occurrences := Some 2 |}).
  { unfold e1. rewrite learn_pattern_table, Hfirst, help_me_extracted_twice.
    cbn [fold_left]. unfold update_pattern at 2. rewrite Hunseen.
    unfold update_pattern. rewrite get_set_same. rewrite get_set_same.
    rewrite Hc1. reflexivity. }
  split; [exact H1|].
  unfold e2. rewrite learn_pattern_table, Hsecond, help_me_extracted_twice.
  cbn [fold_left]. unfold update_pattern at 2. rewrite H1.
  unfold update_pattern. rewrite get_set_same. rewrite get_set_same.
  rewrite Hc2. reflexivity.
Qed.

End Scenario.

Section ScenarioExamples.
Import Js Types Learning Notions.

Lemma learn_help_me_twice_witness :
  JsMap.get String.eqb "help me" (pattern_table Learning.new) = None
  /\ JsMap.get String.eqb "help me"
       (pattern_table
          (fst (learnFromInteraction Examples.ticking (Examples.said "help me")
                  (Examples.said "ok") (Examples.decided 0.3%float) Examples.full_context
                  (fst (learnFromInteraction Examples.ticking (Examples.said "help me")
                          (Examples.said "ok") (Examples.decided 0.9%float)
                          Examples.full_context Learning.new)))))
     = Some {| patterns := ["help me"]; response := "response_generation";
               pat_confidence := 0.49999999999999994%float; occurrences := Some 4 |}.
Proof.
  split; [reflexivity|].
  apply (learn_help_me_twice Examples.ticking (Examples.said "help me") (Examples.said "help me")
           (Examples.said "ok") (Examples.said "ok")
           (Examples.decided 0.9%float) (Examples.decided 0.3%float)
           Examples.full_context Examples.full_context Learning.new); reflexivity.
Defined.

(** C7, as the claim states it, fails: after the first learning call on
  "help me" the entry has been seen twice, not once, and after the second
  call it has been seen four times and its confidence is not 0.55. *)
Lemma help_me_counted_twice_per_call :
  option_map occurrences
    (JsMap.get String.eqb "help me"
       (pattern_table
          (fst (learnFromInteraction Examples.ticking (Examples.said "help me")
                  (Examples.said "ok") (Examples.decided 0.9%float) Examples.full_context
                  Learning.new))))
  = Some (Some 2)
  /\ option_map (fun data => (occurrences data, (pat_confidence data =? 0.55)%float))
       (JsMap.get String.eqb "help me"
          (pattern_table
             (fst (learnFromInteraction Examples.ticking (Examples.said "help me")
                     (Examples.said "ok") (Examples.decided 0.3%float) Examples.full_context
                     (fst (learnFromInteraction Examples.ticking (Examples.said "help me")
                             (Examples.said "ok") (Examples.decided 0.9%float)
                             Examples.full_context Learning.new))))))
     = Some (Some 4, false).
Proof. split; reflexivity. Qed.

End ScenarioExamples.

(** ** The learning engine: performance history ([analyzePerformance],
       [getPerformanceMetrics]) *)

Section Metrics.
Import Js Types Learning Notions.

(** A length below 2^63 is, as a number, above zero (so dividing by it is
  not a division by zero). *)
Lemma of_nat_positive (n : nat) :
  (0 < n)%nat -> (Z.of_nat n < 2 ^ 63)%Z -> (0 <? of_nat n)%float = true.
Proof.
  intros Hpos Hsmall. unfold of_nat, of_Z.
  assert (Hneg : (Z.of_nat n <? 0)%Z = false) by (apply Z.ltb_ge; lia).
  rewrite Hneg. rewrite ltb_spec, of_uint63_spec.
  rewrite Uint63.of_Z_spec. rewrite Z.mod_small by (change Uint63.wB with (2 ^ 63)%Z; lia).
  destruct (Z.of_nat n) as [|p|p] eqn:Hn; try lia.
  cbn [binary_normalize].
  destruct (binary_round_pos p 0 ltac:(lia)) as (m & e & Hr & _ & _). rewrite Hr.
  unfold rounded. destruct (e <=? 971)%Z; reflexivity.
Qed.

(** C10. With an empty history the metrics are all zero, with no division;
  with a history of [n > 0] entries the three averages are the sums (or the
  count of successes) divided by [n], which as a number is above zero. *)
Theorem getPerformanceMetrics_divides_by_length (e : LearningEngine) :
  match performanceHistory e with
  | [] =>
      getPerformanceMetrics e
      = {| m_totalInteractions := 0; m_averageConfidence := 0%float;
           m_successRate := 0%float; m_averageResponseTime := 0%float |}
  | _ :: _ =>
      let history := performanceHistory e in
      let n := List.length history in
      (0 < n)%nat
      /\ getPerformanceMetrics e
         = {| m_totalInteractions := n;
              m_averageConfidence :=
                (fold_left (fun sum p => sum + perf_confidence p) history 0 / of_nat n)%float;
              m_successRate :=
                (of_nat (List.length (filter success history)) / of_nat n)%float;
              m_averageResponseTime :=
                (fold_left (fun sum p => sum + perf_responseTime p) history 0 / of_nat n)%float |}
      /\ ((Z.of_nat n < 2 ^ 63)%Z -> (0 <? of_nat n)%float = true)
  end.
Proof.
  unfold getPerformanceMetrics. destruct (performanceHistory e) as [|p history] eqn:H.
  - reflexivity.
  - cbv zeta. split; [cbn [List.length]; lia|]. split; [reflexivity|].
    apply of_nat_positive. cbn [List.length]. lia.
Qed.

End Metrics.

(** ** More on the agent engine *)

Section DecisionKinds.
  Import Js Types Agent Notions.
  Variable env : Env.

Lemma determineBestAction_kinds (e : AgentEngine) (intent : jsval) (context : Context)
  (choice : Choice) :
  determineBestAction e intent context = inr choice ->
  (choice_type choice = tool_execution /\ choice_confidence choice = 0.8%float)
  \/ (choice_type choice = planning /\ choice_confidence choice = 0.7%float).
Proof.
  unfold determineBestAction.
  destruct (prop intent "intent") as [err|primaryIntent]; [discriminate|].
  destruct (prop intent "entities") as [err|entities]; [discriminate|].
  destruct (prop intent "urgency") as [err|urgency]; [discriminate|].
  destruct (prop intent "complexity") as [err|complexity]; [discriminate|].
  cbn [bindE].
  match goal with |- context [filterE ?p ?l] => destruct (filterE p l) as [err|relevant] end;
    [discriminate|].
  cbn [bindE].
  destruct relevant as [|first rest], (safetyLevel (config (state e)));
    try (intros H; inversion H; left; split; reflexivity);
    (destruct (is_string complexity "complex" && learningEnabled (config (state e)));
     [intros H; inversion H; right; split; reflexivity|]);
    rewrite context_has_no_messages; discriminate.
Qed.

Lemma makeDecision_kinds (msg : string) (e e1 : AgentEngine) (d : AgentDecision) :
  makeDecision env msg e = (e1, inr d) ->
  (dec_type d = tool_execution /\ confidence d = 0.8%float)
  \/ (dec_type d = planning /\ confidence d = 0.7%float).
Proof.
  unfold makeDecision. run.
  destruct (determineBestAction e (analyzeIntent env msg (getContext e)) (getContext e))
    as [err|choice] eqn:Hchoice; [discriminate|].
  run. intros H. inversion H; subst. cbn [dec_type confidence].
  exact (determineBestAction_kinds _ _ _ _ Hchoice).
Qed.

(** Whatever the classifier answers, a decision that [makeDecision]
    returns is an invoke with confidence 0.8 or a plan with confidence 0.7:
    it never returns a reply or a learning decision. *)
Theorem makeDecision_only_invokes_or_plans (msg : string) (e e1 : AgentEngine)
  (d : AgentDecision) :
  makeDecision env msg e = (e1, inr d) ->
  (dec_type d = tool_execution /\ confidence d = 0.8%float)
  \/ (dec_type d = planning /\ confidence d = 0.7%float).
Proof. apply makeDecision_kinds. Qed.

(** An answer of the classifier without an [intent] label makes the
    decision throw as soon as one capability is registered: the label's
    [replace] is called once per capability. *)
Theorem determineBestAction_needs_intent_label (e : AgentEngine)
  (props : list (string * jsval)) (context : Context) :
  assoc "intent" props = None ->
  tools e <> [] ->
  determineBestAction e (VObj props) context
  = throw (TypeError "Cannot read properties of undefined (reading 'replace')").
Proof.
  intros Hnone Htools. unfold determineBestAction. cbn [prop bindE ok]. rewrite Hnone.
  destruct (tools e) as [|[k tool] rest] eqn:Ht; [congruence|]. reflexivity.
Qed.

(** The category derived from a label: each category's name, bare or
    followed by one of the three known suffixes, gives that category. *)
Theorem intent_category_strips_suffixes (c : Category) :
  intent_category (VStr (category_name c)) = ok (category_name c)
  /\ intent_category (VStr (category_name c ++ "_operation")) = ok (category_name c)
  /\ intent_category (VStr (category_name c ++ "_search")) = ok (category_name c)
  /\ intent_category (VStr (category_name c ++ "_generation")) = ok (category_name c).
Proof. destruct c; repeat split. Qed.

(** The label "system_command", which the classifier's prompt offers, has
    none of the three suffixes and is no category's name: it selects no
    capability, whatever is registered. *)
Theorem system_command_matches_nothing (e : AgentEngine) : matching "system_command" e = [].
Proof.
  unfold matching. apply filter_none. intros tool. destruct (category tool); reflexivity.
Qed.

End DecisionKinds.

Section RequestAccounting.
  Import Js Types Agent Notions.
  Variable env : Env.

Lemma makeDecision_error_frame (msg : string) (e e1 : AgentEngine) (err : error) :
  makeDecision env msg e = (e1, inl err) -> e1 = e.
Proof.
  unfold makeDecision. run.
  destruct (determineBestAction e (analyzeIntent env msg (getContext e)) (getContext e))
    as [err'|choice].
  - intros H. inversion H. reflexivity.
  - run. discriminate.
Qed.

(** When the decision itself throws, [processMessage] throws the same error
    to its caller, having logged the user message and nothing else: no
    decision, no memory record, and the request is not counted. *)
Theorem processMessage_when_decision_throws (msg : string) (e e1 : AgentEngine) (err : error) :
  makeDecision env msg (received env msg e) = (e1, inl err) ->
  processMessage env msg e = (received env msg e, inl err)
  /\ messages (state (received env msg e))
     = (messages (state e) ++ [userMessage_of env msg e])%list
  /\ decisions (state (received env msg e)) = decisions (state e)
  /\ memory (state (received env msg e)) = memory (state e)
  /\ performance (state (received env msg e)) = performance (state e).
Proof.
  intros Hthrow. pose proof (makeDecision_error_frame _ _ _ _ Hthrow) as ->.
  split; [|repeat split].
  unfold processMessage. run.
  match goal with
  | |- context [makeDecision env msg ?x] => change x with (received env msg e)
  end.
  rewrite Hthrow. reflexivity.
Qed.

Lemma dispatch_counters (decision : AgentDecision) (msg : string) (e : AgentEngine) :
  totalInteractions (performance (state (fst (dispatch env decision msg e))))
  = totalInteractions (performance (state e))
  /\ successfulActions (performance (state (fst (dispatch env decision msg e))))
     = successfulActions (performance (state e)).
Proof.
  unfold dispatch. destruct (dec_type decision).
  - destruct (action decision) as [toolId parameters| |]; [|split; reflexivity ..].
    rewrite executeTool_cases.
    destruct (JsMap.get String.eqb toolId (tools e)) as [tool|]; [|split; reflexivity].
    destruct (match safetyCheck tool with None => inr true | Some check => check parameters end)
      as [err|[|]]; [split; reflexivity| |split; reflexivity].
    destruct (execute tool parameters) as [err|result]; [|split; reflexivity].
    destruct (message_text env err); split; reflexivity.
  - unfold generateResponse. run. destruct (generate env msg (getContext e)); split; reflexivity.
  - split; reflexivity.
  - unfold learnFromInteraction. run. split; reflexivity.
Qed.

(** A request whose decision is made counts as exactly one interaction, and
    as one successful action exactly when the decided action did not raise. *)
Theorem processMessage_counts_one_interaction (msg : string) (e e1 : AgentEngine)
  (d : AgentDecision) :
  makeDecision env msg (received env msg e) = (e1, inr d) ->
  totalInteractions (performance (state (fst (processMessage env msg e))))
  = (totalInteractions (performance (state e)) + 1)%Z
  /\ successfulActions (performance (state (fst (processMessage env msg e))))
     = (successfulActions (performance (state e))
        + match snd (dispatch env d msg (logged d e1)) with inr _ => 1 | inl _ => 0 end)%Z.
Proof.
  intros Hdecide. destruct (makeDecision_frame _ _ _ _ _ Hdecide) as (Hstate & _ & _).
  pose proof (dispatch_counters d msg (logged d e1)) as [Ht Hs].
  rewrite processMessage_run, Hdecide.
  destruct (dispatch env d msg (logged d e1)) as [e2 [err|response]];
    cbv zeta;
    cbn [fst snd state set_state updatePerformance set_performance performance
           totalInteractions successfulActions storeMemory set_memory set_messages] in *;
    rewrite Ht, Hs; cbn [logged state set_state set_decisions performance]; rewrite Hstate;
    change (performance (state (received env msg e))) with (performance (state e));
    split; lia.
Qed.

(** The context handed to the classifier holds the last ten messages and
    the last twenty memory records, oldest first, and the registered ids. *)
Theorem getContext_windows (e : AgentEngine) :
  recentMessages (getContext e) = lastn 10 (messages (state e))
  /\ Agent.ctx_memory (getContext e) = lastn 20 (memory (state e))
  /\ availableTools (getContext e) = JsMap.keys (tools e)
  /\ (List.length (recentMessages (getContext e)) <= 10)%nat
  /\ (List.length (Agent.ctx_memory (getContext e)) <= 20)%nat.
Proof.
  unfold getContext. cbn [recentMessages Agent.ctx_memory availableTools].
  change (-10)%Z with (- Z.of_nat 10)%Z. change (-20)%Z with (- Z.of_nat 20)%Z.
  rewrite !slice_negative by lia.
  repeat split; apply lastn_length.
Qed.

End RequestAccounting.

Lemma makeDecision_only_invokes_or_plans_witness :
  exists e1 d,
    Agent.makeDecision (Examples.answering (Examples.intent_of "code_generation" "simple"))
      "write a parser" (Agent.new (Examples.config_of 10 Types.low true [Examples.coder]))
    = (e1, inr d)
    /\ ((Types.dec_type d = Types.tool_execution /\ Types.confidence d = 0.8%float)
        \/ (Types.dec_type d = Types.planning /\ Types.confidence d = 0.7%float)).
Proof.
  eexists. eexists. split; [cbv; reflexivity|].
  eapply (makeDecision_only_invokes_or_plans
            (Examples.answering (Examples.intent_of "code_generation" "simple"))
            "write a parser" (Agent.new (Examples.config_of 10 Types.low true [Examples.coder]))).
  cbv; reflexivity.
Defined.

Lemma determineBestAction_needs_intent_label_witness :
  Agent.determineBestAction (Agent.new (Examples.config_of 10 Types.low true [Examples.coder]))
    (Js.VObj [("entities", Js.VObj [])])
    (Agent.getContext (Agent.new (Examples.config_of 10 Types.low true [Examples.coder])))
  = Js.throw (Js.TypeError "Cannot read properties of undefined (reading 'replace')").
Proof.
  apply (determineBestAction_needs_intent_label
           (Agent.new (Examples.config_of 10 Types.low true [Examples.coder]))
           [("entities", Js.VObj [])]).
  - reflexivity.
  - cbv. discriminate.
Defined.

Lemma processMessage_when_decision_throws_witness :
  Agent.processMessage Examples.offline "hello"
    (Agent.new (Examples.config_of 10 Types.low true [Examples.coder]))
  = (Notions.received Examples.offline "hello"
       (Agent.new (Examples.config_of 10 Types.low true [Examples.coder])),
     inl (Js.TypeError "Cannot read properties of undefined (reading 'length')")).
Proof.
  refine (proj1 (processMessage_when_decision_throws Examples.offline "hello"
                   (Agent.new (Examples.config_of 10 Types.low true [Examples.coder])) _ _ _)).
  cbv; reflexivity.
Defined.

Lemma processMessage_counts_one_interaction_witness :
  Types.totalInteractions (Types.performance (Agent.state (fst
    (Agent.processMessage (Examples.answering (Examples.intent_of "code_generation" "simple"))
       "write a parser" (Agent.new (Examples.config_of 10 Types.low true [Examples.coder]))))))
  = 1%Z.
Proof.
  refine (proj1 (processMessage_counts_one_interaction
                   (Examples.answering (Examples.intent_of "code_generation" "simple"))
                   "write a parser"
                   (Agent.new (Examples.config_of 10 Types.low true [Examples.coder])) _ _ _)).
  cbv; reflexivity.
Defined.

(** ** The capability registry *)

Section Registry.
  Import Js Types Agent Notions.

Lemma get_delete (V : Type) (k id : string) (m : JsMap.t string V) :
  JsMap.get String.eqb k (JsMap.delete String.eqb id m)
  = if String.eqb k id then None else JsMap.get String.eqb k m.
Proof.
  induction m as [|[k0 v0] m IH]; cbn [JsMap.delete filter JsMap.get fst].
  - destruct (String.eqb k id); reflexivity.
  - fold (JsMap.delete String.eqb id m).
    destruct (String.eqb id k0) eqn:E; cbn [negb JsMap.get].
    + rewrite IH. apply String.eqb_eq in E. subst k0.
      destruct (String.eqb k id); reflexivity.
    + rewrite IH. destruct (String.eqb k id) eqn:E2; [|reflexivity].
      apply String.eqb_eq in E2. subst k. rewrite E. reflexivity.
Qed.

Lemma keys_set (V : Type) (k : string) (v : V) (m : JsMap.t string V) :
  JsMap.keys (JsMap.set String.eqb k v m)
  = if JsMap.has String.eqb k m then JsMap.keys m else (JsMap.keys m ++ [k])%list.
Proof.
  unfold JsMap.has, JsMap.keys.
  induction m as [|[k0 v0] m IH]; cbn [JsMap.set JsMap.get map fst app]; [reflexivity|].
  destruct (String.eqb k k0) eqn:E; cbn [map fst]; [reflexivity|].
  rewrite IH. destruct (JsMap.get String.eqb k m); reflexivity.
Qed.

Lemma has_keys (V : Type) (k : string) (m : JsMap.t string V) :
  JsMap.has String.eqb k m = false -> ~ In k (JsMap.keys m).
Proof.
  unfold JsMap.has, JsMap.keys.
  induction m as [|[k0 v0] m IH]; cbn [JsMap.get map fst In]; [tauto|].
  destruct (String.eqb k k0) eqn:E; [discriminate|].
  intros H [Heq|Hin]; [|exact (IH H Hin)].
  subst k0. rewrite String.eqb_refl in E. discriminate.
Qed.

Lemma keys_set_unique (V : Type) (k : string) (v : V) (m : JsMap.t string V) :
  NoDup (JsMap.keys m) -> NoDup (JsMap.keys (JsMap.set String.eqb k v m)).
Proof.
  intros Hm. rewrite keys_set. destruct (JsMap.has String.eqb k m) eqn:E; [exact Hm|].
  apply NoDup_app; [exact Hm|repeat constructor; intros []|].
  intros x Hx [<-|[]]. exact (has_keys _ _ _ E Hx).
Qed.

Lemma keys_delete_unique (V : Type) (k : string) (m : JsMap.t string V) :
  NoDup (JsMap.keys m) -> NoDup (JsMap.keys (JsMap.delete String.eqb k m)).
Proof.
  unfold JsMap.keys, JsMap.delete.
  induction m as [|[k0 v0] m IH]; cbn [filter map fst]; [trivial|].
  intros H. inversion H as [|? ? Hnotin Hrest]; subst.
  destruct (negb (String.eqb k k0)); [|exact (IH Hrest)].
  cbn [map fst]. constructor; [|exact (IH Hrest)].
  intros Hin. apply Hnotin. apply in_map_iff in Hin. destruct Hin as [[k1 v1] [Hk Hin]].
  apply filter_In in Hin. apply in_map_iff. exists (k1, v1). tauto.
Qed.

Lemma registry_from_snoc (l : list AgentTool) (tool : AgentTool) :
  registry_from (l ++ [tool]) = tools_set tool (registry_from l).
Proof. unfold registry_from. rewrite fold_left_app. reflexivity. Qed.

Lemma registry_from_unique (l : list AgentTool) : NoDup (JsMap.keys (registry_from l)).
Proof.
  induction l as [|tool l IH] using rev_ind; [constructor|].
  rewrite registry_from_snoc. apply keys_set_unique. exact IH.
Qed.

Lemma registry_from_filter (toolId k : string) (l : list AgentTool) :
  JsMap.get String.eqb k
    (registry_from (filter (fun t => negb (String.eqb (tool_id t) toolId)) l))
  = if String.eqb k toolId then None else JsMap.get String.eqb k (registry_from l).
Proof.
  induction l as [|tool l IH] using rev_ind.
  - destruct (String.eqb k toolId); reflexivity.
  - rewrite filter_app, registry_from_snoc. cbn [filter].
    destruct (String.eqb (tool_id tool) toolId) eqn:E; cbn [negb].
    + rewrite app_nil_r, IH. apply String.eqb_eq in E.
      destruct (String.eqb k toolId) eqn:E2; [reflexivity|].
      unfold tools_set. rewrite get_set_other; [reflexivity|].
      apply String.eqb_neq in E2. congruence.
    + rewrite registry_from_snoc. unfold tools_set.
      destruct (String.eqb k (tool_id tool)) eqn:E3.
      * apply String.eqb_eq in E3. subst k. rewrite !get_set_same, E. reflexivity.
      * apply String.eqb_neq in E3. rewrite !get_set_other by exact E3. exact IH.
Qed.

(** Adding a tool registers it under its id, appends it to the list of
    the configuration and leaves every other id as it was. *)
Theorem addTool_then_lookup (tool : AgentTool) (e : AgentEngine) :
  JsMap.get String.eqb (tool_id tool) (tools (addTool tool e)) = Some tool
  /\ config_tools (config (state (addTool tool e)))
     = (config_tools (config (state e)) ++ [tool])%list
  /\ forall k, k <> tool_id tool ->
       JsMap.get String.eqb k (tools (addTool tool e)) = JsMap.get String.eqb k (tools e).
Proof.
  repeat split.
  - apply get_set_same.
  - intros k Hk. apply get_set_other. exact Hk.
Qed.

(** Removing an id leaves no tool under it, neither in the registry nor in
    the list of the configuration, and leaves every other id as it was. *)
Theorem removeTool_then_lookup (toolId : string) (e : AgentEngine) :
  JsMap.get String.eqb toolId (tools (removeTool toolId e)) = None
  /\ (forall t, In t (config_tools (config (state (removeTool toolId e)))) ->
        tool_id t <> toolId /\ In t (config_tools (config (state e))))
  /\ forall k, k <> toolId ->
       JsMap.get String.eqb k (tools (removeTool toolId e)) = JsMap.get String.eqb k (tools e).
Proof.
  repeat split.
  - cbn. rewrite get_delete, String.eqb_refl. reflexivity.
  - cbn in H. apply filter_In in H. destruct H as [_ H].
    apply Bool.negb_true_iff, String.eqb_neq in H. exact H.
  - cbn in H. apply filter_In in H. tauto.
  - intros k Hk. cbn. rewrite get_delete. apply String.eqb_neq in Hk. rewrite Hk. reflexivity.
Qed.

Lemma keyed_by_id_set (tool : AgentTool) (m : JsMap.t string AgentTool) :
  Forall (fun kv => fst kv = tool_id (snd kv)) m ->
  Forall (fun kv => fst kv = tool_id (snd kv)) (tools_set tool m).
Proof.
  intros Hm. unfold tools_set.
  induction Hm as [|[k0 v0] m H0 Hm IH]; cbn [JsMap.set].
  - repeat constructor.
  - destruct (String.eqb (tool_id tool) k0) eqn:E; constructor; auto.
    apply String.eqb_eq in E. cbn. congruence.
Qed.

Lemma keyed_by_id_ids (m : JsMap.t string AgentTool) :
  Forall (fun kv => fst kv = tool_id (snd kv)) m ->
  map tool_id (JsMap.values m) = JsMap.keys m.
Proof.
  unfold JsMap.values, JsMap.keys. induction 1 as [|[k0 v0] m H0 Hm IH]; cbn [map]; [reflexivity|].
  cbn in H0. rewrite IH. cbn. congruence.
Qed.

Lemma addTool_fields (tool : AgentTool) (e : AgentEngine) :
  tools (addTool tool e) = tools_set tool (tools e)
  /\ config_tools (config (state (addTool tool e)))
     = (config_tools (config (state e)) ++ [tool])%list.
Proof. split; reflexivity. Qed.

Lemma removeTool_fields (toolId : string) (e : AgentEngine) :
  tools (removeTool toolId e) = JsMap.delete String.eqb toolId (tools e)
  /\ config_tools (config (state (removeTool toolId e)))
     = filter (fun t => negb (String.eqb (tool_id t) toolId)) (config_tools (config (state e))).
Proof. split; reflexivity. Qed.

Lemma registry_invariant (cfg : AgentConfig) (ops : list ToolOp) :
  let e := fold_left apply_tool_op ops (new cfg) in
  (forall k, JsMap.get String.eqb k (tools e)
             = JsMap.get String.eqb k (registry_from (config_tools (config (state e)))))
  /\ NoDup (JsMap.keys (tools e))
  /\ Forall (fun kv => fst kv = tool_id (snd kv)) (tools e).
Proof.
  induction ops as [|o ops IH] using rev_ind.
  - cbn [fold_left]. split; [reflexivity|]. split; [apply registry_from_unique|].
    cbn [new tools]. change (fold_left (fun m tool => tools_set tool m) (config_tools cfg)
                               JsMap.empty) with (registry_from (config_tools cfg)).
    induction (config_tools cfg) as [|tool l IHl] using rev_ind; [constructor|].
    rewrite registry_from_snoc. apply keyed_by_id_set. exact IHl.
  - rewrite fold_left_app. cbn [fold_left].
    set (e := fold_left apply_tool_op ops (new cfg)) in *.
    cbv zeta in IH. destruct IH as (Hget & Hkeys & Hids).
    destruct o as [tool|toolId]; cbn [apply_tool_op]; cbv zeta.
    + destruct (addTool_fields tool e) as [-> ->]. split; [|split].
      * intros k. rewrite registry_from_snoc. unfold tools_set.
        destruct (String.eqb k (tool_id tool)) eqn:E.
        -- apply String.eqb_eq in E. subst k. rewrite !get_set_same. reflexivity.
        -- apply String.eqb_neq in E. rewrite !get_set_other by exact E. apply Hget.
      * apply keys_set_unique. exact Hkeys.
      * apply keyed_by_id_set. exact Hids.
    + destruct (removeTool_fields toolId e) as [-> ->]. split; [|split].
      * intros k. rewrite get_delete, registry_from_filter, Hget. reflexivity.
      * apply keys_delete_unique. exact Hkeys.
      * unfold JsMap.delete. apply Forall_forall. intros kv Hin.
        apply filter_In in Hin. destruct Hin as [Hin _].
        rewrite Forall_forall in Hids. exact (Hids kv Hin).
Qed.

(** After any sequence of [addTool] and [removeTool] on a new engine, the
    registry answers every lookup as the registry that the constructor would
    build from the current list of the configuration. *)
Theorem registry_agrees_with_configuration (cfg : AgentConfig) (ops : list ToolOp) (k : string) :
  JsMap.get String.eqb k (tools (fold_left apply_tool_op ops (new cfg)))
  = JsMap.get String.eqb k
      (registry_from (config_tools (config (state (fold_left apply_tool_op ops (new cfg)))))).
Proof. apply (registry_invariant cfg ops). Qed.

(** After any sequence of [addTool] and [removeTool] on a new engine,
    [getTools] lists no id twice, also when the list of the configuration
    does. *)
Theorem getTools_lists_each_id_once (cfg : AgentConfig) (ops : list ToolOp) :
  NoDup (map tool_id (getTools (fold_left apply_tool_op ops (new cfg)))).
Proof.
  destruct (registry_invariant cfg ops) as (_ & Hkeys & Hids).
  unfold getTools. rewrite keyed_by_id_ids by exact Hids. exact Hkeys.
Qed.

Lemma registry_from_in (l : list AgentTool) (k : string) (t : AgentTool) :
  JsMap.get String.eqb k (registry_from l) = Some t -> In t l.
Proof.
  induction l as [|a l IH] using rev_ind; [discriminate|].
  rewrite registry_from_snoc. unfold tools_set.
  destruct (String.eqb k (tool_id a)) eqn:E.
  - apply String.eqb_eq in E. subst k. rewrite get_set_same. intros H. inversion H; subst.
    apply in_or_app. right. left. reflexivity.
  - apply String.eqb_neq in E. rewrite get_set_other by exact E. intros H.
    apply in_or_app. left. exact (IH H).
Qed.

Lemma values_untouched (k : string) (tool : AgentTool) (m : JsMap.t string AgentTool) :
  ~ In k (JsMap.keys m) ->
  Forall (fun kv => fst kv = tool_id (snd kv)) m ->
  map (fun t => if String.eqb (tool_id t) k then tool else t) (JsMap.values m)
  = JsMap.values m.
Proof.
  unfold JsMap.keys, JsMap.values. intros Hnot Hids.
  induction Hids as [|[k0 v0] m H0 Hids IH]; [reflexivity|].
  cbn [map fst snd In] in *.
  rewrite IH by (intros Hin; apply Hnot; right; exact Hin).
  destruct (String.eqb (tool_id v0) k) eqn:E; [|reflexivity].
  apply String.eqb_eq in E. exfalso. apply Hnot. left. congruence.
Qed.

Lemma values_set_existing (tool old : AgentTool) (m : JsMap.t string AgentTool) :
  NoDup (JsMap.keys m) ->
  Forall (fun kv => fst kv = tool_id (snd kv)) m ->
  JsMap.get String.eqb (tool_id tool) m = Some old ->
  JsMap.values (tools_set tool m)
  = map (fun t => if String.eqb (tool_id t) (tool_id tool) then tool else t) (JsMap.values m).
Proof.
  unfold tools_set. intros Hkeys Hids.
  induction Hids as [|[k0 v0] m H0 Hids IH]; [discriminate|].
  cbn [fst snd] in H0. subst k0.
  unfold JsMap.keys in Hkeys. cbn [map fst] in Hkeys.
  inversion Hkeys as [|? ? Hnot Hrest]; subst.
  cbn [JsMap.get JsMap.set].
  destruct (String.eqb (tool_id tool) (tool_id v0)) eqn:E.
  - intros _. apply String.eqb_eq in E.
    unfold JsMap.values at 1 2. cbn [map snd]. fold (JsMap.values m).
    rewrite <- E, String.eqb_refl. f_equal. symmetry.
    apply values_untouched; [rewrite E; exact Hnot|exact Hids].
  - intros Hget.
    unfold JsMap.values at 1 2. cbn [map snd].
    fold (JsMap.values (JsMap.set String.eqb (tool_id tool) tool m)). fold (JsMap.values m).
    rewrite String.eqb_sym, E. f_equal. exact (IH Hrest Hget).
Qed.

(** On an engine reached from the constructor by [addTool] and
    [removeTool], adding a tool under an id that is already registered makes
    the id answer the new tool and puts it at the place of the old one in
    [getTools], every other tool staying where it was; the list of the
    configuration receives the new tool at its end and still holds the
    replaced one. *)
Theorem addTool_existing_id (cfg : AgentConfig) (ops : list ToolOp) (tool old : AgentTool)
  (e : AgentEngine) :
  e = fold_left apply_tool_op ops (new cfg) ->
  JsMap.get String.eqb (tool_id tool) (tools e) = Some old ->
  JsMap.get String.eqb (tool_id tool) (tools (addTool tool e)) = Some tool
  /\ getTools (addTool tool e)
     = map (fun t => if String.eqb (tool_id t) (tool_id tool) then tool else t) (getTools e)
  /\ config_tools (config (state (addTool tool e)))
     = (config_tools (config (state e)) ++ [tool])%list
  /\ In old (config_tools (config (state (addTool tool e)))).
Proof.
  intros -> Hold.
  destruct (registry_invariant cfg ops) as (Hget & Hkeys & Hids). cbv zeta in *.
  set (e := fold_left apply_tool_op ops (new cfg)) in *.
  destruct (addTool_fields tool e) as [Htools Hconfig].
  split; [rewrite Htools; apply get_set_same|].
  split; [unfold getTools; rewrite Htools; exact (values_set_existing _ _ _ Hkeys Hids Hold)|].
  split; [exact Hconfig|].
  rewrite Hconfig. apply in_or_app. left.
  apply (registry_from_in _ (tool_id tool)). rewrite <- Hget. exact Hold.
Qed.

End Registry.

Lemma addTool_existing_id_witness :
  JsMap.get String.eqb "code_generate"
    (Agent.tools (Agent.addTool (Examples.tool "code_generate" Types.file None)
                    (Agent.new (Examples.config_of 10 Types.low true [Examples.coder]))))
  = Some (Examples.tool "code_generate" Types.file None)
  /\ Agent.getTools (Agent.addTool (Examples.tool "code_generate" Types.file None)
                       (Agent.new (Examples.config_of 10 Types.low true [Examples.coder])))
     = [Examples.tool "code_generate" Types.file None]
  /\ Types.config_tools (Types.config (Agent.state
       (Agent.addTool (Examples.tool "code_generate" Types.file None)
          (Agent.new (Examples.config_of 10 Types.low true [Examples.coder])))))
     = [Examples.coder; Examples.tool "code_generate" Types.file None].
Proof.
  destruct (addTool_existing_id (Examples.config_of 10 Types.low true [Examples.coder]) []
              (Examples.tool "code_generate" Types.file None) Examples.coder
              (Agent.new (Examples.config_of 10 Types.low true [Examples.coder]))
              eq_refl eq_refl)
    as (Hanswer & Hlisted & Hconfig & _).
  split; [exact Hanswer|]. split; [exact Hlisted|exact Hconfig].
Defined.

(** ** More on the learning engine *)

Section LearningRuns.
  Import Js Types Learning Notions.
  Variable clock : nat -> Z.


Lemma window_lastn {A} (l : list A) :
  (if (1000 <? List.length l)%nat then slice (-1000) l else l) = lastn 1000 l.
Proof.
  destruct (1000 <? List.length l)%nat eqn:E.
  - change (-1000)%Z with (- Z.of_nat 1000)%Z. apply slice_negative. lia.
  - apply Nat.ltb_ge in E. unfold lastn.
    replace (List.length l - 1000)%nat with 0%nat by lia. reflexivity.
Qed.

Lemma learnFromInteraction_run (message response : AgentMessage) (decision : AgentDecision)
  (context : Context) (e : LearningEngine) :
  let found := extractPatterns (content message) in
  let analysed :=
    {| pattern_table := fold_left (update_pattern decision) found (pattern_table e);
       performanceHistory :=
         lastn 1000 (performanceHistory e ++ [entry_of clock decision context e]);
       adaptationRules := adaptationRules e;
       console := console e;
       ticks := S (ticks e) |} in
  learnFromInteraction clock message response decision context e
  = match filterE (holds context) (JsMap.values (adaptationRules e)) with
    | inl err => (analysed, inl err)
    | inr applicable =>
        let adapted :=
          write_lines (map (fun r => adaptation_line (rule_action r)) (sort_rules applicable))
            analysed in
        ({| pattern_table := pattern_table adapted;
            performanceHistory := performanceHistory adapted;
            adaptationRules := adaptationRules adapted;
            console :=
              (console adapted
               ++ [LogInsight "Storing learning insight:"
                     {| ins_timestamp := clock (ticks adapted);
                        ins_message := content message;
                        ins_response := content response;
                        ins_decision := decision;
                        ins_patterns := found;
                        ins_success := (0.5 <? confidence decision)%float |}])%list;
            ticks := S (ticks adapted) |}, inr tt)
    end.
Proof.
  cbv zeta. unfold learnFromInteraction. rewrite bind_run, modify_run. cbv beta iota.
  unfold analyzePerformance. rewrite !bind_run. unfold Learning.now at 1. cbv beta iota.
  rewrite modify_run. cbv beta iota. rewrite bind_run.
  rewrite adaptBehavior_run.
  cbn [adaptationRules set_history updatePatternRecognition set_patterns pattern_table
         performanceHistory console ticks].
  unfold set_history. cbv beta zeta.
  cbn [adaptationRules pattern_table performanceHistory console ticks].
  rewrite !window_lastn.
  destruct (filterE (holds context) (JsMap.values (adaptationRules e))) as [err|applicable].
  - reflexivity.
  - cbv beta iota.
    unfold storeLearningInsights. rewrite bind_run. unfold Learning.now at 1. cbv beta iota.
    rewrite modify_run. reflexivity.
Qed.



(** With the rules of the constructor, [learnFromInteraction] needs a
    context with [performance] and [memory]: without [performance] the first
    rule raises a TypeError, without [memory] the third one does, and with
    both the call returns. *)
Theorem learn_needs_performance_and_memory (message response : AgentMessage)
  (decision : AgentDecision) (context : Context) (e : LearningEngine) :
  adaptationRules e = adaptationRules Learning.new ->
  snd (learnFromInteraction clock message response decision context e)
  = match ctx_performance context, ctx_memory context with
    | None, _ =>
        inl (TypeError
               "Cannot read properties of undefined (reading 'averageResponseTime')")
    | Some _, None =>
        inl (TypeError "Cannot read properties of undefined (reading 'length')")
    | Some _, Some _ => inr tt
    end.
Proof.
  intros Hrules. rewrite learnFromInteraction_run. cbv zeta. rewrite Hrules.
  cbn [Learning.new initializeAdaptationRules initializePatterns set_rules set_patterns
         adaptationRules JsMap.set JsMap.empty JsMap.values map snd String.eqb Ascii.eqb
         Bool.eqb filterE holds condition].
  unfold response_time_slow, success_rate_low, memory_large.
  destruct (ctx_performance context) as [p|]; [|reflexivity].
  destruct (ctx_memory context) as [l|].
  - cbn [bindE ok filterE holds condition].
    destruct (5000 <? averageResponseTime p)%float,
             (of_Z (successfulActions p) / of_Z (totalInteractions p) <? 0.8)%float,
             (1000 <? List.length l)%nat; reflexivity.
  - cbn [bindE ok filterE holds condition].
    destruct (5000 <? averageResponseTime p)%float,
             (of_Z (successfulActions p) / of_Z (totalInteractions p) <? 0.8)%float;
      reflexivity.
Qed.

End LearningRuns.

Lemma learn_needs_performance_and_memory_witness :
  snd (Learning.learnFromInteraction Examples.ticking (Examples.said "help me")
         (Examples.said "ok") (Examples.decided 0.9%float) Examples.no_context Learning.new)
  = inl (Js.TypeError "Cannot read properties of undefined (reading 'averageResponseTime')").
Proof.
  apply (learn_needs_performance_and_memory Examples.ticking (Examples.said "help me")
           (Examples.said "ok") (Examples.decided 0.9%float) Examples.no_context Learning.new).
  reflexivity.
Defined.

Section LearnedPatterns.
  Import Js Types Learning Notions.
  Variable clock : nat -> Z.





Lemma get_update_pattern (decision : AgentDecision) (table : JsMap.t string PatternData)
  (pattern key : string) :
  key <> pattern ->
  JsMap.get String.eqb key (update_pattern decision table pattern)
  = JsMap.get String.eqb key table.
Proof.
  intros Hne. unfold update_pattern.
  destruct (JsMap.get String.eqb pattern table); apply get_set_other; exact Hne.
Qed.

Lemma fold_update_untouched (decision : AgentDecision) (found : list string) (key : string)
  (table : JsMap.t string PatternData) :
  times key found = 0%nat ->
  JsMap.get String.eqb key (fold_left (update_pattern decision) found table)
  = JsMap.get String.eqb key table.
Proof.
  revert table. induction found as [|p found IH]; intros table; [reflexivity|].
  unfold times. cbn [filter fold_left]. destruct (String.eqb key p) eqn:E; [discriminate|].
  intros H. rewrite IH by exact H. apply get_update_pattern. apply String.eqb_neq. exact E.
Qed.

(** A key that is extracted at least once ends with an entry whose count
    is the count it had, or zero, plus the number of times it was extracted:
    duplicates among the extracted keys are all counted. The answer of a new
    entry is the type of the decision; that of an old one never changes. *)
Theorem updatePatternRecognition_counts_every_occurrence (decision : AgentDecision)
  (found : list string) (key : string) (e : LearningEngine) :
  (0 < times key found)%nat ->
  exists d,
    JsMap.get String.eqb key (pattern_table (updatePatternRecognition found decision e))
    = Some d
    /\ occurrences d
       = Some (seen (JsMap.get String.eqb key (pattern_table e)) + times key found)%nat
    /\ response d
       = match JsMap.get String.eqb key (pattern_table e) with
         | Some d0 => response d0
         | None => type_name (dec_type decision)
         end.
Proof.
  cbn [updatePatternRecognition set_patterns pattern_table].
  generalize (pattern_table e). clear e.
  induction found as [|p found IH]; intros table Htimes; [cbn in Htimes; lia|].
  cbn [fold_left]. unfold times in Htimes |- *. cbn [filter] in Htimes |- *.
  destruct (String.eqb key p) eqn:E.
  - apply String.eqb_eq in E. subst p. cbn [List.length] in Htimes |- *.
    fold (times key found) in *.
    assert (Hstep : exists d1,
               JsMap.get String.eqb key (update_pattern decision table key) = Some d1
               /\ occurrences d1 = Some (seen (JsMap.get String.eqb key table) + 1)%nat
               /\ response d1 = match JsMap.get String.eqb key table with
                                | Some d0 => response d0
                                | None => type_name (dec_type decision)
                                end).
    { unfold update_pattern.
      destruct (JsMap.get String.eqb key table) as [d0|]; rewrite get_set_same;
        eexists; (split; [reflexivity|]); split; reflexivity. }
    destruct Hstep as (d1 & Hget1 & Hocc1 & Hresp1).
    destruct (times key found) as [|n] eqn:Hn.
    + exists d1. rewrite fold_update_untouched by exact Hn.
      split; [exact Hget1|]. split; [|exact Hresp1]. rewrite Hocc1. f_equal.
    + destruct (IH (update_pattern decision table key)) as (d & Hget & Hocc & Hresp).
      { lia. }
      exists d. split; [exact Hget|]. rewrite Hget1 in Hocc, Hresp. cbn [seen] in Hocc.
      rewrite Hocc1 in Hocc. split; [|congruence]. rewrite Hocc. f_equal. lia.
  - fold (times key found) in *.
    destruct (IH (update_pattern decision table p) Htimes) as (d & Hget & Hocc & Hresp).
    rewrite get_update_pattern in Hocc, Hresp by (apply String.eqb_neq; exact E).
    exists d. repeat split; assumption.
Qed.

End LearnedPatterns.

Section ExtractedKeys.
  Import Js Types Learning Notions.
  Variable clock : nat -> Z.

Lemma prefix_app (sub b : string) : String.prefix sub (sub ++ b) = true.
Proof.
  induction sub as [|c rest IH]; [destruct b; reflexivity|].
  cbn [append String.prefix]. destruct (ascii_dec c c); [exact IH|congruence].
Qed.

Lemma includes_prefix (sub s : string) : String.prefix sub s = true -> includes sub s = true.
Proof. intros H. destruct s; cbn [includes]; rewrite H; reflexivity. Qed.

Lemma includes_app (sub a b : string) : includes sub (a ++ sub ++ b) = true.
Proof.
  induction a as [|c a IH].
  - cbn [append]. apply includes_prefix, prefix_app.
  - cbn [append includes]. rewrite IH. apply Bool.orb_true_r.
Qed.

Lemma bigrams_spaced (words : list string) (p : string) :
  In p (bigrams words) -> includes " " p = true.
Proof.
  induction words as [|a [|b rest] IH]; cbn [bigrams In]; try tauto.
  intros [<-|Hin]; [apply includes_app|exact (IH Hin)].
Qed.

Lemma trigrams_spaced (words : list string) (p : string) :
  In p (trigrams words) -> includes " " p = true.
Proof.
  induction words as [|a [|b [|c rest]] IH]; cbn [trigrams In]; try tauto.
  intros [<-|Hin]; [apply includes_app|exact (IH Hin)].
Qed.

Lemma extracted_spaced (content p : string) :
  In p (extractPatterns content) -> includes " " p = true \/ p = "please".
Proof.
  unfold extractPatterns. intros Hin.
  apply in_app_or in Hin. destruct Hin as [Hin|Hin]; [left; exact (bigrams_spaced _ _ Hin)|].
  apply in_app_or in Hin. destruct Hin as [Hin|Hin]; [left; exact (trigrams_spaced _ _ Hin)|].
  apply filter_In in Hin. destruct Hin as [Hin _].
  cbn in Hin. repeat (destruct Hin as [<-|Hin]; [(left; reflexivity) || (right; reflexivity)|]).
  destruct Hin.
Qed.

Lemma times_zero (key : string) (found : list string) :
  (forall p, In p found -> p <> key) -> times key found = 0%nat.
Proof.
  unfold times. induction found as [|p found IH]; intros H; [reflexivity|].
  cbn [filter]. destruct (String.eqb key p) eqn:E.
  - apply String.eqb_eq in E. exfalso. apply (H p); [left; reflexivity|congruence].
  - apply IH. intros q Hq. apply H. right. exact Hq.
Qed.

Lemma never_extracted (content key : string) :
  includes " " key = false -> key <> "please" -> times key (extractPatterns content) = 0%nat.
Proof.
  intros Hspace Hplease. apply times_zero. intros p Hin ->.
  destruct (extracted_spaced _ _ Hin) as [H|H]; congruence.
Qed.

(** A key without a space, other than the key phrase "please", is never
    extracted from a message: learning leaves the entry under such a key as
    it is, whatever the message. The five seeded entries are of this kind. *)
Theorem learning_never_updates_single_word_keys (message response : AgentMessage)
  (decision : AgentDecision) (context : Context) (e : LearningEngine) (key : string) :
  includes " " key = false ->
  key <> "please" ->
  JsMap.get String.eqb key
    (pattern_table (fst (learnFromInteraction clock message response decision context e)))
  = JsMap.get String.eqb key (pattern_table e).
Proof.
  intros Hspace Hplease. rewrite learn_pattern_table.
  apply fold_update_untouched. apply never_extracted; assumption.
Qed.

Lemma get_some_key {V} (k : string) (v : V) (m : JsMap.t string V) :
  JsMap.get String.eqb k m = Some v -> In k (JsMap.keys m).
Proof.
  unfold JsMap.keys. induction m as [|[k0 v0] m IH]; cbn [JsMap.get map fst In]; [discriminate|].
  destruct (String.eqb k k0) eqn:E.
  - intros _. left. apply String.eqb_eq in E. congruence.
  - intros H. right. exact (IH H).
Qed.

Lemma predictions_of_none (table : JsMap.t string PatternData) (found : list string) :
  (forall p, In p found -> JsMap.get String.eqb p table = None) ->
  predictions_of table found = [].
Proof.
  induction found as [|p found IH]; intros H; [reflexivity|].
  cbn [predictions_of]. rewrite (H p) by (left; reflexivity).
  apply IH. intros q Hq. apply H. right. exact Hq.
Qed.

Lemma seeded_keys_not_extracted (content p : string) (d : PatternData) :
  In p (extractPatterns content) ->
  JsMap.get String.eqb p (pattern_table Learning.new) = Some d -> False.
Proof.
  intros Hin Hget. apply get_some_key in Hget.
  destruct (extracted_spaced _ _ Hin) as [H|H];
    cbn in Hget; repeat (destruct Hget as [<-|Hget]; [discriminate|]); destruct Hget.
Qed.

(** On a new engine, and on any engine after [reset], [predictIntent]
    answers "unknown" with confidence 0.1 for every message: the seeded
    entries stand under names that [extractPatterns] never produces. *)
Theorem predictIntent_ignores_seeded_patterns (content : string) (e : LearningEngine) :
  predictIntent content Learning.new = unknown
  /\ predictIntent content (reset e) = unknown.
Proof.
  assert (H : predictions_of (pattern_table Learning.new) (extractPatterns content) = []).
  { apply predictions_of_none. intros p Hin.
    destruct (JsMap.get String.eqb p (pattern_table Learning.new)) as [d|] eqn:Hget;
      [|reflexivity].
    exfalso. exact (seeded_keys_not_extracted _ _ _ Hin Hget). }
  split; unfold predictIntent.
  - rewrite H. reflexivity.
  - change (pattern_table (reset e)) with (pattern_table Learning.new). rewrite H. reflexivity.
Qed.

Lemma predictions_of_in (table : JsMap.t string PatternData) (found : list string)
  (q : Prediction) :
  In q (predictions_of table found) ->
  exists d, In (pred_pattern q) found
            /\ JsMap.get String.eqb (pred_pattern q) table = Some d
            /\ pred_intent q = response d
            /\ pred_confidence q = pat_confidence d.
Proof.
  induction found as [|p found IH]; cbn [predictions_of In]; [tauto|].
  destruct (JsMap.get String.eqb p table) as [d|] eqn:Hget.
  - intros [<-|Hin].
    + exists d. cbn. repeat split; [left; reflexivity|exact Hget].
    + destruct (IH Hin) as (d' & H1 & H2). exists d'. split; [right; exact H1|exact H2].
  - intros Hin. destruct (IH Hin) as (d' & H1 & H2). exists d'. split; [right; exact H1|exact H2].
Qed.

Lemma predictions_of_empty (table : JsMap.t string PatternData) (found : list string) :
  predictions_of table found = [] ->
  forall p, In p found -> JsMap.get String.eqb p table = None.
Proof.
  induction found as [|p found IH]; cbn [predictions_of In]; [tauto|].
  destruct (JsMap.get String.eqb p table) as [d|] eqn:Hget; [discriminate|].
  intros H q [<-|Hq]; [exact Hget|exact (IH H q Hq)].
Qed.

Lemma insert_prediction_in (a q : Prediction) (l : list Prediction) :
  In q (insert_prediction a l) -> q = a \/ In q l.
Proof.
  induction l as [|b l IH]; cbn [insert_prediction In]; [intuition congruence|].
  destruct (0 <? pred_confidence b - pred_confidence a)%float; cbn [In].
  - intros [Hb|Hin]; [right; left; exact Hb|]. destruct (IH Hin) as [H|H]; [left; exact H|].
    right. right. exact H.
  - intros [Ha|Hin]; [left; symmetry; exact Ha|right; exact Hin].
Qed.

Lemma sort_predictions_in (q : Prediction) (l : list Prediction) :
  In q (sort_predictions l) -> In q l.
Proof.
  induction l as [|a l IH]; cbn [sort_predictions fold_right In]; [tauto|].
  intros H. apply insert_prediction_in in H. destruct H as [->|H]; [left; reflexivity|].
  right. exact (IH H).
Qed.

Lemma insert_prediction_nonempty (a : Prediction) (l : list Prediction) :
  insert_prediction a l <> [].
Proof.
  destruct l as [|b l]; cbn; [discriminate|].
  destruct (0 <? pred_confidence b - pred_confidence a)%float; discriminate.
Qed.

(** [predictIntent] never invents an answer: it returns the entry that the
    table holds under one of the keys extracted from the message, with that
    entry's answer and confidence, and it answers "unknown" exactly when the
    table holds none of the extracted keys. *)
Theorem predictIntent_answers_from_table (content : string) (e : LearningEngine) :
  (predictIntent content e = unknown
   /\ forall p, In p (extractPatterns content) ->
                JsMap.get String.eqb p (pattern_table e) = None)
  \/ exists d,
       In (pred_pattern (predictIntent content e)) (extractPatterns content)
       /\ JsMap.get String.eqb (pred_pattern (predictIntent content e)) (pattern_table e)
          = Some d
       /\ pred_intent (predictIntent content e) = response d
       /\ pred_confidence (predictIntent content e) = pat_confidence d.
Proof.
  unfold predictIntent.
  destruct (predictions_of (pattern_table e) (extractPatterns content)) as [|a l] eqn:Hp.
  - left. split; [reflexivity|]. apply predictions_of_empty. exact Hp.
  - right.
    destruct (sort_predictions (a :: l)) as [|best rest] eqn:Hs.
    + exfalso. exact (insert_prediction_nonempty _ _ Hs).
    + apply predictions_of_in. rewrite Hp. apply sort_predictions_in. rewrite Hs.
      left. reflexivity.
Qed.

End ExtractedKeys.

Section UnreachedBranches.
  Import Js Types Agent Notions.
  Variable env : Env.

Lemma dispatch_performance (d : AgentDecision) (msg : string) (e : AgentEngine) :
  dec_type d <> learning ->
  performance (state (fst (dispatch env d msg e))) = performance (state e).
Proof.
  intros Hkind. unfold dispatch. destruct (dec_type d); [| | |congruence].
  - destruct (action d) as [toolId parameters| |]; [|reflexivity ..].
    rewrite executeTool_cases.
    destruct (JsMap.get String.eqb toolId (tools e)) as [tool|]; [|reflexivity].
    destruct (match safetyCheck tool with None => inr true | Some check => check parameters end)
      as [err|[|]]; [reflexivity| |reflexivity].
    destruct (execute tool parameters) as [err|result]; [|reflexivity].
    destruct (message_text env err); reflexivity.
  - unfold generateResponse. run. destruct (generate env msg (getContext e)); reflexivity.
  - reflexivity.
Qed.

End UnreachedBranches.

Section UnreachedBranchesOfProcessMessage.
  Import Js Types Agent Notions.
  Variable env : Env.

(** [processMessage] never reaches [generateResponse]: with any other
    response generator it ends in the same state with the same result. (The
    only branch that decides on a reply throws before it returns.) *)
Theorem processMessage_never_generates (g : string -> Context -> exn string) (msg : string)
  (e : AgentEngine) :
  processMessage (with_generate g env) msg e = processMessage env msg e.
Proof.
  rewrite !processMessage_run.
  change (makeDecision (with_generate g env)) with (makeDecision env).
  change (received (with_generate g env) msg e) with (received env msg e).
  destruct (makeDecision env msg (received env msg e)) as [e1 [err|d]] eqn:Hdecide;
    [reflexivity|].
  assert (Hsame : dispatch (with_generate g env) d msg = dispatch env d msg).
  { unfold dispatch.
    destruct (makeDecision_kinds _ _ _ _ _ Hdecide) as [[-> _]|[-> _]]; reflexivity. }
  rewrite Hsame. reflexivity.
Qed.

(** [processMessage] never reaches [learnFromInteraction] either: the
    learning progress of the engine is the same after every request. *)
Theorem processMessage_keeps_learning_progress (msg : string) (e : AgentEngine) :
  learningProgress (performance (state (fst (processMessage env msg e))))
  = learningProgress (performance (state e)).
Proof.
  rewrite processMessage_run.
  destruct (makeDecision env msg (received env msg e)) as [e1 [err|d]] eqn:Hdecide.
  - rewrite (makeDecision_error_frame _ _ _ _ _ Hdecide). reflexivity.
  - destruct (makeDecision_frame _ _ _ _ _ Hdecide) as (Hstate & _ & _).
    assert (Hperf : performance (state (fst (dispatch env d msg (logged d e1))))
                    = performance (state e)).
    { rewrite dispatch_performance.
      - cbn [logged state set_state set_decisions performance]. rewrite Hstate. reflexivity.
      - destruct (makeDecision_kinds _ _ _ _ _ Hdecide) as [[-> _]|[-> _]]; discriminate. }
    destruct (dispatch env d msg (logged d e1)) as [e2 [err|response]];
      cbn [fst] in Hperf; cbv zeta;
      cbn [fst state set_state updatePerformance set_performance performance learningProgress
             storeMemory set_memory set_messages];
      rewrite Hperf; reflexivity.
Qed.

End UnreachedBranchesOfProcessMessage.

Section MoreExamples.
  Import Js Types Notions.


Lemma updatePatternRecognition_counts_witness :
  exists d,
    JsMap.get String.eqb "help me"
      (Learning.pattern_table
         (Learning.updatePatternRecognition (Learning.extractPatterns "help me")
            (Examples.decided 0.9%float) Learning.new))
    = Some d
    /\ Learning.occurrences d = Some 2%nat
    /\ Learning.response d = "response_generation".
Proof.
  destruct (updatePatternRecognition_counts_every_occurrence (Examples.decided 0.9%float)
              (Learning.extractPatterns "help me") "help me" Learning.new)
    as (d & Hget & Hcount & Hanswer).
  - vm_compute. lia.
  - exists d. split; [exact Hget|]. split; [exact Hcount|exact Hanswer].
Defined.

Lemma learning_never_updates_single_word_keys_witness :
  JsMap.get String.eqb "greeting"
    (Learning.pattern_table
       (fst (Learning.learnFromInteraction Examples.ticking (Examples.said "hello greeting you")
               (Examples.said "ok") (Examples.decided 0.9%float) Examples.full_context
               Learning.new)))
  = JsMap.get String.eqb "greeting" (Learning.pattern_table Learning.new).
Proof.
  apply (learning_never_updates_single_word_keys Examples.ticking
           (Examples.said "hello greeting you") (Examples.said "ok")
           (Examples.decided 0.9%float) Examples.full_context Learning.new "greeting").
  - reflexivity.
  - discriminate.
Defined.

End MoreExamples.
